(** * AIFileManager: the server side of the document manager

    A shallow embedding of
      - server/storage.ts          (DatabaseStorage),
      - server/services/ocr.ts     (OCRService),
      - server/services/openai.ts  (OpenAIService),
      - server/services/fileProcessor.ts (FileProcessor),
      - server/routes.ts           (the folder, upload and AI command handlers),
    followed by the properties of the processing pipeline, of the folder
    paths and of the AI command records.

    Asynchronous code is written in a state-and-exception monad over a
    [World]: the tables of the database, the OCR worker slot of the
    [ocrService] singleton, the state of everything outside the process
    (OCR engine, language model, clock, database connection) and two
    pieces of bookkeeping that the code never reads: the trace of the
    calls made so far and the list of promises started without [await]. *)

From Stdlib Require Import List String Ascii ZArith Bool Lia.
From Stdlib Require Import Sorted Permutation.
Import ListNotations.
Open Scope string_scope.
Open Scope list_scope.
Open Scope Z_scope.

Set Implicit Arguments.

(* ================================================================= *)
(** ** Values *)

(** The outcome of a call: a value, or a thrown exception (its message). *)
Inductive Res (A : Type) : Type :=
| Ok (a : A)
| Throw (e : string).
Arguments Ok {A} a.
Arguments Throw {A} e.

Definition is_ok {A} (r : Res A) : bool :=
  match r with Ok _ => true | Throw _ => false end.

(** JSON values, as [JSON.parse] returns them and a [jsonb] column stores
    them. *)
#[local] Unset Elimination Schemes.
Inductive json : Type :=
| JNull
| JBool (b : bool)
| JNumber (n : Z)
| JString (s : string)
| JArray (items : list json)
| JObject (members : list (string * json)).
#[local] Set Elimination Schemes.

(** JavaScript truthiness of a string: every string but the empty one. *)
Definition truthy_string (s : string) : bool :=
  match s with EmptyString => false | String _ _ => true end.

(** [a || b] on strings. *)
Definition or_string (a b : string) : string :=
  if truthy_string a then a else b.

(** Truthiness of an optional number ([undefined], [null] and [0] are
    falsy). *)
Definition truthy_id (i : option Z) : bool :=
  match i with Some n => negb (n =? 0) | None => false end.

(** [parentId || null]. *)
Definition or_null (i : option Z) : option Z :=
  if truthy_id i then i else None.

(** [Array.prototype.includes] on strings (strict equality). *)
Definition includes (l : list string) (s : string) : bool :=
  existsb (String.eqb s) l.

(* ----------------------------------------------------------------- *)
(** *** String.prototype.trim

    Strings are kept as their UTF-8 bytes.  [trim] removes the ECMAScript
    white space and line terminators from both ends: U+0009..U+000D,
    U+0020, U+00A0, U+1680, U+2000..U+200A, U+2028, U+2029, U+202F,
    U+205F, U+3000 and U+FEFF. *)

Definition ws1 (a : nat) : bool :=
  ((9 <=? a) && (a <=? 13) || (a =? 32))%nat.

Definition ws2 (a b : nat) : bool :=
  ((a =? 194) && (b =? 160))%nat.

Definition ws3 (a b c : nat) : bool :=
  ((a =? 225) && (b =? 154) && (c =? 128)
   || (a =? 226) && (b =? 128)
      && ((128 <=? c) && (c <=? 138) || (c =? 168) || (c =? 169) || (c =? 175))
   || (a =? 226) && (b =? 129) && (c =? 159)
   || (a =? 227) && (b =? 128) && (c =? 128)
   || (a =? 239) && (b =? 187) && (c =? 191))%nat.

(** Drops leading white space; with [back] the string is read from its
    end, so the bytes of a character arrive in reverse. *)
Fixpoint strip_ws (back : bool) (s : string) : string :=
  match s with
  | EmptyString => EmptyString
  | String a r =>
      if ws1 (nat_of_ascii a) then strip_ws back r
      else
        match r with
        | EmptyString => s
        | String b r2 =>
            if (if back then ws2 (nat_of_ascii b) (nat_of_ascii a)
                else ws2 (nat_of_ascii a) (nat_of_ascii b))
            then strip_ws back r2
            else
              match r2 with
              | EmptyString => s
              | String c r3 =>
                  if (if back
                      then ws3 (nat_of_ascii c) (nat_of_ascii b)
                             (nat_of_ascii a)
                      else ws3 (nat_of_ascii a) (nat_of_ascii b)
                             (nat_of_ascii c))
                  then strip_ws back r3
                  else s
              end
        end
  end.

Fixpoint string_rev_onto (s acc : string) : string :=
  match s with
  | EmptyString => acc
  | String a r => string_rev_onto r (String a acc)
  end.

Definition string_rev (s : string) : string := string_rev_onto s EmptyString.

Definition trim (s : string) : string :=
  string_rev (strip_ws true (string_rev (strip_ws false s))).

(* ================================================================= *)
(** ** shared/schema.ts: the rows *)

Module Folder.
Record t : Type := mk {
  id : Z;
  userId : string;
  name : string;
  parentId : option Z;
  path : string;
  createdAt : Z;
  updatedAt : Z
}.
End Folder.

Module File.
Record t : Type := mk {
  id : Z;
  userId : string;
  folderId : option Z;
  name : string;
  originalName : string;
  size : Z;
  mimeType : string;
  filePath : string;
  ocrText : option string;
  aiSummary : option string;
  tags : option (list string);
  metadata : option json;
  processingStatus : option string;
  createdAt : Z;
  updatedAt : Z
}.
End File.

Module AiCommand.
Record t : Type := mk {
  id : Z;
  userId : string;
  command : string;
  result : option json;
  status : option string;
  createdAt : Z
}.
End AiCommand.

(** [InsertFolder]: what [createFolder] receives. *)
Record InsertFolder : Type := {
  if_userId : string;
  if_name : string;
  if_parentId : option Z;
  if_path : string
}.

(** [InsertFile], with the fields the upload handler sets; the others are
    left to the column defaults. *)
Record InsertFile : Type := {
  ifl_userId : string;
  ifl_folderId : option Z;
  ifl_name : string;
  ifl_originalName : string;
  ifl_size : Z;
  ifl_mimeType : string;
  ifl_filePath : string;
  ifl_processingStatus : option string
}.

(** [InsertAiCommand]. *)
Record InsertAiCommand : Type := {
  ic_userId : string;
  ic_command : string;
  ic_status : option string
}.

(** [Partial<Folder>], [Partial<File>], [Partial<AiCommand>]: [None] is a
    key that is absent from the object. *)
Record FolderUpdates : Type := {
  fu_name : option string;
  fu_parentId : option (option Z);
  fu_path : option string
}.

Record FileUpdates : Type := {
  u_ocrText : option string;
  u_aiSummary : option string;
  u_tags : option (list string);
  u_processingStatus : option string
}.

Record AiCommandUpdates : Type := {
  cu_result : option json;
  cu_status : option string
}.

Definition set_or_keep {A} (u : option A) (old : A) : A :=
  match u with Some v => v | None => old end.

Definition set_or_keep_null {A} (u : option A) (old : option A) : option A :=
  match u with Some v => Some v | None => old end.

(** [.set({ ...updates, updatedAt: now })] on one row. *)
Definition apply_folder_updates (u : FolderUpdates) (now : Z) (r : Folder.t)
  : Folder.t :=
  Folder.mk (Folder.id r) (Folder.userId r)
    (set_or_keep (fu_name u) (Folder.name r))
    (set_or_keep (fu_parentId u) (Folder.parentId r))
    (set_or_keep (fu_path u) (Folder.path r))
    (Folder.createdAt r) now.

Definition apply_file_updates (u : FileUpdates) (now : Z) (r : File.t)
  : File.t :=
  File.mk (File.id r) (File.userId r) (File.folderId r) (File.name r)
    (File.originalName r) (File.size r) (File.mimeType r) (File.filePath r)
    (set_or_keep_null (u_ocrText u) (File.ocrText r))
    (set_or_keep_null (u_aiSummary u) (File.aiSummary r))
    (set_or_keep_null (u_tags u) (File.tags r))
    (File.metadata r)
    (set_or_keep_null (u_processingStatus u) (File.processingStatus r))
    (File.createdAt r) now.

(** [.set(updates)]: the AI command table has no [updatedAt]. *)
Definition apply_command_updates (u : AiCommandUpdates) (r : AiCommand.t)
  : AiCommand.t :=
  AiCommand.mk (AiCommand.id r) (AiCommand.userId r) (AiCommand.command r)
    (set_or_keep_null (cu_result u) (AiCommand.result r))
    (set_or_keep_null (cu_status u) (AiCommand.status r))
    (AiCommand.createdAt r).

(* ================================================================= *)
(** ** The world *)

(** What is sent to [openai.chat.completions.create]: the prompt is a
    template filled with these values. *)
Inductive ChatRequest : Type :=
| SummaryPrompt (text fileName : string)
| TagsPrompt (text fileName : string)
| CommandPrompt (command : string).

(** [ProcessingOptions] of the file processor. *)
Record ProcessingOptions : Type := {
  processOcr : bool;
  generateSummary : bool;
  autoTag : bool
}.

(** A promise that a handler starts and does not await. *)
Inductive task : Type :=
| ProcessFile (file : File.t) (options : ProcessingOptions)
| ProcessCommand (commandId : Z) (command userId : string).

(** The trace: one entry per finished call of a collaborator, with what
    the call returned, and one per line written to the console. *)
Inductive event : Type :=
| Call_extractText (filePath : string) (r : Res string)
| Call_chat (request : ChatRequest) (r : Res (option string))
| Call_summarizeDocument (text fileName : string) (r : Res string)
| Call_generateTags (text fileName : string) (r : Res (list string))
| Call_updateFile (id : Z) (updates : FileUpdates) (r : Res (option File.t))
| Call_updateAiCommand (id : Z) (updates : AiCommandUpdates)
    (r : Res (option AiCommand.t))
| Console_error (msg : string)
| Console_log (msg : string).

(** The tables and their [serial] sequences (the last value handed out). *)
Record Db : Type := {
  folders : list Folder.t;
  files : list File.t;
  aiCommands : list AiCommand.t;
  folders_id_seq : Z;
  files_id_seq : Z;
  ai_commands_id_seq : Z
}.

Definition empty_db : Db := Build_Db [] [] [] 0 0 0.

Definition with_folders (l : list Folder.t) (d : Db) : Db :=
  Build_Db l (files d) (aiCommands d)
    (folders_id_seq d) (files_id_seq d) (ai_commands_id_seq d).

Definition with_files (l : list File.t) (d : Db) : Db :=
  Build_Db (folders d) l (aiCommands d)
    (folders_id_seq d) (files_id_seq d) (ai_commands_id_seq d).

Definition with_aiCommands (l : list AiCommand.t) (d : Db) : Db :=
  Build_Db (folders d) (files d) l
    (folders_id_seq d) (files_id_seq d) (ai_commands_id_seq d).

Definition with_folders_id_seq (n : Z) (d : Db) : Db :=
  Build_Db (folders d) (files d) (aiCommands d)
    n (files_id_seq d) (ai_commands_id_seq d).

Definition with_files_id_seq (n : Z) (d : Db) : Db :=
  Build_Db (folders d) (files d) (aiCommands d)
    (folders_id_seq d) n (ai_commands_id_seq d).

Definition with_ai_commands_id_seq (n : Z) (d : Db) : Db :=
  Build_Db (folders d) (files d) (aiCommands d)
    (folders_id_seq d) (files_id_seq d) n.

Section Server.

(** The state of everything outside the process. *)
Variable X : Type.

(** The outside, as the code reaches it.  Every call may change the
    outside state, so that two calls with the same arguments need not
    answer alike. *)
Record Env : Type := {
  (** tesseract.js *)
  createWorker : X -> Res unit * X;
  worker_loadLanguage : string -> X -> Res unit * X;
  worker_initialize : string -> X -> Res unit * X;
  (** [worker.recognize(filePath)], giving [data.text] *)
  worker_recognize : string -> X -> Res string * X;
  (** [openai.chat.completions.create], giving
      [response.choices[0].message.content], which may be [null] *)
  chat_completions_create : ChatRequest -> X -> Res (option string) * X;
  (** [JSON.parse(content)] *)
  JSON_parse : option string -> Res json;
  (** [JSON.parse(content)] read at the shape [generateTags] expects,
      [{ tags?: string[] }], giving the member [tags]; it throws where
      [JSON.parse] throws and where the parsed value is [null] *)
  JSON_parse_tags : option string -> Res (option (list string));
  (** [new Date()] and [now()] *)
  clock : X -> Z * X;
  (** The round trip of one SQL statement: any failure of the
      connection or of the statement (a violated constraint included: the
      foreign keys of the schema are not modelled apart) is an exception *)
  db_execute : X -> Res unit * X
}.

Variable env : Env.

Record World : Type := {
  outside : X;
  db : Db;
  (** [OCRService.worker]: [true] once [createWorker] has returned *)
  worker : bool;
  trace : list event;
  started : list task
}.

Definition with_outside (x : X) (w : World) : World :=
  Build_World x (db w) (worker w) (trace w) (started w).
Definition with_db (d : Db) (w : World) : World :=
  Build_World (outside w) d (worker w) (trace w) (started w).
Definition with_worker (b : bool) (w : World) : World :=
  Build_World (outside w) (db w) b (trace w) (started w).
Definition with_trace (t : list event) (w : World) : World :=
  Build_World (outside w) (db w) (worker w) t (started w).
Definition with_started (l : list task) (w : World) : World :=
  Build_World (outside w) (db w) (worker w) (trace w) l.

(* --------------------------------------------------------------- *)
(** *** The monad of asynchronous code *)

Definition M (A : Type) : Type := World -> Res A * World.

Definition ret {A} (a : A) : M A := fun w => (Ok a, w).

Definition throw {A} (e : string) : M A := fun w => (Throw e, w).

Definition bind {A B} (m : M A) (k : A -> M B) : M B :=
  fun w =>
    match m w with
    | (Ok a, w') => k a w'
    | (Throw e, w') => (Throw e, w')
    end.

(** [try { m } catch (error) { h error }] *)
Definition try_catch {A} (m : M A) (h : string -> M A) : M A :=
  fun w =>
    match m w with
    | (Ok a, w') => (Ok a, w')
    | (Throw e, w') => h e w'
    end.

(** A call into the outside. *)
Definition ask {A} (f : X -> Res A * X) : M A :=
  fun w => let (r, x) := f (outside w) in (r, with_outside x w).

Definition lift {A} (r : Res A) : M A := fun w => (r, w).

Definition gets {A} (f : Db -> A) : M A := fun w => (Ok (f (db w)), w).

Definition modify (f : Db -> Db) : M unit :=
  fun w => (Ok tt, with_db (f (db w)) w).

Definition emit (e : event) : M unit :=
  fun w => (Ok tt, with_trace (trace w ++ [e]) w).

(** Runs [m] and records the call with its outcome. *)
Definition traced {A} (mk : Res A -> event) (m : M A) : M A :=
  fun w => let (r, w') := m w in (r, with_trace (trace w' ++ [mk r]) w').

(** A promise left without [await]. *)
Definition start (t : task) : M unit :=
  fun w => (Ok tt, with_started (started w ++ [t]) w).

Definition console_error (msg : string) : M unit := emit (Console_error msg).
Definition console_log (msg : string) : M unit := emit (Console_log msg).

Definition new_Date : M Z :=
  ask (fun x => let (t, x') := clock env x in (Ok t, x')).

End Server.

Arguments ret {X A} a.
Arguments throw {X A} e.
Arguments lift {X A} r.
Arguments gets {X A} f.
Arguments modify {X} f.
Arguments emit {X} e.
Arguments start {X} t.
Arguments console_error {X} msg.
Arguments console_log {X} msg.

Declare Scope async_scope.
Delimit Scope async_scope with async.
Notation "x <- c1 ;; c2" := (bind c1 (fun x => c2))
  (at level 61, c1 at next level, right associativity) : async_scope.
Notation "c1 ;; c2" := (bind c1 (fun _ => c2))
  (at level 61, right associativity) : async_scope.

(* ================================================================= *)
(** ** server/storage.ts: DatabaseStorage *)

(** [ORDER BY]: insertion sort on a key; rows with equal keys keep their
    table order. *)
Fixpoint insert_by {A} (le : A -> A -> bool) (x : A) (l : list A) : list A :=
  match l with
  | [] => [x]
  | y :: l' => if le x y then x :: l else y :: insert_by le x l'
  end.

Definition sort_by {A} (le : A -> A -> bool) (l : list A) : list A :=
  fold_right (insert_by le) [] l.

Definition eqb_parent (p : option Z) (id : Z) : bool :=
  match p with Some n => n =? id | None => false end.

Section Storage.

Variable X : Type.
Variable env : Env X.

Local Open Scope async_scope.

(** One statement sent to the database; when it fails, no table has
    changed. *)
Definition execute : M X unit := ask (db_execute env).

(* Folder operations *)

Definition createFolder (folder : InsertFolder) : M X Folder.t :=
  execute ;;
  now <- new_Date env ;;
  seq <- gets folders_id_seq ;;
  let row :=
    Folder.mk (seq + 1) (if_userId folder) (if_name folder)
      (if_parentId folder) (if_path folder) now now in
  modify (fun d =>
    with_folders_id_seq (seq + 1) (with_folders (folders d ++ [row]) d)) ;;
  ret row.

Definition getFoldersByUserId (userId : string) : M X (list Folder.t) :=
  execute ;;
  rows <- gets folders ;;
  ret (sort_by (fun a b => (Folder.name a <=? Folder.name b)%string)
         (filter (fun f => String.eqb (Folder.userId f) userId) rows)).

Definition getFolderById (id : Z) : M X (option Folder.t) :=
  execute ;;
  rows <- gets folders ;;
  ret (hd_error (filter (fun f => Folder.id f =? id) rows)).

Definition updateFolder (id : Z) (updates : FolderUpdates)
  : M X (option Folder.t) :=
  now <- new_Date env ;;
  execute ;;
  modify (fun d =>
    with_folders
      (map (fun f => if Folder.id f =? id
                     then apply_folder_updates updates now f else f)
           (folders d)) d) ;;
  rows <- gets folders ;;
  ret (hd_error (filter (fun f => Folder.id f =? id) rows)).

Definition deleteFolder (id : Z) : M X unit :=
  execute ;;
  modify (fun d =>
    with_folders (filter (fun f => negb (Folder.id f =? id)) (folders d)) d).

(* File operations *)

Definition createFile (file : InsertFile) : M X File.t :=
  execute ;;
  now <- new_Date env ;;
  seq <- gets files_id_seq ;;
  let row :=
    File.mk (seq + 1) (ifl_userId file) (ifl_folderId file) (ifl_name file)
      (ifl_originalName file) (ifl_size file) (ifl_mimeType file)
      (ifl_filePath file) None None None None
      (Some (set_or_keep (ifl_processingStatus file) "pending"))
      now now in
  modify (fun d =>
    with_files_id_seq (seq + 1) (with_files (files d ++ [row]) d)) ;;
  ret row.

Definition getFilesByFolderId (folderId : Z) : M X (list File.t) :=
  execute ;;
  rows <- gets files ;;
  ret (sort_by (fun a b => File.createdAt b <=? File.createdAt a)
         (filter (fun f => eqb_parent (File.folderId f) folderId) rows)).

Definition getFileById (id : Z) : M X (option File.t) :=
  execute ;;
  rows <- gets files ;;
  ret (hd_error (filter (fun f => File.id f =? id) rows)).

Definition updateFile (id : Z) (updates : FileUpdates)
  : M X (option File.t) :=
  traced (Call_updateFile id updates)
    (now <- new_Date env ;;
     execute ;;
     modify (fun d =>
       with_files
         (map (fun f => if File.id f =? id
                        then apply_file_updates updates now f else f)
              (files d)) d) ;;
     rows <- gets files ;;
     ret (hd_error (filter (fun f => File.id f =? id) rows))).

(* AI command operations *)

Definition createAiCommand (command : InsertAiCommand) : M X AiCommand.t :=
  execute ;;
  now <- new_Date env ;;
  seq <- gets ai_commands_id_seq ;;
  let row :=
    AiCommand.mk (seq + 1) (ic_userId command) (ic_command command) None
      (Some (set_or_keep (ic_status command) "pending")) now in
  modify (fun d =>
    with_ai_commands_id_seq (seq + 1)
      (with_aiCommands (aiCommands d ++ [row]) d)) ;;
  ret row.

Definition updateAiCommand (id : Z) (updates : AiCommandUpdates)
  : M X (option AiCommand.t) :=
  traced (Call_updateAiCommand id updates)
    (execute ;;
     modify (fun d =>
       with_aiCommands
         (map (fun c => if AiCommand.id c =? id
                        then apply_command_updates updates c else c)
              (aiCommands d)) d) ;;
     rows <- gets aiCommands ;;
     ret (hd_error (filter (fun c => AiCommand.id c =? id) rows))).

End Storage.

(* ================================================================= *)
(** ** server/services/ocr.ts: OCRService *)

Section OCRService.

Variable X : Type.
Variable env : Env X.

Local Open Scope async_scope.

Definition initialize : M X unit :=
  fun w =>
    if negb (worker w) then
      (ask (createWorker env) ;;
       (fun w' => (Ok tt, with_worker true w')) ;;
       ask (worker_loadLanguage env "eng") ;;
       ask (worker_initialize env "eng")) w
    else (Ok tt, w).

Definition extractText (filePath : string) : M X string :=
  traced (Call_extractText filePath)
    (try_catch
       (initialize ;;
        text <- ask (worker_recognize env filePath) ;;
        ret (trim text))
       (fun _ =>
          console_error "OCR processing error:" ;;
          throw "Failed to extract text from document")).

End OCRService.

(* ================================================================= *)
(** ** server/services/openai.ts: OpenAIService *)

Section OpenAIService.

Variable X : Type.
Variable env : Env X.

Local Open Scope async_scope.

(** [content || fallback], [content] being a string or [null]. *)
Definition content_or (content : option string) (fallback : string)
  : string :=
  match content with
  | Some s => or_string s fallback
  | None => fallback
  end.

(** [openai.chat.completions.create({ ... })], read at
    [response.choices[0].message.content]. *)
Definition chat (request : ChatRequest) : M X (option string) :=
  traced (Call_chat request) (ask (chat_completions_create env request)).

Definition summarizeDocument (text fileName : string) : M X string :=
  traced (Call_summarizeDocument text fileName)
    (try_catch
       (content <- chat (SummaryPrompt text fileName) ;;
        ret (content_or content "Unable to generate summary"))
       (fun _ =>
          console_error "Error summarizing document:" ;;
          ret "Summary generation failed")).

Definition generateTags (text fileName : string) : M X (list string) :=
  traced (Call_generateTags text fileName)
    (try_catch
       (content <- chat (TagsPrompt text fileName) ;;
        tags <- lift (JSON_parse_tags env content) ;;
        ret (match tags with Some l => l | None => [] end))
       (fun _ =>
          console_error "Error generating tags:" ;;
          ret [])).

Definition processCommand (commandId : Z) (command userId : string)
  : M X unit :=
  try_catch
    (content <- chat (CommandPrompt command) ;;
     result <- lift (JSON_parse env content) ;;
     updateAiCommand env commandId
       {| cu_result := Some result; cu_status := Some "completed" |} ;;
     ret tt)
    (fun _ =>
       console_error "Error processing command:" ;;
       updateAiCommand env commandId
         {| cu_status := Some "failed";
            cu_result :=
              Some (JObject [("error", JString "Failed to process command")])
         |} ;;
       ret tt).

End OpenAIService.

(* ================================================================= *)
(** ** server/services/fileProcessor.ts: FileProcessor *)

Definition supportedTypes : list string :=
  [ "image/jpeg"; "image/png"; "image/gif"; "image/bmp"; "image/tiff";
    "application/pdf" ].

Definition isOCRSupported (mimeType : string) : bool :=
  includes supportedTypes mimeType.

Section FileProcessor.

Variable X : Type.
Variable env : Env X.

Local Open Scope async_scope.

Definition processFile (file : File.t) (options : ProcessingOptions)
  : M X unit :=
  try_catch
    ((* Extract text using OCR for supported file types *)
     ocrText <-
       (if processOcr options && isOCRSupported (File.mimeType file)
        then try_catch (extractText env (File.filePath file))
               (fun _ => console_error "OCR failed for file:" ;; ret "")
        else ret "") ;;
     (* Use OCR text or fallback to file name for AI processing *)
     let textForAI := or_string ocrText (File.originalName file) in
     (* Generate AI summary *)
     summary <-
       (if generateSummary options && truthy_string textForAI
        then try_catch
               (summarizeDocument env textForAI (File.originalName file))
               (fun _ =>
                  console_error "Summary generation failed for file:" ;;
                  ret "")
        else ret "") ;;
     (* Generate tags *)
     tags <-
       (if autoTag options && truthy_string textForAI
        then try_catch
               (generateTags env textForAI (File.originalName file))
               (fun _ =>
                  console_error "Tag generation failed for file:" ;;
                  ret [])
        else ret []) ;;
     (* Update file with processed data *)
     updateFile env (File.id file)
       {| u_ocrText := Some ocrText;
          u_aiSummary := Some summary;
          u_tags := Some tags;
          u_processingStatus := Some "completed" |} ;;
     console_log "File processed successfully")
    (fun _ =>
       console_error "File processing failed:" ;;
       updateFile env (File.id file)
         {| u_ocrText := None;
            u_aiSummary := None;
            u_tags := None;
            u_processingStatus := Some "failed" |} ;;
       ret tt).

End FileProcessor.

(* ================================================================= *)
(** ** server/routes.ts

    A handler takes what it reads from the request: the id of the
    authenticated user ([req.user.claims.sub]), the fields of the body,
    and the number that [parseInt] reads from [req.params.id].  Ids in the
    body are numbers or absent.  A promise that a handler starts without
    [await] is recorded with [start]; its body is [run_task], to be run
    from a later state of the world. *)

(** What a handler sends: [res.status(s).json(b)]. *)
Inductive Body : Type :=
| Json_folder (folder : option Folder.t)
| Json_files (files : list File.t)
| Json_command (command : AiCommand.t)
| Json_success
| Json_message (message : string).

Record Response : Type := {
  res_status : Z;
  res_body : Body
}.

(** A part of the multipart request, as multer hands it over. *)
Record MulterFile : Type := {
  filename : string;
  originalname : string;
  mf_size : Z;
  mimetype : string;
  mf_path : string
}.

(** The text fields of the upload request; [None] is a field that was not
    sent.  [up_folderId] holds the number that [parseInt] reads from the
    field. *)
Record UploadBody : Type := {
  up_folderId : option Z;
  up_processOcr : option string;
  up_generateSummary : option string;
  up_autoTag : option string
}.

(** A destructured field: the string that was sent, or the default of the
    pattern, which is the boolean [true]. *)
Inductive field_value : Type :=
| Boolean (b : bool)
| Text (s : string).

(** [const { field = true } = req.body] *)
Definition default_true (field : option string) : field_value :=
  match field with
  | Some s => Text s
  | None => Boolean true
  end.

(** [v === 'true']: strict equality never holds between a boolean and a
    string. *)
Definition strict_eq_text (v : field_value) (s : string) : bool :=
  match v with
  | Text t => String.eqb t s
  | Boolean _ => false
  end.

Section Routes.

Variable X : Type.
Variable env : Env X.

Local Open Scope async_scope.

(** Build path based on parent folder (shared by POST and PUT). *)
Definition build_path (name : string) (parentId : option Z) : M X string :=
  match parentId with
  | Some p =>
      if negb (p =? 0) then
        parentFolder <- getFolderById env p ;;
        match parentFolder with
        | Some parent => ret (Folder.path parent ++ "/" ++ name)%string
        | None => ret name
        end
      else ret name
  | None => ret name
  end.

(** POST /api/folders *)
Definition post_folders (userId name : string) (parentId : option Z)
  : M X Response :=
  try_catch
    (path <- build_path name parentId ;;
     folder <- createFolder env
                 {| if_userId := userId;
                    if_name := name;
                    if_parentId := or_null parentId;
                    if_path := path |} ;;
     ret {| res_status := 200; res_body := Json_folder (Some folder) |})
    (fun _ =>
       console_error "Error creating folder:" ;;
       ret {| res_status := 500;
              res_body := Json_message "Failed to create folder" |}).

(** PUT /api/folders/:id *)
Definition put_folder (folderId : Z) (name : string) (parentId : option Z)
  : M X Response :=
  try_catch
    (path <- build_path name parentId ;;
     updatedFolder <- updateFolder env folderId
                        {| fu_name := Some name;
                           fu_parentId := Some (or_null parentId);
                           fu_path := Some path |} ;;
     ret {| res_status := 200; res_body := Json_folder updatedFolder |})
    (fun _ =>
       console_error "Error updating folder:" ;;
       ret {| res_status := 500;
              res_body := Json_message "Failed to update folder" |}).

(** DELETE /api/folders/:id, sent by [userId] *)
Definition delete_folder (userId : string) (folderId : Z) : M X Response :=
  try_catch
    ((* Check if folder has any files or subfolders *)
     files <- getFilesByFolderId env folderId ;;
     allFolders <- getFoldersByUserId env userId ;;
     let subfolders :=
       filter (fun f => eqb_parent (Folder.parentId f) folderId) allFolders in
     if (0 <? Z.of_nat (List.length files))
        || (0 <? Z.of_nat (List.length subfolders))
     then
       ret {| res_status := 400;
              res_body :=
                Json_message "Cannot delete folder with files or subfolders" |}
     else
       deleteFolder env folderId ;;
       ret {| res_status := 200; res_body := Json_success |})
    (fun _ =>
       console_error "Error deleting folder:" ;;
       ret {| res_status := 500;
              res_body := Json_message "Failed to delete folder" |}).

(** The loop of the upload handler over [req.files]. *)
Fixpoint upload_each (userId : string) (folderId : option Z)
    (options : ProcessingOptions) (files : list MulterFile)
    (uploadedFiles : list File.t) : M X (list File.t) :=
  match files with
  | [] => ret uploadedFiles
  | file :: rest =>
      (* Create file record *)
      newFile <- createFile env
                   {| ifl_userId := userId;
                      ifl_folderId := folderId;
                      ifl_name := filename file;
                      ifl_originalName := originalname file;
                      ifl_size := mf_size file;
                      ifl_mimeType := mimetype file;
                      ifl_filePath := mf_path file;
                      ifl_processingStatus := Some "processing" |} ;;
      (* Process file asynchronously *)
      start (ProcessFile newFile options) ;;
      upload_each userId folderId options rest (uploadedFiles ++ [newFile])
  end.

(** POST /api/files/upload *)
Definition post_files_upload (userId : string) (files : list MulterFile)
    (body : UploadBody) : M X Response :=
  try_catch
    (let folderId := up_folderId body in
     let processOcr := default_true (up_processOcr body) in
     let generateSummary := default_true (up_generateSummary body) in
     let autoTag := default_true (up_autoTag body) in
     match files with
     | [] =>
         ret {| res_status := 400;
                res_body := Json_message "No files uploaded" |}
     | _ :: _ =>
         uploadedFiles <-
           upload_each userId folderId
             {| processOcr := strict_eq_text processOcr "true";
                generateSummary := strict_eq_text generateSummary "true";
                autoTag := strict_eq_text autoTag "true" |}
             files [] ;;
         ret {| res_status := 200; res_body := Json_files uploadedFiles |}
     end)
    (fun _ =>
       console_error "Error uploading files:" ;;
       ret {| res_status := 500;
              res_body := Json_message "Failed to upload files" |}).

(** POST /api/ai/command *)
Definition post_ai_command (userId command : string) : M X Response :=
  try_catch
    (aiCommand <- createAiCommand env
                    {| ic_userId := userId;
                       ic_command := command;
                       ic_status := Some "processing" |} ;;
     (* Process command asynchronously *)
     start (ProcessCommand (AiCommand.id aiCommand) command userId) ;;
     ret {| res_status := 200; res_body := Json_command aiCommand |})
    (fun _ =>
       console_error "Error processing AI command:" ;;
       ret {| res_status := 500;
              res_body := Json_message "Failed to process AI command" |}).

(** The body of a promise that was started without [await]. *)
Definition run_task (t : task) : M X unit :=
  match t with
  | ProcessFile file options => processFile env file options
  | ProcessCommand commandId command userId =>
      processCommand env commandId command userId
  end.

End Routes.

(* ================================================================= *)
(** ** Reading a run *)

(** The events that a run added to the trace. *)
Definition new_events {X} (before after : World X) : list event :=
  skipn (List.length (trace before)) (trace after).

Definition is_console (e : event) : bool :=
  match e with Console_error _ | Console_log _ => true | _ => false end.

(** The calls of a run: its events without the console lines. *)
Definition calls (evs : list event) : list event :=
  filter (fun e => negb (is_console e)) evs.

Definition is_chat (e : event) : bool :=
  match e with Call_chat _ _ => true | _ => false end.

Definition is_collaborator_call (e : event) : bool :=
  match e with
  | Call_extractText _ _ | Call_summarizeDocument _ _ _
  | Call_generateTags _ _ _ => true
  | _ => false
  end.

Definition is_updateFile (e : event) : bool :=
  match e with Call_updateFile _ _ _ => true | _ => false end.

Definition is_updateAiCommand (e : event) : bool :=
  match e with Call_updateAiCommand _ _ _ => true | _ => false end.

(** What the collaborators answered during a run, in order. *)
Definition collaborator_calls (evs : list event) : list event :=
  filter is_collaborator_call evs.

(** The text, summary and tags of every [updateFile] that carries them. *)
Definition persisted_outputs (evs : list event)
  : list (option string * option string * option (list string)) :=
  flat_map (fun e =>
    match e with
    | Call_updateFile _ u _ =>
        match u_processingStatus u with
        | Some "completed" => [(u_ocrText u, u_aiSummary u, u_tags u)]
        | _ => []
        end
    | _ => []
    end) evs.

(** Every call of [extractText] and of the language model in [evs]
    failed. *)
Definition call_failed (e : event) : bool :=
  match e with
  | Call_extractText _ r => negb (is_ok r)
  | Call_chat _ r => negb (is_ok r)
  | _ => true
  end.

Definition all_failed (evs : list event) : bool := forallb call_failed evs.

Definition file_row {X} (w : World X) (id : Z) : option File.t :=
  hd_error (filter (fun f => File.id f =? id) (files (db w))).

Definition folder_row {X} (w : World X) (id : Z) : option Folder.t :=
  hd_error (filter (fun f => Folder.id f =? id) (folders (db w))).

Definition command_row {X} (w : World X) (id : Z) : option AiCommand.t :=
  hd_error (filter (fun c => AiCommand.id c =? id) (aiCommands (db w))).

(* ================================================================= *)
(** ** A small outside world, for running the code

    Its state is a script: the outcomes of the OCR engine and of the
    language model, served in order, and a schedule of database
    failures. *)

Record Script : Type := {
  ocr_outcomes : list (Res string);
  chat_outcomes : list (Res (option string));
  db_failures : list bool;
  time : Z
}.

(** The database fails where the schedule says so. *)
Definition scheduled_failures (x : Script) : Res unit * Script :=
  match db_failures x with
  | true :: rest =>
      (Throw "connection lost",
       Build_Script (ocr_outcomes x) (chat_outcomes x) rest (time x))
  | false :: rest =>
      (Ok tt, Build_Script (ocr_outcomes x) (chat_outcomes x) rest (time x))
  | [] => (Ok tt, x)
  end.

Definition script_env_with (execute : Script -> Res unit * Script)
  : Env Script :=
  {| createWorker := fun x => (Ok tt, x);
     worker_loadLanguage := fun _ x => (Ok tt, x);
     worker_initialize := fun _ x => (Ok tt, x);
     worker_recognize := fun _ x =>
       match ocr_outcomes x with
       | r :: rest =>
           (r, Build_Script rest (chat_outcomes x) (db_failures x) (time x))
       | [] => (Throw "no text", x)
       end;
     chat_completions_create := fun _ x =>
       match chat_outcomes x with
       | r :: rest =>
           (r, Build_Script (ocr_outcomes x) rest (db_failures x) (time x))
       | [] => (Throw "no reply", x)
       end;
     JSON_parse := fun content =>
       match content with
       | Some s => Ok (JObject [("description", JString s)])
       | None => Ok JNull
       end;
     JSON_parse_tags := fun content =>
       match content with
       | Some s => Ok (Some [s])
       | None => Throw "TypeError"
       end;
     clock := fun x =>
       (time x,
        Build_Script (ocr_outcomes x) (chat_outcomes x) (db_failures x)
          (time x + 1));
     db_execute := execute |}.

Definition script_env : Env Script := script_env_with scheduled_failures.

(** The same outside with a database that always answers. *)
Definition steady_env : Env Script := script_env_with (fun x => (Ok tt, x)).

Definition fresh (x : Script) : World Script :=
  Build_World x empty_db false [] [].

Definition all_enabled : ProcessingOptions :=
  {| processOcr := true; generateSummary := true; autoTag := true |}.

(** The scenarios of section 8 of the specification: an uploaded PDF and
    an uploaded text file, both still ["processing"]. *)
Definition lease : File.t :=
  File.mk 1 "user-1" None "3f9a" "lease.pdf" 2048 "application/pdf"
    "uploads/3f9a" None None None None (Some "processing") 0 0.

Definition notes : File.t :=
  File.mk 2 "user-1" None "77c0" "notes.txt" 12 "text/plain"
    "uploads/77c0" None None None None (Some "processing") 0 0.

Definition uploaded (x : Script) : World Script :=
  Build_World x (Build_Db [] [lease; notes] [] 0 2 0) false [] [].

(** The OCR engine and the language model are both down. *)
Definition offline : Script :=
  {| ocr_outcomes := [Throw "engine crashed"];
     chat_outcomes := [Throw "503"; Throw "503"];
     db_failures := [];
     time := 100 |}.

(** Both answer. *)
Definition online : Script :=
  {| ocr_outcomes := [Ok "  Lease Agreement between A and B "];
     chat_outcomes := [Ok (Some "A lease."); Ok (Some "contract")];
     db_failures := [];
     time := 100 |}.

(** Both answer, and answer the same a second time. *)
Definition online_twice : Script :=
  {| ocr_outcomes := ocr_outcomes online ++ ocr_outcomes online;
     chat_outcomes := chat_outcomes online ++ chat_outcomes online;
     db_failures := [];
     time := 100 |}.

(** Both answer, and the database refuses the next [n] statements. *)
Definition refusing (n : nat) : Script :=
  {| ocr_outcomes := ocr_outcomes online;
     chat_outcomes := chat_outcomes online;
     db_failures := repeat true n;
     time := 100 |}.

(** The language model answers one request. *)
Definition answering (reply : string) : Script :=
  {| ocr_outcomes := [];
     chat_outcomes := [Ok (Some reply)];
     db_failures := [];
     time := 0 |}.

Definition calm : Script :=
  {| ocr_outcomes := []; chat_outcomes := []; db_failures := []; time := 0 |}.

(** A folder ["A"] and its child ["B"], of one user. *)
Definition nested : World Script :=
  snd (post_folders steady_env "user-1" "B" (Some 1)
         (snd (post_folders steady_env "user-1" "A" None (fresh calm)))).

(** A folder of one user with a subfolder that another user created under
    it. *)
Definition shared : World Script :=
  snd (post_folders script_env "bob" "Bobs" (Some 1)
         (snd (post_folders script_env "alice" "Shared" None (fresh calm)))).

(* ================================================================= *)
(** ** The pipeline as a function of the answers it receives

    Section 4.1 of the specification, step by step, over the answers of
    the collaborators: [a1] is what [extractText] returns, [c2] and [c3]
    are the replies of the language model to the summary and to the tags
    request. *)

Definition text_of (a : Res string) : string :=
  match a with Ok s => s | Throw _ => "" end.

(** What [summarizeDocument] makes of the reply of the model. *)
Definition summary_of (c : Res (option string)) : string :=
  match c with
  | Ok content => content_or content "Unable to generate summary"
  | Throw _ => "Summary generation failed"
  end.

(** What [generateTags] makes of the reply of the model. *)
Definition tags_of {X} (env : Env X) (c : Res (option string)) : list string :=
  match c with
  | Ok content =>
      match JSON_parse_tags env content with
      | Ok (Some l) => l
      | Ok None => []
      | Throw _ => []
      end
  | Throw _ => []
  end.

Definition failed_updates : FileUpdates :=
  {| u_ocrText := None; u_aiSummary := None; u_tags := None;
     u_processingStatus := Some "failed" |}.

Section Pipeline.

Variable X : Type.
Variable env : Env X.
Variable file : File.t.
Variable options : ProcessingOptions.

Definition asks_ocr : bool :=
  processOcr options && isOCRSupported (File.mimeType file).

Definition pipeline_ocrText (a1 : Res string) : string :=
  if asks_ocr then text_of a1 else "".

Definition pipeline_textForAI (a1 : Res string) : string :=
  or_string (pipeline_ocrText a1) (File.originalName file).

Definition asks_summary (a1 : Res string) : bool :=
  generateSummary options && truthy_string (pipeline_textForAI a1).

Definition asks_tags (a1 : Res string) : bool :=
  autoTag options && truthy_string (pipeline_textForAI a1).

Definition pipeline_summary (a1 : Res string) (c2 : Res (option string))
  : string :=
  if asks_summary a1 then summary_of c2 else "".

Definition pipeline_tags (a1 : Res string) (c3 : Res (option string))
  : list string :=
  if asks_tags a1 then tags_of env c3 else [].

Definition pipeline_updates (a1 : Res string) (c2 c3 : Res (option string))
  : FileUpdates :=
  {| u_ocrText := Some (pipeline_ocrText a1);
     u_aiSummary := Some (pipeline_summary a1 c2);
     u_tags := Some (pipeline_tags a1 c3);
     u_processingStatus := Some "completed" |}.

Definition ocr_calls (a1 : Res string) : list event :=
  if asks_ocr then [Call_extractText (File.filePath file) a1] else [].

Definition summary_calls (a1 : Res string) (c2 : Res (option string))
  : list event :=
  if asks_summary a1 then
    [Call_chat
       (SummaryPrompt (pipeline_textForAI a1) (File.originalName file)) c2;
     Call_summarizeDocument (pipeline_textForAI a1) (File.originalName file)
       (Ok (summary_of c2))]
  else [].

Definition tags_calls (a1 : Res string) (c3 : Res (option string))
  : list event :=
  if asks_tags a1 then
    [Call_chat
       (TagsPrompt (pipeline_textForAI a1) (File.originalName file)) c3;
     Call_generateTags (pipeline_textForAI a1) (File.originalName file)
       (Ok (tags_of env c3))]
  else [].

Definition pipeline_calls (a1 : Res string) (c2 c3 : Res (option string))
  : list event :=
  ocr_calls a1 ++ summary_calls a1 c2 ++ tags_calls a1 c3.

End Pipeline.

(** The rows of [files] after [UPDATE ... WHERE id = ...] at time [now]. *)
Definition files_updated (id : Z) (u : FileUpdates) (now : Z) (d : Db) : Db :=
  with_files
    (map (fun f => if File.id f =? id then apply_file_updates u now f else f)
       (files d)) d.

Definition commands_updated (id : Z) (u : AiCommandUpdates) (d : Db) : Db :=
  with_aiCommands
    (map (fun c => if AiCommand.id c =? id
                   then apply_command_updates u c else c)
       (aiCommands d)) d.

(** The writes of [processFile]: the one at the end of the [try] block
    and, when that one throws, the one of the [catch] block. *)
Definition writes (id : Z) (u : FileUpdates) (ru rf : Res (option File.t))
  : list event :=
  match ru with
  | Ok _ => [Call_updateFile id u ru]
  | Throw _ => [Call_updateFile id u ru; Call_updateFile id failed_updates rf]
  end.

(** The path that the folder handlers build, over the row that
    [getFolderById] finds. *)
Definition path_for {X} (w : World X) (name : string) (parentId : option Z)
  : string :=
  match parentId with
  | Some p =>
      if negb (p =? 0) then
        match folder_row w p with
        | Some parent => (Folder.path parent ++ "/" ++ name)%string
        | None => name
        end
      else name
  | None => name
  end.

Definition folders_updated (id : Z) (u : FolderUpdates) (now : Z) (d : Db)
  : Db :=
  with_folders
    (map (fun f => if Folder.id f =? id
                   then apply_folder_updates u now f else f)
       (folders d)) d.

(** The ids of the folders come from the sequence: none exceeds the last
    value handed out. *)
Definition folder_ids_bounded (d : Db) : Prop :=
  0 <= folders_id_seq d
  /\ forall f, In f (folders d) -> Folder.id f <= folders_id_seq d.

(** What [processCommand] writes for a reply of the language model. *)
Definition command_updates {X} (env : Env X) (reply : Res (option string))
  : AiCommandUpdates :=
  let failed :=
    {| cu_result :=
         Some (JObject [("error", JString "Failed to process command")]);
       cu_status := Some "failed" |} in
  match reply with
  | Ok content =>
      match JSON_parse env content with
      | Ok result =>
          {| cu_result := Some result; cu_status := Some "completed" |}
      | Throw _ => failed
      end
  | Throw _ => failed
  end.

(** A step that leaves the trace and the started promises alone. *)
Definition silent {X} (w w' : World X) : Prop :=
  trace w' = trace w /\ started w' = started w.

(** The database answers every statement. *)
Definition reliable {X} (env : Env X) : Prop :=
  forall x, fst (db_execute env x) = Ok tt.

(** ** Runs and their traces *)

Section Steps.

Variable X : Type.
Variable env : Env X.

(** [w'] is [w] after some events whose calls are [cs]. *)
Definition steps (w w' : World X) (cs : list event) : Prop :=
  exists evs, trace w' = trace w ++ evs /\ calls evs = cs.

(** A step that touches neither the tables nor the started promises. *)
Definition quiet (w w' : World X) (cs : list event) : Prop :=
  steps w w' cs /\ db w' = db w /\ started w' = started w.

(** The three guarded steps of [processFile], by name. *)

Variable file : File.t.
Variable options : ProcessingOptions.

Definition ocr_step : M X string :=
  (if processOcr options && isOCRSupported (File.mimeType file)
   then try_catch (extractText env (File.filePath file))
          (fun _ => console_error "OCR failed for file:" ;; ret "")
   else ret "")%async.

Definition summary_step (textForAI : string) : M X string :=
  (if generateSummary options && truthy_string textForAI
   then try_catch
          (summarizeDocument env textForAI (File.originalName file))
          (fun _ =>
             console_error "Summary generation failed for file:" ;; ret "")
   else ret "")%async.

Definition tags_step (textForAI : string) : M X (list string) :=
  (if autoTag options && truthy_string textForAI
   then try_catch
          (generateTags env textForAI (File.originalName file))
          (fun _ =>
             console_error "Tag generation failed for file:" ;; ret [])
   else ret [])%async.

End Steps.

(* ================================================================= *)
(** ** The rest of the server

    The operations of storage.ts, services/ocr.ts, services/openai.ts and
    routes.ts that the sections above leave out.  The users table and the
    handlers that need it (GET /api/auth/user and the first half of POST
    /api/onboarding) are not modelled. *)

Definition is_extractText (e : event) : bool :=
  match e with Call_extractText _ _ => true | _ => false end.

(** The [Partial<File>] of a JSON body that names neither the primary key
    nor [createdAt]: one field for each of the other columns ([None] is a
    key that is absent; a nullable column may be set to [null]), and
    [updatedAt] with whatever value was sent. *)
Record FilePatch : Type := {
  p_userId : option string;
  p_folderId : option (option Z);
  p_name : option string;
  p_originalName : option string;
  p_size : option Z;
  p_mimeType : option string;
  p_filePath : option string;
  p_ocrText : option (option string);
  p_aiSummary : option (option string);
  p_tags : option (option (list string));
  p_metadata : option (option json);
  p_processingStatus : option (option string);
  p_updatedAt : option json
}.

(** [.set({ ...updates, updatedAt: now })]: the [updatedAt] of the object
    is overwritten by the one that is spread after it. *)
Definition apply_file_patch (p : FilePatch) (now : Z) (r : File.t) : File.t :=
  File.mk (File.id r)
    (set_or_keep (p_userId p) (File.userId r))
    (set_or_keep (p_folderId p) (File.folderId r))
    (set_or_keep (p_name p) (File.name r))
    (set_or_keep (p_originalName p) (File.originalName r))
    (set_or_keep (p_size p) (File.size r))
    (set_or_keep (p_mimeType p) (File.mimeType r))
    (set_or_keep (p_filePath p) (File.filePath r))
    (set_or_keep (p_ocrText p) (File.ocrText r))
    (set_or_keep (p_aiSummary p) (File.aiSummary r))
    (set_or_keep (p_tags p) (File.tags r))
    (set_or_keep (p_metadata p) (File.metadata r))
    (set_or_keep (p_processingStatus p) (File.processingStatus r))
    (File.createdAt r)
    now.

Definition no_patch : FilePatch :=
  Build_FilePatch None None None None None None None None None None None None
    None.

(** [{ folderId: v }] *)
Definition patch_folderId (v : option Z) : FilePatch :=
  Build_FilePatch None (Some v) None None None None None None None None None
    None None.

(** The object that [processFile] passes, as a patch. *)
Definition patch_of_updates (u : FileUpdates) : FilePatch :=
  Build_FilePatch None None None None None None None
    (option_map Some (u_ocrText u)) (option_map Some (u_aiSummary u))
    (option_map Some (u_tags u)) None
    (option_map Some (u_processingStatus u)) None.

(** A file as GET /api/export sends it: [{ ...file, filePath: undefined }]. *)
Module Exported.
Record t : Type := mk {
  id : Z;
  userId : string;
  folderId : option Z;
  name : string;
  originalName : string;
  size : Z;
  mimeType : string;
  filePath : option string;
  ocrText : option string;
  aiSummary : option string;
  tags : option (list string);
  metadata : option json;
  processingStatus : option string;
  createdAt : Z;
  updatedAt : Z
}.
End Exported.

Definition without_filePath (f : File.t) : Exported.t :=
  Exported.mk (File.id f) (File.userId f) (File.folderId f) (File.name f)
    (File.originalName f) (File.size f) (File.mimeType f) None
    (File.ocrText f) (File.aiSummary f) (File.tags f) (File.metadata f)
    (File.processingStatus f) (File.createdAt f) (File.updatedAt f).

(** What the handlers of this section send. *)
Inductive Reply : Type :=
| Folder_list (l : list Folder.t)
| File_list (l : list File.t)
| One_file (file : option File.t)
| Command_list (l : list AiCommand.t)
| Export_data (folders : list Folder.t) (files : list Exported.t)
    (exportDate : Z)
| Plain (body : Body).

Record Answer : Type := {
  ans_status : Z;
  ans_body : Reply
}.

(** [FolderStructure] of services/openai.ts. *)
Record FolderStructure : Type := {
  fs_name : string;
  fs_parentId : option Z;
  fs_path : string
}.

(** The values that fill the prompt of [generateFolderStructure]. *)
Record FolderPrompt : Type := {
  fp_industry : string;
  fp_businessDescription : string;
  fp_userPrompt : string;
  fp_documentTypes : list string;
  fp_organizationMethod : string;
  fp_collaborationStyle : string
}.

Section More.

Variable X : Type.

(** More of the outside: the file system, and the calls of the OCR engine
    and of the language model that the sections above do not make. *)
Record Env2 : Type := {
  fs_existsSync : string -> X -> bool * X;
  fs_unlinkSync : string -> X -> Res unit * X;
  worker_terminate : X -> Res unit * X;
  (** [openai.chat.completions.create] for the folder structure prompt,
      giving [response.choices[0].message.content] *)
  chat_folder_structure : FolderPrompt -> X -> Res (option string) * X;
  (** [JSON.parse(content)] read at the shape
      [{ folders?: FolderStructure[] }], giving the member [folders]; it
      throws where [JSON.parse] throws and where the parsed value is
      [null] *)
  JSON_parse_folders : option string -> Res (option (list FolderStructure))
}.

Variable env : Env X.
Variable more : Env2.

Local Open Scope async_scope.

(* storage.ts *)

Definition getFilesByUserId (userId : string) : M X (list File.t) :=
  execute env ;;
  rows <- gets files ;;
  ret (sort_by (fun a b => File.createdAt b <=? File.createdAt a)
         (filter (fun f => String.eqb (File.userId f) userId) rows)).

(** [updateFile] with any body.  The foreign key of [folder_id] is kept by
    the database, not by this code: an update that names a folder that
    does not exist is a statement that the database refuses, one of the
    failures of [db_execute]. *)
Definition updateFile_with (id : Z) (updates : FilePatch)
  : M X (option File.t) :=
  now <- new_Date env ;;
  execute env ;;
  modify (fun d =>
    with_files
      (map (fun f => if File.id f =? id
                     then apply_file_patch updates now f else f)
           (files d)) d) ;;
  rows <- gets files ;;
  ret (hd_error (filter (fun f => File.id f =? id) rows)).

Definition deleteFile (id : Z) : M X unit :=
  execute env ;;
  modify (fun d =>
    with_files (filter (fun f => negb (File.id f =? id)) (files d)) d).

Definition getAiCommandsByUserId (userId : string)
  : M X (list AiCommand.t) :=
  execute env ;;
  rows <- gets aiCommands ;;
  ret (sort_by (fun a b => AiCommand.createdAt b <=? AiCommand.createdAt a)
         (filter (fun c => String.eqb (AiCommand.userId c) userId) rows)).

(* services/ocr.ts *)

Definition terminate : M X unit :=
  fun w =>
    if worker w then
      (ask (worker_terminate more) ;;
       (fun w' => (Ok tt, with_worker false w'))) w
    else (Ok tt, w).

(* services/openai.ts *)

(** [documentTypes], [organizationMethod] and [collaborationStyle] are
    optional. *)
Definition generateFolderStructure
    (industry businessDescription userPrompt : string)
    (documentTypes : option (list string))
    (organizationMethod collaborationStyle : option string)
  : M X (list FolderStructure) :=
  try_catch
    (content <- ask (chat_folder_structure more
                       {| fp_industry := industry;
                          fp_businessDescription := businessDescription;
                          fp_userPrompt := userPrompt;
                          fp_documentTypes := set_or_keep documentTypes [];
                          fp_organizationMethod :=
                            set_or_keep organizationMethod "by-client";
                          fp_collaborationStyle :=
                            set_or_keep collaborationStyle "individual" |}) ;;
     folders <- lift (JSON_parse_folders more content) ;;
     ret (match folders with Some l => l | None => [] end))
    (fun _ =>
       console_error "Error generating folder structure:" ;;
       throw "Failed to generate folder structure").

(* routes.ts *)

Definition failure (message : string) : Answer :=
  {| ans_status := 500; ans_body := Plain (Json_message message) |}.

(** The loop of POST /api/onboarding over the generated structure. *)
Fixpoint create_folders (userId : string)
    (folderStructure : list FolderStructure) : M X unit :=
  match folderStructure with
  | [] => ret tt
  | folder :: rest =>
      createFolder env
        {| if_userId := userId;
           if_name := fs_name folder;
           if_parentId := fs_parentId folder;
           if_path := fs_path folder |} ;;
      create_folders userId rest
  end.

(** GET /api/folders *)
Definition get_folders (userId : string) : M X Answer :=
  try_catch
    (folders <- getFoldersByUserId env userId ;;
     ret {| ans_status := 200; ans_body := Folder_list folders |})
    (fun _ =>
       console_error "Error fetching folders:" ;;
       ret (failure "Failed to fetch folders")).

(** GET /api/files; [folderId] is the number that [parseInt] reads from
    the query parameter when the parameter is a non-empty string, and
    [None] when it is absent or empty. *)
Definition get_files (userId : string) (folderId : option Z) : M X Answer :=
  try_catch
    (files <- match folderId with
              | Some id => getFilesByFolderId env id
              | None => getFilesByUserId userId
              end ;;
     ret {| ans_status := 200; ans_body := File_list files |})
    (fun _ =>
       console_error "Error fetching files:" ;;
       ret (failure "Failed to fetch files")).

(** GET /api/files/:id *)
Definition get_file (fileId : Z) : M X Answer :=
  try_catch
    (file <- getFileById env fileId ;;
     match file with
     | None =>
         ret {| ans_status := 404;
                ans_body := Plain (Json_message "File not found") |}
     | Some f => ret {| ans_status := 200; ans_body := One_file (Some f) |}
     end)
    (fun _ =>
       console_error "Error fetching file:" ;;
       ret (failure "Failed to fetch file")).

(** PUT /api/files/:id, for the bodies of [FilePatch] *)
Definition put_file (fileId : Z) (body : FilePatch) : M X Answer :=
  try_catch
    (updatedFile <- updateFile_with fileId body ;;
     ret {| ans_status := 200; ans_body := One_file updatedFile |})
    (fun _ =>
       console_error "Error updating file:" ;;
       ret (failure "Failed to update file")).

(** PUT /api/files/:id/move *)
Definition put_file_move (fileId : Z) (folderId : option Z) : M X Answer :=
  try_catch
    (updatedFile <- updateFile_with fileId
                      (patch_folderId (or_null folderId)) ;;
     ret {| ans_status := 200; ans_body := One_file updatedFile |})
    (fun _ =>
       console_error "Error moving file:" ;;
       ret (failure "Failed to move file")).

(** DELETE /api/files/:id *)
Definition delete_file (fileId : Z) : M X Answer :=
  try_catch
    (file <- getFileById env fileId ;;
     match file with
     | Some f =>
         (* Delete physical file *)
         present <- ask (fun x =>
                      let (b, x') := fs_existsSync more (File.filePath f) x in
                      (Ok b, x')) ;;
         (if present : bool
          then ask (fs_unlinkSync more (File.filePath f))
          else ret tt) ;;
         deleteFile fileId
     | None => ret tt
     end ;;
     ret {| ans_status := 200; ans_body := Plain Json_success |})
    (fun _ =>
       console_error "Error deleting file:" ;;
       ret (failure "Failed to delete file")).

(** GET /api/ai/commands *)
Definition get_ai_commands (userId : string) : M X Answer :=
  try_catch
    (commands <- getAiCommandsByUserId userId ;;
     ret {| ans_status := 200; ans_body := Command_list commands |})
    (fun _ =>
       console_error "Error fetching AI commands:" ;;
       ret (failure "Failed to fetch AI commands")).

(** GET /api/export; [exportDate] is the instant of [new Date()]. *)
Definition get_export (userId : string) : M X Answer :=
  try_catch
    (files <- getFilesByUserId userId ;;
     folders <- getFoldersByUserId env userId ;;
     exportDate <- new_Date env ;;
     ret {| ans_status := 200;
            ans_body :=
              Export_data folders (map without_filePath files) exportDate |})
    (fun _ =>
       console_error "Error exporting data:" ;;
       ret (failure "Failed to export data")).

(** A request that changes the database, or a started promise that gets
    to run. *)
Inductive Request : Type :=
| POST_folders (userId name : string) (parentId : option Z)
| PUT_folder (folderId : Z) (name : string) (parentId : option Z)
| DELETE_folder (userId : string) (folderId : Z)
| POST_upload (userId : string) (parts : list MulterFile) (body : UploadBody)
| PUT_file (fileId : Z) (body : FilePatch)
| PUT_file_move (fileId : Z) (folderId : option Z)
| DELETE_file (fileId : Z)
| POST_ai_command (userId command : string)
| POST_onboarding_folders (userId : string)
    (folderStructure : list FolderStructure)
| Background (t : task).

Definition serve (q : Request) (w : World X) : World X :=
  match q with
  | POST_folders userId name parentId =>
      snd (post_folders env userId name parentId w)
  | PUT_folder folderId name parentId =>
      snd (put_folder env folderId name parentId w)
  | DELETE_folder userId folderId => snd (delete_folder env userId folderId w)
  | POST_upload userId parts body =>
      snd (post_files_upload env userId parts body w)
  | PUT_file fileId body => snd (put_file fileId body w)
  | PUT_file_move fileId folderId => snd (put_file_move fileId folderId w)
  | DELETE_file fileId => snd (delete_file fileId w)
  | POST_ai_command userId command =>
      snd (post_ai_command env userId command w)
  | POST_onboarding_folders userId folderStructure =>
      snd (create_folders userId folderStructure w)
  | Background t => snd (run_task env t w)
  end.

Definition serve_all (qs : list Request) (w : World X) : World X :=
  fold_left (fun w q => serve q w) qs w.

(** [m] keeps [P] true of the database. *)
Definition keeps {A} (P : Db -> Prop) (m : M X A) : Prop :=
  forall w, P (db w) -> P (db (snd (m w))).

End More.

(** The ids of a table come from its sequence: they are distinct, positive
    and none exceeds the last value handed out. *)
Definition ids_wf (ids : list Z) (seq : Z) : Prop :=
  0 <= seq /\ NoDup ids /\ Forall (fun i => 0 < i <= seq) ids.

Definition db_wf (d : Db) : Prop :=
  ids_wf (map Folder.id (folders d)) (folders_id_seq d)
  /\ ids_wf (map File.id (files d)) (files_id_seq d)
  /\ ids_wf (map AiCommand.id (aiCommands d)) (ai_commands_id_seq d).

(** A file system and an engine that never fail, beside [script_env]. *)
Definition script_more : Env2 Script :=
  {| fs_existsSync := fun _ x => (true, x);
     fs_unlinkSync := fun _ x => (Ok tt, x);
     worker_terminate := fun x => (Ok tt, x);
     chat_folder_structure := fun _ x =>
       match chat_outcomes x with
       | r :: rest =>
           (r, Build_Script (ocr_outcomes x) rest (db_failures x) (time x))
       | [] => (Throw "no reply", x)
       end;
     JSON_parse_folders := fun content =>
       match content with
       | Some s => Ok (Some [ {| fs_name := s; fs_parentId := None;
                                 fs_path := s |} ])
       | None => Throw "TypeError"
       end |}.

(** *** What the further properties speak of *)

(** What [processFile] may change of a row of [files]. *)
Definition same_upload (old new : File.t) : Prop :=
  File.id new = File.id old
  /\ File.userId new = File.userId old
  /\ File.folderId new = File.folderId old
  /\ File.name new = File.name old
  /\ File.originalName new = File.originalName old
  /\ File.size new = File.size old
  /\ File.mimeType new = File.mimeType old
  /\ File.filePath new = File.filePath old
  /\ File.metadata new = File.metadata old
  /\ File.createdAt new = File.createdAt old.

(** The row that the upload handler stores for a part. *)
Definition uploaded_row (userId : string) (folderId : option Z)
    (part : MulterFile) (id now : Z) : File.t :=
  File.mk id userId folderId (filename part) (originalname part)
    (mf_size part) (mimetype part) (mf_path part) None None None None
    (Some "processing") now now.

(** [rows] are the rows of the parts [parts], in order, with the ids that
    follow [seq]. *)
Fixpoint mirror (userId : string) (folderId : option Z) (seq : Z)
    (parts : list MulterFile) (rows : list File.t) : Prop :=
  match parts, rows with
  | [], [] => True
  | part :: parts', row :: rows' =>
      (exists now, row = uploaded_row userId folderId part (seq + 1) now)
      /\ mirror userId folderId (seq + 1) parts' rows'
  | _, _ => False
  end.

(** What an update may change of a row of [ai_commands]. *)
Definition same_command (old new : AiCommand.t) : Prop :=
  AiCommand.id new = AiCommand.id old
  /\ AiCommand.userId new = AiCommand.userId old
  /\ AiCommand.command new = AiCommand.command old
  /\ AiCommand.createdAt new = AiCommand.createdAt old.

(** [rows] are the rows of the folders [structure], in order, with the ids
    that follow [seq]. *)
Fixpoint stored_as (userId : string) (seq : Z)
    (structure : list FolderStructure) (rows : list Folder.t) : Prop :=
  match structure, rows with
  | [], [] => True
  | folder :: structure', row :: rows' =>
      (exists now,
         row = Folder.mk (seq + 1) userId (fs_name folder)
                 (fs_parentId folder) (fs_path folder) now now)
      /\ stored_as userId (seq + 1) structure' rows'
  | _, _ => False
  end.

(** A file system that lets nothing be removed. *)
Definition read_only_more : Env2 Script :=
  {| fs_existsSync := fun _ x => (true, x);
     fs_unlinkSync := fun _ x => (Throw "EACCES", x);
     worker_terminate := worker_terminate script_more;
     chat_folder_structure := chat_folder_structure script_more;
     JSON_parse_folders := JSON_parse_folders script_more |}.

(** The part of an upload that becomes [notes]. *)
Definition notes_part : MulterFile :=
  {| filename := "77c0";
     originalname := "notes.txt";
     mf_size := 12;
     mimetype := "text/plain";
     mf_path := "uploads/77c0" |}.

(* ================================================================= *)
(** * Properties *)

(** ** Traces *)

Lemma skipn_app_exact {A} (l l' : list A) :
  skipn (List.length l) (l ++ l') = l'.
Proof.
  induction l as [|a l IH]; simpl; [reflexivity | exact IH].
Qed.

Lemma calls_app (l l' : list event) : calls (l ++ l') = calls l ++ calls l'.
Proof. apply filter_app. Qed.

Section Runs.

Variable X : Type.
Variable env : Env X.

(** Closes [quiet w w' cs] when [w'] is [w] with [evs] appended. *)
Ltac quiet_by evs :=
  split;
  [ exists evs; split;
    [ simpl; rewrite ?app_nil_r, <- ?app_assoc; reflexivity | reflexivity ]
  | split; reflexivity ].

Lemma steps_refl (w : World X) : steps w w [].
Proof. exists []. rewrite app_nil_r. split; reflexivity. Qed.

Lemma steps_trans (w w1 w2 : World X) c1 c2 :
  steps w w1 c1 -> steps w1 w2 c2 -> steps w w2 (c1 ++ c2).
Proof.
  intros [e1 [H1 C1]] [e2 [H2 C2]]. exists (e1 ++ e2). split.
  - rewrite H2, H1, app_assoc. reflexivity.
  - rewrite calls_app, C1, C2. reflexivity.
Qed.

Lemma steps_new_events (w w' : World X) cs :
  steps w w' cs -> calls (new_events w w') = cs.
Proof.
  intros [evs [H C]]. unfold new_events. rewrite H, skipn_app_exact.
  exact C.
Qed.

Lemma quiet_refl (w : World X) : quiet w w [].
Proof. split; [apply steps_refl | split; reflexivity]. Qed.

Lemma quiet_trans (w w1 w2 : World X) c1 c2 :
  quiet w w1 c1 -> quiet w1 w2 c2 -> quiet w w2 (c1 ++ c2).
Proof.
  intros [S1 [D1 T1]] [S2 [D2 T2]]. split; [|split].
  - eapply steps_trans; eassumption.
  - congruence.
  - congruence.
Qed.

Lemma console_error_run msg (w : World X) :
  exists w', console_error msg w = (Ok tt, w') /\ quiet w w' [].
Proof.
  eexists. split; [reflexivity|]. split; [|split; reflexivity].
  exists [Console_error msg]. split; reflexivity.
Qed.

Lemma console_log_run msg (w : World X) :
  exists w', console_log msg w = (Ok tt, w') /\ quiet w w' [].
Proof.
  eexists. split; [reflexivity|]. split; [|split; reflexivity].
  exists [Console_log msg]. split; reflexivity.
Qed.

(** *** The collaborators, one call at a time *)

Lemma extractText_run filePath w :
  exists a w',
    extractText env filePath w = (a, w')
    /\ quiet w w' [Call_extractText filePath a].
Proof.
  unfold extractText, traced.
  destruct (try_catch _ _ w) as [a w1] eqn:E.
  exists a. eexists. split; [reflexivity|].
  assert (Q : quiet w w1 []).
  { revert E. unfold initialize, try_catch, bind, ask, ret, throw,
      console_error, emit.
    destruct (worker w); simpl.
    - destruct (worker_recognize env filePath (outside w)) as [[t|e] x];
        intros E; inversion E; subst; clear E.
      + quiet_by (@nil event).
      + quiet_by [Console_error "OCR processing error:"].
    - destruct (createWorker env (outside w)) as [[[]|e] x1]; simpl.
      2:{ intros E; inversion E; subst; clear E.
          quiet_by [Console_error "OCR processing error:"]. }
      destruct (worker_loadLanguage env "eng" x1) as [[[]|e] x2]; simpl.
      2:{ intros E; inversion E; subst; clear E.
          quiet_by [Console_error "OCR processing error:"]. }
      destruct (worker_initialize env "eng" x2) as [[[]|e] x3]; simpl.
      2:{ intros E; inversion E; subst; clear E.
          quiet_by [Console_error "OCR processing error:"]. }
      destruct (worker_recognize env filePath x3) as [[t|e] x4];
        intros E; inversion E; subst; clear E.
      + quiet_by (@nil event).
      + quiet_by [Console_error "OCR processing error:"]. }
  change [Call_extractText filePath a]
    with ([] ++ [Call_extractText filePath a]).
  eapply quiet_trans; [exact Q|].
  quiet_by [Call_extractText filePath a].
Qed.

Lemma chat_run request w :
  exists c w',
    chat env request w = (c, w') /\ quiet w w' [Call_chat request c].
Proof.
  unfold chat, traced, ask.
  destruct (chat_completions_create env request (outside w)) as [c x].
  exists c. eexists. split; [reflexivity|].
  split; [|split; reflexivity].
  exists [Call_chat request c]. split; reflexivity.
Qed.

Lemma summarizeDocument_run text fileName w :
  exists c w',
    summarizeDocument env text fileName w = (Ok (summary_of c), w')
    /\ quiet w w'
         [Call_chat (SummaryPrompt text fileName) c;
          Call_summarizeDocument text fileName (Ok (summary_of c))].
Proof.
  destruct (chat_run (SummaryPrompt text fileName) w) as [c [w1 [E Q]]].
  exists c. unfold summarizeDocument, traced, try_catch, bind.
  rewrite E. destruct c as [content|e]; simpl.
  - eexists. split; [reflexivity|].
    change [Call_chat (SummaryPrompt text fileName) (Ok content);
            Call_summarizeDocument text fileName
              (Ok (content_or content "Unable to generate summary"))]
      with ([Call_chat (SummaryPrompt text fileName) (Ok content)]
            ++ [Call_summarizeDocument text fileName
                  (Ok (content_or content "Unable to generate summary"))]).
    eapply quiet_trans; [exact Q|].
    split; [|split; reflexivity]. eexists. split; reflexivity.
  - eexists. split; [reflexivity|].
    change [Call_chat (SummaryPrompt text fileName) (Throw e);
            Call_summarizeDocument text fileName
              (Ok "Summary generation failed")]
      with ([Call_chat (SummaryPrompt text fileName) (Throw e)]
            ++ [Call_summarizeDocument text fileName
                  (Ok "Summary generation failed")]).
    eapply quiet_trans; [exact Q|].
    split; [|split; reflexivity].
    exists [Console_error "Error summarizing document:";
            Call_summarizeDocument text fileName
              (Ok "Summary generation failed")].
    split; [|reflexivity]. simpl. rewrite <- app_assoc. reflexivity.
Qed.

Lemma generateTags_run text fileName w :
  exists c w',
    generateTags env text fileName w = (Ok (tags_of env c), w')
    /\ quiet w w'
         [Call_chat (TagsPrompt text fileName) c;
          Call_generateTags text fileName (Ok (tags_of env c))].
Proof.
  destruct (chat_run (TagsPrompt text fileName) w) as [c [w1 [E Q]]].
  exists c. unfold generateTags, traced, try_catch, bind.
  rewrite E. unfold tags_of, lift.
  destruct c as [content|e]; simpl.
  - destruct (JSON_parse_tags env content) as [[l|]|e]; simpl;
      (eexists; split; [reflexivity|]);
      (match goal with
       | |- quiet _ _ [?a; ?b] => change [a; b] with ([a] ++ [b])
       end);
      (eapply quiet_trans; [exact Q|]).
    + quiet_by [Call_generateTags text fileName (Ok l)].
    + quiet_by [Call_generateTags text fileName (Ok [])].
    + quiet_by [Console_error "Error generating tags:";
                Call_generateTags text fileName (Ok [])].
  - eexists. split; [reflexivity|].
    match goal with
    | |- quiet _ _ [?a; ?b] => change [a; b] with ([a] ++ [b])
    end.
    eapply quiet_trans; [exact Q|].
    quiet_by [Console_error "Error generating tags:";
              Call_generateTags text fileName (Ok [])].
Qed.

Lemma updateFile_run id u w :
  exists ru w',
    updateFile env id u w = (ru, w')
    /\ steps w w' [Call_updateFile id u ru]
    /\ started w' = started w
    /\ match ru with
       | Ok _ => exists now, db w' = files_updated id u now (db w)
       | Throw _ => db w' = db w
       end.
Proof.
  unfold updateFile, traced, new_Date, execute, bind, ask, modify, gets, ret.
  destruct (clock env (outside w)) as [now x1]; simpl.
  destruct (db_execute env x1) as [[[]|e] x2]; simpl.
  - eexists. eexists. split; [reflexivity|]. split; [|split].
    + eexists. split; reflexivity.
    + reflexivity.
    + exists now. reflexivity.
  - eexists. eexists. split; [reflexivity|]. split; [|split].
    + eexists. split; reflexivity.
    + reflexivity.
    + reflexivity.
Qed.

(** *** Sequencing *)

Lemma bind_ok {A B} (m : M X A) (k : A -> M X B) w a w1 :
  m w = (Ok a, w1) -> bind m k w = k a w1.
Proof. intros E. unfold bind. rewrite E. reflexivity. Qed.

Lemma bind_throw {A B} (m : M X A) (k : A -> M X B) w e w1 :
  m w = (Throw e, w1) -> bind m k w = (Throw e, w1).
Proof. intros E. unfold bind. rewrite E. reflexivity. Qed.

Lemma try_catch_ok {A} (m : M X A) h w a w1 :
  m w = (Ok a, w1) -> try_catch m h w = (Ok a, w1).
Proof. intros E. unfold try_catch. rewrite E. reflexivity. Qed.

Lemma try_catch_throw {A} (m : M X A) h w e w1 :
  m w = (Throw e, w1) -> try_catch m h w = h e w1.
Proof. intros E. unfold try_catch. rewrite E. reflexivity. Qed.

Lemma try_catch_bind_ok {A B} (m : M X A) (k : A -> M X B) h w a w1 :
  m w = (Ok a, w1) -> try_catch (bind m k) h w = try_catch (k a) h w1.
Proof.
  intros E. unfold try_catch. rewrite (@bind_ok _ _ _ k _ _ _ E).
  reflexivity.
Qed.

Lemma try_catch_bind_throw {A B} (m : M X A) (k : A -> M X B) h w e w1 :
  m w = (Throw e, w1) -> try_catch (bind m k) h w = h e w1.
Proof.
  intros E. unfold try_catch. rewrite (@bind_throw _ _ _ k _ _ _ E).
  reflexivity.
Qed.

(** *** The three guarded steps of [processFile] *)

Variable file : File.t.
Variable options : ProcessingOptions.

Lemma processFile_steps :
  processFile env file options =
  try_catch
    (ocrText <- ocr_step env file options ;;
     let textForAI := or_string ocrText (File.originalName file) in
     summary <- summary_step env file options textForAI ;;
     tags <- tags_step env file options textForAI ;;
     updateFile env (File.id file)
       {| u_ocrText := Some ocrText;
          u_aiSummary := Some summary;
          u_tags := Some tags;
          u_processingStatus := Some "completed" |} ;;
     console_log "File processed successfully")%async
    (fun _ =>
       console_error "File processing failed:" ;;
       updateFile env (File.id file) failed_updates ;;
       ret tt)%async.
Proof. reflexivity. Qed.

Lemma ocr_step_run w :
  exists a1 w1,
    ocr_step env file options w = (Ok (pipeline_ocrText file options a1), w1)
    /\ quiet w w1 (ocr_calls file options a1)
    /\ (asks_ocr file options = true ->
        fst (extractText env (File.filePath file) w) = a1).
Proof.
  unfold ocr_step, pipeline_ocrText, ocr_calls, asks_ocr.
  destruct (processOcr options && isOCRSupported (File.mimeType file)).
  - destruct (extractText_run (File.filePath file) w) as [a [w1 [E Q]]].
    exists a. destruct a as [t|e].
    + exists w1. rewrite (@try_catch_ok _ _ _ _ _ _ E). split; [reflexivity|].
      split; [exact Q|]. intros _. rewrite E. reflexivity.
    + rewrite (@try_catch_throw _ _ _ _ _ _ E).
      eexists. split; [reflexivity|]. split.
      * rewrite <- (app_nil_r [Call_extractText _ _]).
        eapply quiet_trans; [exact Q|].
        quiet_by [Console_error "OCR failed for file:"].
      * intros _. rewrite E. reflexivity.
  - exists (Ok ""), w. split; [reflexivity|].
    split; [apply quiet_refl | discriminate].
Qed.

Lemma summary_step_run a1 w :
  exists c2 w1,
    summary_step env file options (pipeline_textForAI file options a1) w
    = (Ok (pipeline_summary file options a1 c2), w1)
    /\ quiet w w1 (summary_calls file options a1 c2).
Proof.
  unfold summary_step, pipeline_summary, summary_calls, asks_summary.
  destruct (generateSummary options
            && truthy_string (pipeline_textForAI file options a1)).
  - destruct (summarizeDocument_run (pipeline_textForAI file options a1)
                (File.originalName file) w) as [c [w1 [E Q]]].
    exists c, w1. rewrite (@try_catch_ok _ _ _ _ _ _ E).
    split; [reflexivity | exact Q].
  - exists (Ok None), w. split; [reflexivity | apply quiet_refl].
Qed.

Lemma tags_step_run a1 w :
  exists c3 w1,
    tags_step env file options (pipeline_textForAI file options a1) w
    = (Ok (pipeline_tags env file options a1 c3), w1)
    /\ quiet w w1 (tags_calls env file options a1 c3).
Proof.
  unfold tags_step, pipeline_tags, tags_calls, asks_tags.
  destruct (autoTag options
            && truthy_string (pipeline_textForAI file options a1)).
  - destruct (generateTags_run (pipeline_textForAI file options a1)
                (File.originalName file) w) as [c [w1 [E Q]]].
    exists c, w1. rewrite (@try_catch_ok _ _ _ _ _ _ E).
    split; [reflexivity | exact Q].
  - exists (Ok None), w. split; [reflexivity | apply quiet_refl].
Qed.

(** *** The whole of [processFile]

    Every run of [processFile] makes the calls of [pipeline_calls], for
    the answers [a1], [c2], [c3] it received, then writes
    [pipeline_updates]; the [catch] block runs only when that write
    throws. *)
Lemma processFile_run w :
  exists a1 c2 c3 ru rf,
    let u := pipeline_updates env file options a1 c2 c3 in
    let r := fst (processFile env file options w) in
    let w' := snd (processFile env file options w) in
    steps w w'
      (pipeline_calls env file options a1 c2 c3
       ++ writes (File.id file) u ru rf)
    /\ started w' = started w
    /\ (asks_ocr file options = true ->
        fst (extractText env (File.filePath file) w) = a1)
    /\ match ru with
       | Ok _ =>
           r = Ok tt
           /\ exists now, db w' = files_updated (File.id file) u now (db w)
       | Throw _ =>
           match rf with
           | Ok _ =>
               r = Ok tt
               /\ exists now,
                    db w' =
                    files_updated (File.id file) failed_updates now (db w)
           | Throw e => r = Throw e /\ db w' = db w
           end
       end.
Proof.
  rewrite processFile_steps.
  destruct (ocr_step_run w) as [a1 [w1 [E1 [[S1 [D1 T1]] P1]]]].
  rewrite (@try_catch_bind_ok _ _ _ _ _ _ _ _ E1). cbv zeta beta.
  change (or_string (pipeline_ocrText file options a1)
            (File.originalName file))
    with (pipeline_textForAI file options a1).
  destruct (summary_step_run a1 w1) as [c2 [w2 [E2 [S2 [D2 T2]]]]].
  rewrite (@try_catch_bind_ok _ _ _ _ _ _ _ _ E2).
  destruct (tags_step_run a1 w2) as [c3 [w3 [E3 [S3 [D3 T3]]]]].
  rewrite (@try_catch_bind_ok _ _ _ _ _ _ _ _ E3).
  change {| u_ocrText := Some (pipeline_ocrText file options a1);
            u_aiSummary := Some (pipeline_summary file options a1 c2);
            u_tags := Some (pipeline_tags env file options a1 c3);
            u_processingStatus := Some "completed" |}
    with (pipeline_updates env file options a1 c2 c3).
  pose proof (steps_trans S1 (steps_trans S2 S3)) as S123.
  fold (pipeline_calls env file options a1 c2 c3) in S123.
  destruct (updateFile_run (File.id file)
              (pipeline_updates env file options a1 c2 c3) w3)
    as [ru [w4 [E4 [S4 [T4 D4]]]]].
  exists a1, c2, c3, ru.
  destruct ru as [row|e].
  - exists (Ok None).
    rewrite (@try_catch_bind_ok _ _ _ _ _ _ _ _ E4).
    destruct (console_log_run "File processed successfully" w4)
      as [w5 [E5 [S5 [D5 T5]]]].
    rewrite (@try_catch_ok _ _ _ _ _ _ E5). cbn [fst snd writes].
    split; [|split; [|split; [|split]]].
    + pose proof (steps_trans S123 (steps_trans S4 S5)) as S.
      rewrite app_nil_r in S. exact S.
    + congruence.
    + exact P1.
    + reflexivity.
    + destruct D4 as [now D4]. exists now. congruence.
  - rewrite (@try_catch_bind_throw _ _ _ _ _ _ _ _ E4).
    destruct (console_error_run "File processing failed:" w4)
      as [w5 [E5 [S5 [D5 T5]]]].
    rewrite (@bind_ok _ _ _ _ _ _ _ E5).
    destruct (updateFile_run (File.id file) failed_updates w5)
      as [rf [w6 [E6 [S6 [T6 D6]]]]].
    exists rf. cbn [writes].
    assert (S : steps w w6
                  (pipeline_calls env file options a1 c2 c3
                   ++ [Call_updateFile (File.id file)
                         (pipeline_updates env file options a1 c2 c3)
                         (Throw e);
                       Call_updateFile (File.id file) failed_updates rf])).
    { pose proof (steps_trans S123 (steps_trans S4 (steps_trans S5 S6)))
        as S.
      exact S. }
    destruct rf as [row|e'].
    + rewrite (@bind_ok _ _ _ _ _ _ _ E6). cbn [fst snd ret].
      split; [exact S|]. split; [congruence|]. split; [exact P1|].
      split; [reflexivity|].
      destruct D6 as [now D6]. exists now. congruence.
    + rewrite (@bind_throw _ _ _ _ _ _ _ E6). cbn [fst snd].
      split; [exact S|]. split; [congruence|]. split; [exact P1|].
      split; [reflexivity|]. congruence.
Qed.

End Runs.

(* ================================================================= *)
(** ** The file processing pipeline *)

Lemma filter_calls (f : event -> bool) (evs : list event) :
  (forall e, f e = true -> is_console e = false) ->
  filter f (calls evs) = filter f evs.
Proof.
  intros H. unfold calls. induction evs as [|e evs IH]; simpl.
  - reflexivity.
  - destruct (is_console e) eqn:C; simpl.
    + destruct (f e) eqn:F; [|exact IH].
      apply H in F. congruence.
    + rewrite IH. reflexivity.
Qed.

Lemma in_calls (e : event) (evs : list event) :
  is_console e = false -> In e evs -> In e (calls evs).
Proof.
  intros C I. unfold calls. apply filter_In. split; [exact I|].
  rewrite C. reflexivity.
Qed.

Lemma calls_in (e : event) (evs : list event) : In e (calls evs) -> In e evs.
Proof. unfold calls. intros I. apply filter_In in I. tauto. Qed.

Lemma persisted_outputs_calls (evs : list event) :
  persisted_outputs (calls evs) = persisted_outputs evs.
Proof.
  unfold calls. induction evs as [|e evs IH]; simpl.
  - reflexivity.
  - destruct e; simpl; rewrite ?IH; reflexivity.
Qed.

Lemma persisted_outputs_app (l l' : list event) :
  persisted_outputs (l ++ l') = persisted_outputs l ++ persisted_outputs l'.
Proof. unfold persisted_outputs. apply flat_map_app. Qed.

Lemma isOCRSupported_false (mimeType : string) :
  ~ In mimeType supportedTypes -> isOCRSupported mimeType = false.
Proof.
  intros H. unfold isOCRSupported, includes.
  destruct (existsb (String.eqb mimeType) supportedTypes) eqn:E;
    [|reflexivity].
  apply existsb_exists in E. destruct E as [s [I Q]].
  apply String.eqb_eq in Q. subst s. contradiction.
Qed.

Lemma truthy_string_true (s : string) : s <> "" -> truthy_string s = true.
Proof. destruct s; [congruence | reflexivity]. Qed.

(** The rows of an updated table. *)
Lemma files_updated_ids id u now d :
  map File.id (files (files_updated id u now d)) = map File.id (files d).
Proof.
  unfold files_updated. simpl. rewrite map_map. apply map_ext.
  intros f. destruct (File.id f =? id); reflexivity.
Qed.

Lemma files_updated_row id u now d row :
  In row (files (files_updated id u now d)) ->
  File.id row = id ->
  exists old,
    In old (files d) /\ File.id old = id
    /\ row = apply_file_updates u now old.
Proof.
  unfold files_updated. simpl. intros I Hid.
  apply in_map_iff in I. destruct I as [old [E I]].
  destruct (File.id old =? id) eqn:Q.
  - exists old. apply Z.eqb_eq in Q. auto.
  - subst row. apply Z.eqb_neq in Q. contradiction.
Qed.

Section Pipeline_properties.

Variable X : Type.
Variable env : Env X.
Variable file : File.t.
Variable options : ProcessingOptions.

Lemma updateFile_pipeline_calls a1 c2 c3 :
  filter is_updateFile (pipeline_calls env file options a1 c2 c3) = [].
Proof.
  unfold pipeline_calls, ocr_calls, summary_calls, tags_calls.
  destruct (asks_ocr file options), (asks_summary file options a1),
    (asks_tags file options a1); reflexivity.
Qed.

Lemma updateFile_writes id u ru rf :
  filter is_updateFile (writes id u ru rf) = writes id u ru rf.
Proof. destruct ru; reflexivity. Qed.

Lemma persisted_pipeline_calls a1 c2 c3 :
  persisted_outputs (pipeline_calls env file options a1 c2 c3) = [].
Proof.
  unfold pipeline_calls, ocr_calls, summary_calls, tags_calls.
  destruct (asks_ocr file options), (asks_summary file options a1),
    (asks_tags file options a1); reflexivity.
Qed.

Lemma persisted_writes id a1 c2 c3 ru rf :
  persisted_outputs
    (writes id (pipeline_updates env file options a1 c2 c3) ru rf)
  = [(Some (pipeline_ocrText file options a1),
      Some (pipeline_summary file options a1 c2),
      Some (pipeline_tags env file options a1 c3))].
Proof. destruct ru; reflexivity. Qed.

(** What a run of [processFile] persists, in terms of the answers. *)
Lemma processFile_persisted w :
  exists a1 c2 c3,
    let evs := new_events w (snd (processFile env file options w)) in
    calls evs <> []
    /\ (forall e, In e (pipeline_calls env file options a1 c2 c3) ->
                 In e evs)
    /\ (forall e, In e evs -> is_updateFile e = false ->
                 is_console e = false ->
                 In e (pipeline_calls env file options a1 c2 c3))
    /\ collaborator_calls evs
       = collaborator_calls (pipeline_calls env file options a1 c2 c3)
    /\ persisted_outputs evs
       = [(Some (pipeline_ocrText file options a1),
           Some (pipeline_summary file options a1 c2),
           Some (pipeline_tags env file options a1 c3))].
Proof.
  destruct (processFile_run env file options w)
    as [a1 [c2 [c3 [ru [rf [S _]]]]]].
  apply steps_new_events in S.
  exists a1, c2, c3. cbv zeta.
  set (evs := new_events w (snd (processFile env file options w))) in *.
  split; [|split; [|split; [|split]]].
  - rewrite S. destruct (pipeline_calls env file options a1 c2 c3);
      destruct ru; discriminate.
  - intros e I. apply calls_in. rewrite S. apply in_or_app. left. exact I.
  - intros e I U C. apply (in_calls _ _ C) in I. rewrite S in I.
    apply in_app_or in I. destruct I as [I|I]; [exact I|].
    destruct ru; simpl in I; intuition (subst; discriminate).
  - unfold collaborator_calls.
    rewrite <- (filter_calls is_collaborator_call evs)
      by (intros []; simpl; congruence).
    rewrite S, filter_app.
    replace (filter is_collaborator_call
               (writes (File.id file)
                  (pipeline_updates env file options a1 c2 c3) ru rf))
      with (@nil event) by (destruct ru; reflexivity).
    apply app_nil_r.
  - rewrite <- persisted_outputs_calls, S, persisted_outputs_app,
      persisted_pipeline_calls, persisted_writes.
    reflexivity.
Qed.

End Pipeline_properties.

Lemma status_after_update id u now d s row :
  u_processingStatus u = Some s ->
  In row (files (files_updated id u now d)) ->
  File.id row = id ->
  File.processingStatus row = Some s.
Proof.
  intros U I Hid.
  destruct (@files_updated_row _ _ _ _ _ I Hid) as [old [_ [_ E]]].
  subst row. simpl. rewrite U. reflexivity.
Qed.

(** C1.  Whatever the file record, the options and the behaviour of the
    outside, [processFile] first writes status ["completed"]; when that
    write succeeds (the [try] block ran to its end) it is the only write,
    [processFile] returns and the record is ["completed"]; when it throws
    (the one exception that can escape the [try] block), the [catch] block
    writes status ["failed"].  Hence whenever [processFile] returns
    normally, every row of the file is ["completed"] or ["failed"], and the
    rows of the table are the same records as before. *)
Theorem processFile_final_status (X : Type) (env : Env X) (file : File.t)
    (options : ProcessingOptions) (w : World X) :
  let r := fst (processFile env file options w) in
  let w' := snd (processFile env file options w) in
  let status_is (s : string) :=
    forall row, In row (files (db w')) -> File.id row = File.id file ->
                File.processingStatus row = Some s in
  exists u ru rest,
    filter is_updateFile (new_events w w')
    = Call_updateFile (File.id file) u ru :: rest
    /\ u_processingStatus u = Some "completed"
    /\ (is_ok ru = true ->
        rest = [] /\ r = Ok tt /\ status_is "completed")
    /\ (is_ok ru = false ->
        exists uf rf,
          rest = [Call_updateFile (File.id file) uf rf]
          /\ u_processingStatus uf = Some "failed"
          /\ (is_ok rf = true -> r = Ok tt /\ status_is "failed")
          /\ (is_ok rf = false -> is_ok r = false))
    /\ (is_ok r = true -> forall row,
          In row (files (db w')) -> File.id row = File.id file ->
          File.processingStatus row = Some "completed"
          \/ File.processingStatus row = Some "failed")
    /\ map File.id (files (db w')) = map File.id (files (db w)).
Proof.
  cbv zeta.
  destruct (processFile_run env file options w)
    as [a1 [c2 [c3 [ru [rf [S [_ [_ D]]]]]]]].
  cbv zeta in S, D. apply steps_new_events in S.
  set (r := fst (processFile env file options w)) in *.
  set (w' := snd (processFile env file options w)) in *.
  set (u := pipeline_updates env file options a1 c2 c3) in *.
  assert (F : filter is_updateFile (new_events w w')
              = writes (File.id file) u ru rf).
  { rewrite <- (filter_calls is_updateFile (new_events w w'))
      by (intros []; simpl; congruence).
    rewrite S, filter_app, updateFile_pipeline_calls, updateFile_writes.
    reflexivity. }
  destruct ru as [row0|e].
  - destruct D as [R [now D]].
    exists u, (Ok row0), []. split; [exact F|]. split; [reflexivity|].
    assert (St : forall row, In row (files (db w')) ->
                 File.id row = File.id file ->
                 File.processingStatus row = Some "completed").
    { intros row I Hid. rewrite D in I.
      eapply status_after_update; [|exact I|exact Hid]. reflexivity. }
    split; [intros _; auto|]. split; [discriminate|].
    split; [intros _ row I Hid; left; auto|].
    rewrite D. apply files_updated_ids.
  - exists u, (Throw e), [Call_updateFile (File.id file) failed_updates rf].
    split; [exact F|]. split; [reflexivity|]. split; [discriminate|].
    destruct rf as [row1|e'].
    + destruct D as [R [now D]].
      assert (St : forall row, In row (files (db w')) ->
                   File.id row = File.id file ->
                   File.processingStatus row = Some "failed").
      { intros row I Hid. rewrite D in I.
        eapply status_after_update; [|exact I|exact Hid]. reflexivity. }
      split.
      * intros _. exists failed_updates, (Ok row1).
        split; [reflexivity|]. split; [reflexivity|].
        split; [auto | discriminate].
      * split; [intros _ row I Hid; right; auto|].
        rewrite D. apply files_updated_ids.
    + destruct D as [R D]. split.
      * intros _. exists failed_updates, (Throw e').
        split; [reflexivity|]. split; [reflexivity|].
        split; [discriminate|]. intros _. rewrite R. reflexivity.
      * split; [rewrite R; discriminate|]. rewrite D. reflexivity.
Qed.

(** C3.  For a file whose declared media type is outside the supported set,
    a run of [processFile] never calls [extractText]; every call of
    [summarizeDocument], of [generateTags] and of the language model
    receives the original name of the file as its text; and when
    summarization (tagging) is enabled and the original name is not empty,
    that call is made. *)
Theorem unsupported_type_uses_original_name (X : Type) (env : Env X)
    (file : File.t) (options : ProcessingOptions) (w : World X) :
  ~ In (File.mimeType file)
      [ "image/jpeg"; "image/png"; "image/gif"; "image/bmp"; "image/tiff";
        "application/pdf" ] ->
  let evs := new_events w (snd (processFile env file options w)) in
  let name := File.originalName file in
  (forall filePath a, ~ In (Call_extractText filePath a) evs)
  /\ (forall text fileName a,
        In (Call_summarizeDocument text fileName a) evs -> text = name)
  /\ (forall text fileName a,
        In (Call_generateTags text fileName a) evs -> text = name)
  /\ (forall request c,
        In (Call_chat request c) evs ->
        request = SummaryPrompt name name \/ request = TagsPrompt name name)
  /\ (generateSummary options = true -> name <> "" ->
      exists a, In (Call_summarizeDocument name name a) evs)
  /\ (autoTag options = true -> name <> "" ->
      exists a, In (Call_generateTags name name a) evs).
Proof.
  intros H. apply isOCRSupported_false in H. cbv zeta.
  destruct (processFile_persisted env file options w)
    as [a1 [c2 [c3 [_ [Sub [Sup _]]]]]].
  cbv zeta in Sub, Sup.
  set (evs := new_events w (snd (processFile env file options w))) in *.
  assert (A : asks_ocr file options = false).
  { unfold asks_ocr. rewrite H. apply andb_false_r. }
  assert (T : pipeline_textForAI file options a1 = File.originalName file).
  { unfold pipeline_textForAI, pipeline_ocrText. rewrite A. reflexivity. }
  assert (P : forall e, In e (pipeline_calls env file options a1 c2 c3) <->
              (asks_summary file options a1 = true /\
               (e = Call_chat (SummaryPrompt (File.originalName file)
                                  (File.originalName file)) c2
                \/ e = Call_summarizeDocument (File.originalName file)
                         (File.originalName file) (Ok (summary_of c2))))
              \/ (asks_tags file options a1 = true /\
                  (e = Call_chat (TagsPrompt (File.originalName file)
                                     (File.originalName file)) c3
                   \/ e = Call_generateTags (File.originalName file)
                            (File.originalName file) (Ok (tags_of env c3))))).
  { intros e. unfold pipeline_calls, ocr_calls, summary_calls, tags_calls.
    rewrite A, T.
    destruct (asks_summary file options a1), (asks_tags file options a1);
      simpl; intuition congruence. }
  split; [|split; [|split; [|split; [|split]]]].
  - intros filePath a I. apply Sup in I; [|reflexivity|reflexivity].
    apply P in I. intuition discriminate.
  - intros text fileName a I. apply Sup in I; [|reflexivity|reflexivity].
    apply P in I. intuition congruence.
  - intros text fileName a I. apply Sup in I; [|reflexivity|reflexivity].
    apply P in I. intuition congruence.
  - intros request c I. apply Sup in I; [|reflexivity|reflexivity].
    apply P in I. intuition congruence.
  - intros G N. exists (Ok (summary_of c2)). apply Sub, P. left.
    split; [|right; reflexivity].
    unfold asks_summary. rewrite G, T, (truthy_string_true N). reflexivity.
  - intros G N. exists (Ok (tags_of env c3)). apply Sub, P. right.
    split; [|right; reflexivity].
    unfold asks_tags. rewrite G, T, (truthy_string_true N). reflexivity.
Qed.

Section Determinacy.

Variable X : Type.
Variable env : Env X.
Variable file : File.t.
Variable options : ProcessingOptions.

(** The answers that were asked for fix the three outputs. *)
Lemma pipeline_outputs_determined a1 c2 c3 b1 d2 d3 :
  collaborator_calls (pipeline_calls env file options a1 c2 c3)
  = collaborator_calls (pipeline_calls env file options b1 d2 d3) ->
  pipeline_ocrText file options a1 = pipeline_ocrText file options b1
  /\ pipeline_summary file options a1 c2
     = pipeline_summary file options b1 d2
  /\ pipeline_tags env file options a1 c3
     = pipeline_tags env file options b1 d3.
Proof.
  unfold pipeline_calls, ocr_calls, summary_calls, tags_calls,
    pipeline_summary, pipeline_tags, asks_summary, asks_tags,
    pipeline_textForAI, pipeline_ocrText, collaborator_calls.
  destruct (asks_ocr file options); simpl.
  - intros H. injection H as Ha H. subst b1.
    destruct (generateSummary options
              && truthy_string
                   (or_string (text_of a1) (File.originalName file)));
      destruct (autoTag options
                && truthy_string
                     (or_string (text_of a1) (File.originalName file)));
      simpl in H; inversion H; repeat split; congruence.
  - destruct (generateSummary options
              && truthy_string (or_string "" (File.originalName file)));
      destruct (autoTag options
                && truthy_string (or_string "" (File.originalName file)));
      simpl; intros H; inversion H; repeat split; congruence.
Qed.

End Determinacy.

(** C9.  Two runs of [processFile] on the same file record with the same
    options, from any two states of the world (the second may be the state
    that the first run left), in which [extractText], [summarizeDocument]
    and [generateTags] were called alike and answered alike, persist the
    same text, summary and tags; each run persists exactly one such
    triple. *)
Theorem processFile_same_answers_same_outputs (X : Type) (env : Env X)
    (file : File.t) (options : ProcessingOptions) (w1 w2 : World X) :
  let evs1 := new_events w1 (snd (processFile env file options w1)) in
  let evs2 := new_events w2 (snd (processFile env file options w2)) in
  collaborator_calls evs1 = collaborator_calls evs2 ->
  persisted_outputs evs1 = persisted_outputs evs2
  /\ exists ocrText summary tags,
       persisted_outputs evs1 = [(Some ocrText, Some summary, Some tags)].
Proof.
  cbv zeta.
  destruct (processFile_persisted env file options w1)
    as [a1 [c2 [c3 [_ [_ [_ [C1 P1]]]]]]].
  destruct (processFile_persisted env file options w2)
    as [b1 [d2 [d3 [_ [_ [_ [C2 P2]]]]]]].
  cbv zeta in C1, P1, C2, P2. intros H.
  rewrite C1, C2 in H.
  apply pipeline_outputs_determined in H. destruct H as [Ho [Hs Ht]].
  split.
  - rewrite P1, P2, Ho, Hs, Ht. reflexivity.
  - eexists. eexists. eexists. exact P1.
Qed.

Section All_failed.

Variable X : Type.
Variable env : Env X.
Variable file : File.t.

Lemma pipeline_updates_all_failed a1 c2 c3 :
  all_failed (pipeline_calls env file all_enabled a1 c2 c3) = true ->
  pipeline_updates env file all_enabled a1 c2 c3
  = {| u_ocrText := Some "";
       u_aiSummary :=
         Some (if truthy_string (File.originalName file)
               then "Summary generation failed" else "");
       u_tags := Some [];
       u_processingStatus := Some "completed" |}.
Proof.
  assert (E : forall s, or_string "" s = s) by reflexivity.
  unfold pipeline_updates, pipeline_calls, ocr_calls, summary_calls,
    tags_calls, pipeline_summary, pipeline_tags, asks_summary, asks_tags,
    pipeline_textForAI, pipeline_ocrText, all_failed.
  destruct (asks_ocr file all_enabled).
  - destruct a1 as [t|e]; [simpl; intros HF; discriminate HF|].
    simpl. rewrite !E.
    destruct (truthy_string (File.originalName file)); simpl.
    + destruct c2 as [s2|e2]; [simpl; intros HF; discriminate HF|].
      destruct c3 as [s3|e3]; [simpl; intros HF; discriminate HF|].
      reflexivity.
    + reflexivity.
  - simpl. rewrite !E.
    destruct (truthy_string (File.originalName file)); simpl.
    + destruct c2 as [s2|e2]; [simpl; intros HF; discriminate HF|].
      destruct c3 as [s3|e3]; [simpl; intros HF; discriminate HF|].
      reflexivity.
    + reflexivity.
Qed.

End All_failed.

Lemma all_failed_calls (evs : list event) :
  all_failed evs = true -> all_failed (calls evs) = true.
Proof.
  unfold all_failed, calls. intros H. apply forallb_forall.
  intros e I. apply filter_In in I. destruct I as [I _].
  revert e I. apply forallb_forall. exact H.
Qed.

Lemma all_failed_app_l (l l' : list event) :
  all_failed (l ++ l') = true -> all_failed l = true.
Proof.
  unfold all_failed. rewrite forallb_app. intros H.
  apply andb_true_iff in H. tauto.
Qed.

(** C2, as the code has it.  When all three options are enabled and every
    call of [extractText] and of the language model fails, [processFile]
    writes status ["completed"] with an empty text and no tags, but the
    summary it writes is the text that [summarizeDocument] returns for a
    failed request, ["Summary generation failed"] (the summary is empty
    only when the original name is empty and nothing was requested).  When
    that write succeeds, the record holds exactly these values. *)
Theorem all_failed_still_completed (X : Type) (env : Env X) (file : File.t)
    (w : World X) :
  let r := fst (processFile env file all_enabled w) in
  let w' := snd (processFile env file all_enabled w) in
  let summary :=
    if truthy_string (File.originalName file)
    then "Summary generation failed" else "" in
  all_failed (new_events w w') = true ->
  exists ru rest,
    filter is_updateFile (new_events w w')
    = Call_updateFile (File.id file)
        {| u_ocrText := Some "";
           u_aiSummary := Some summary;
           u_tags := Some [];
           u_processingStatus := Some "completed" |} ru :: rest
    /\ (is_ok ru = true ->
        rest = [] /\ r = Ok tt
        /\ forall row,
             In row (files (db w')) -> File.id row = File.id file ->
             File.processingStatus row = Some "completed"
             /\ File.ocrText row = Some ""
             /\ File.aiSummary row = Some summary
             /\ File.tags row = Some []).
Proof.
  cbv zeta. intros H.
  destruct (processFile_run env file all_enabled w)
    as [a1 [c2 [c3 [ru [rf [S [_ [_ D]]]]]]]].
  cbv zeta in S, D. apply steps_new_events in S.
  set (r := fst (processFile env file all_enabled w)) in *.
  set (w' := snd (processFile env file all_enabled w)) in *.
  apply all_failed_calls in H. rewrite S in H. apply all_failed_app_l in H.
  apply pipeline_updates_all_failed in H.
  rewrite H in S, D. clear H.
  assert (F : filter is_updateFile (new_events w w')
              = writes (File.id file)
                  {| u_ocrText := Some "";
                     u_aiSummary :=
                       Some (if truthy_string (File.originalName file)
                             then "Summary generation failed" else "");
                     u_tags := Some [];
                     u_processingStatus := Some "completed" |} ru rf).
  { rewrite <- (filter_calls is_updateFile (new_events w w'))
      by (intros []; simpl; congruence).
    rewrite S, filter_app, updateFile_pipeline_calls, updateFile_writes.
    reflexivity. }
  destruct ru as [row0|e].
  - exists (Ok row0), []. split; [exact F|]. intros _.
    destruct D as [R [now D]]. split; [reflexivity|]. split; [exact R|].
    intros row I Hid. rewrite D in I.
    destruct (@files_updated_row _ _ _ _ _ I Hid) as [old [_ [_ E]]].
    subst row. simpl. auto.
  - eexists. eexists. split; [exact F|]. discriminate.
Qed.

(* ================================================================= *)
(** ** The storage, one statement at a time *)

Section Storage_runs.

Variable X : Type.
Variable env : Env X.

Ltac run_statement w :=
  unfold reliable, silent;
  cbv beta delta
    [createFolder getFoldersByUserId getFolderById updateFolder deleteFolder
     createFile getFilesByFolderId createAiCommand updateAiCommand traced
     execute new_Date bind ask gets modify ret] iota zeta;
  let H := fresh "H" in
  let R := fresh "R" in
  pose proof (fun (R : forall x, fst (db_execute env x) = Ok tt) x => R x)
    as H;
  repeat match goal with
  | |- context [clock env ?x] =>
      let now := fresh "now" in
      let x' := fresh "x" in
      destruct (clock env x) as [now x']; cbn [fst snd outside]
  | |- context [db_execute env ?x] =>
      let r := fresh "r" in
      let x' := fresh "x" in
      let E := fresh "E" in
      specialize (fun R => H R x);
      destruct (db_execute env x) as [[[]|r] x'] eqn:E;
      cbn [fst snd outside] in *
  end.

Lemma getFolderById_run id w :
  exists r w',
    getFolderById env id w = (r, w')
    /\ (reliable env -> is_ok r = true)
    /\ silent w w' /\ db w' = db w
    /\ (forall v, r = Ok v -> v = folder_row w id).
Proof.
  run_statement w.
  - eexists. eexists. split; [reflexivity|]. cbn.
    repeat split; try reflexivity. intros v Hv. inversion Hv. reflexivity.
  - eexists. eexists. split; [reflexivity|]. cbn.
    repeat split; try reflexivity.
    + intros R. specialize (H R). discriminate.
    + discriminate.
Qed.

Lemma getFilesByFolderId_run folderId w :
  exists r w',
    getFilesByFolderId env folderId w = (r, w')
    /\ (reliable env -> is_ok r = true)
    /\ silent w w' /\ db w' = db w
    /\ (forall l, r = Ok l ->
        l = sort_by (fun a b => File.createdAt b <=? File.createdAt a)
              (filter (fun f => eqb_parent (File.folderId f) folderId)
                 (files (db w)))).
Proof.
  run_statement w.
  - eexists. eexists. split; [reflexivity|]. cbn.
    repeat split; try reflexivity. intros v Hv. inversion Hv. reflexivity.
  - eexists. eexists. split; [reflexivity|]. cbn.
    repeat split; try reflexivity.
    + intros R. specialize (H R). discriminate.
    + discriminate.
Qed.

Lemma getFoldersByUserId_run userId w :
  exists r w',
    getFoldersByUserId env userId w = (r, w')
    /\ (reliable env -> is_ok r = true)
    /\ silent w w' /\ db w' = db w
    /\ (forall l, r = Ok l ->
        l = sort_by (fun a b => (Folder.name a <=? Folder.name b)%string)
              (filter (fun f => String.eqb (Folder.userId f) userId)
                 (folders (db w)))).
Proof.
  run_statement w.
  - eexists. eexists. split; [reflexivity|]. cbn.
    repeat split; try reflexivity. intros v Hv. inversion Hv. reflexivity.
  - eexists. eexists. split; [reflexivity|]. cbn.
    repeat split; try reflexivity.
    + intros R. specialize (H R). discriminate.
    + discriminate.
Qed.

Lemma createFolder_run folder w :
  exists r w',
    createFolder env folder w = (r, w')
    /\ (reliable env -> is_ok r = true)
    /\ silent w w'
    /\ match r with
       | Ok row =>
           exists now,
             row = Folder.mk (folders_id_seq (db w) + 1) (if_userId folder)
                     (if_name folder) (if_parentId folder) (if_path folder)
                     now now
             /\ db w' = with_folders_id_seq (folders_id_seq (db w) + 1)
                          (with_folders (folders (db w) ++ [row]) (db w))
       | Throw _ => db w' = db w
       end.
Proof.
  run_statement w.
  - eexists. eexists. split; [reflexivity|]. cbn.
    repeat split; try reflexivity. eexists. split; reflexivity.
  - eexists. eexists. split; [reflexivity|]. cbn.
    repeat split; try reflexivity.
    intros R. specialize (H R). discriminate.
Qed.

Lemma updateFolder_run id u w :
  exists r w',
    updateFolder env id u w = (r, w')
    /\ (reliable env -> is_ok r = true)
    /\ silent w w'
    /\ match r with
       | Ok v =>
           exists now,
             db w' = folders_updated id u now (db w)
             /\ v = folder_row w' id
       | Throw _ => db w' = db w
       end.
Proof.
  run_statement w.
  - eexists. eexists. split; [reflexivity|]. cbn.
    repeat split; try reflexivity. eexists. split; reflexivity.
  - eexists. eexists. split; [reflexivity|]. cbn.
    repeat split; try reflexivity.
    intros R. specialize (H R). discriminate.
Qed.

Lemma deleteFolder_run id w :
  exists r w',
    deleteFolder env id w = (r, w')
    /\ (reliable env -> is_ok r = true)
    /\ silent w w'
    /\ match r with
       | Ok _ =>
           db w' = with_folders
                     (filter (fun f => negb (Folder.id f =? id))
                        (folders (db w))) (db w)
       | Throw _ => db w' = db w
       end.
Proof.
  run_statement w.
  - eexists. eexists. split; [reflexivity|]. cbn.
    repeat split; reflexivity.
  - eexists. eexists. split; [reflexivity|]. cbn.
    repeat split; try reflexivity.
    intros R. specialize (H R). discriminate.
Qed.

Lemma createFile_run file w :
  exists r w',
    createFile env file w = (r, w')
    /\ (reliable env -> is_ok r = true)
    /\ silent w w'
    /\ match r with
       | Ok row =>
           exists now,
             row = File.mk (files_id_seq (db w) + 1) (ifl_userId file)
                     (ifl_folderId file) (ifl_name file)
                     (ifl_originalName file) (ifl_size file)
                     (ifl_mimeType file) (ifl_filePath file)
                     None None None None
                     (Some (set_or_keep (ifl_processingStatus file)
                              "pending"))
                     now now
             /\ db w' = with_files_id_seq (files_id_seq (db w) + 1)
                          (with_files (files (db w) ++ [row]) (db w))
       | Throw _ => db w' = db w
       end.
Proof.
  run_statement w.
  - eexists. eexists. split; [reflexivity|]. cbn.
    repeat split; try reflexivity. eexists. split; reflexivity.
  - eexists. eexists. split; [reflexivity|]. cbn.
    repeat split; try reflexivity.
    intros R. specialize (H R). discriminate.
Qed.

Lemma createAiCommand_run command w :
  exists r w',
    createAiCommand env command w = (r, w')
    /\ (reliable env -> is_ok r = true)
    /\ silent w w'
    /\ match r with
       | Ok row =>
           exists now,
             row = AiCommand.mk (ai_commands_id_seq (db w) + 1)
                     (ic_userId command) (ic_command command) None
                     (Some (set_or_keep (ic_status command) "pending")) now
             /\ db w' = with_ai_commands_id_seq
                          (ai_commands_id_seq (db w) + 1)
                          (with_aiCommands (aiCommands (db w) ++ [row])
                             (db w))
       | Throw _ => db w' = db w
       end.
Proof.
  run_statement w.
  - eexists. eexists. split; [reflexivity|]. cbn.
    repeat split; try reflexivity. eexists. split; reflexivity.
  - eexists. eexists. split; [reflexivity|]. cbn.
    repeat split; try reflexivity.
    intros R. specialize (H R). discriminate.
Qed.

Lemma updateAiCommand_run id u w :
  exists ru w',
    updateAiCommand env id u w = (ru, w')
    /\ (reliable env -> is_ok ru = true)
    /\ trace w' = trace w ++ [Call_updateAiCommand id u ru]
    /\ started w' = started w
    /\ match ru with
       | Ok _ => db w' = commands_updated id u (db w)
       | Throw _ => db w' = db w
       end.
Proof.
  run_statement w.
  - eexists. eexists. split; [reflexivity|]. cbn.
    repeat split; reflexivity.
  - eexists. eexists. split; [reflexivity|]. cbn.
    repeat split; try reflexivity.
    intros R. specialize (H R). discriminate.
Qed.

End Storage_runs.

(* ================================================================= *)
(** ** Folders *)

Section Folder_handlers.

Variable X : Type.
Variable env : Env X.

Lemma build_path_run name parentId (w : World X) :
  exists r w',
    build_path env name parentId w = (r, w')
    /\ (reliable env -> is_ok r = true)
    /\ silent w w' /\ db w' = db w
    /\ (forall path, r = Ok path -> path = path_for w name parentId).
Proof.
  unfold build_path, path_for.
  destruct parentId as [p|]; [destruct (negb (p =? 0))|].
  - destruct (getFolderById_run env p w) as [r [w1 [E [R [S [D P]]]]]].
    destruct r as [v|e].
    + rewrite (@bind_ok _ _ _ _ _ _ _ _ E).
      rewrite <- (P v eq_refl).
      destruct v as [parent|]; (eexists; eexists; split; [reflexivity|]);
        (repeat split; try apply S; try exact D);
        intros path Hp; inversion Hp; reflexivity.
    + rewrite (@bind_throw _ _ _ _ _ _ _ _ E).
      eexists. eexists. split; [reflexivity|].
      repeat split; try apply S; try exact D; [exact R | discriminate].
  - exists (Ok name), w. unfold silent.
    repeat split. intros path Hp. inversion Hp. reflexivity.
  - exists (Ok name), w. unfold silent.
    repeat split. intros path Hp. inversion Hp. reflexivity.
Qed.

(** What POST /api/folders does, in full. *)
Lemma post_folders_run userId name parentId (w : World X) :
  let r := fst (post_folders env userId name parentId w) in
  let w' := snd (post_folders env userId name parentId w) in
  started w' = started w
  /\ ((exists now,
        let row :=
          Folder.mk (folders_id_seq (db w) + 1) userId name
            (or_null parentId) (path_for w name parentId) now now in
        r = Ok {| res_status := 200; res_body := Json_folder (Some row) |}
        /\ db w' = with_folders_id_seq (folders_id_seq (db w) + 1)
                     (with_folders (folders (db w) ++ [row]) (db w)))
      \/ (r = Ok {| res_status := 500;
                    res_body := Json_message "Failed to create folder" |}
          /\ db w' = db w /\ ~ reliable env)).
Proof.
  cbv zeta. unfold post_folders.
  destruct (build_path_run name parentId w)
    as [rp [w1 [Ep [Rp [[_ Sp] [Dp Pp]]]]]].
  destruct rp as [path|e].
  - rewrite (@try_catch_bind_ok _ _ _ _ _ _ _ _ _ Ep).
    rewrite (Pp path eq_refl).
    destruct (createFolder_run env
                {| if_userId := userId; if_name := name;
                   if_parentId := or_null parentId;
                   if_path := path_for w name parentId |} w1)
      as [rc [w2 [Ec [Rc [[_ Sc] Dc]]]]].
    destruct rc as [row|e].
    + rewrite (@try_catch_bind_ok _ _ _ _ _ _ _ _ _ Ec).
      cbn. split; [congruence|]. left.
      destruct Dc as [now [Hrow Dc]]. exists now. cbn in Hrow.
      rewrite Dp in Hrow, Dc. subst row. split; [reflexivity | exact Dc].
    + rewrite (@try_catch_bind_throw _ _ _ _ _ _ _ _ _ Ec).
      cbn. split; [congruence|]. right.
      split; [reflexivity|]. split; [congruence|].
      intros R. specialize (Rc R). discriminate.
  - rewrite (@try_catch_bind_throw _ _ _ _ _ _ _ _ _ Ep).
    cbn. split; [congruence|]. right.
    split; [reflexivity|]. split; [congruence|].
    intros R. specialize (Rp R). discriminate.
Qed.

(** What PUT /api/folders/:id does, in full. *)
Lemma put_folder_run folderId name parentId (w : World X) :
  let r := fst (put_folder env folderId name parentId w) in
  let w' := snd (put_folder env folderId name parentId w) in
  started w' = started w
  /\ ((exists now,
        let u := {| fu_name := Some name;
                    fu_parentId := Some (or_null parentId);
                    fu_path := Some (path_for w name parentId) |} in
        db w' = folders_updated folderId u now (db w)
        /\ r = Ok {| res_status := 200;
                     res_body := Json_folder (folder_row w' folderId) |})
      \/ (r = Ok {| res_status := 500;
                    res_body := Json_message "Failed to update folder" |}
          /\ db w' = db w /\ ~ reliable env)).
Proof.
  cbv zeta. unfold put_folder.
  destruct (build_path_run name parentId w)
    as [rp [w1 [Ep [Rp [[_ Sp] [Dp Pp]]]]]].
  destruct rp as [path|e].
  - rewrite (@try_catch_bind_ok _ _ _ _ _ _ _ _ _ Ep).
    rewrite (Pp path eq_refl).
    destruct (updateFolder_run env folderId
                {| fu_name := Some name;
                   fu_parentId := Some (or_null parentId);
                   fu_path := Some (path_for w name parentId) |} w1)
      as [rc [w2 [Ec [Rc [[_ Sc] Dc]]]]].
    destruct rc as [v|e].
    + rewrite (@try_catch_bind_ok _ _ _ _ _ _ _ _ _ Ec).
      cbn. split; [congruence|]. left.
      destruct Dc as [now [Dc Hv]]. exists now.
      rewrite Dp in Dc. split; [exact Dc|]. subst v. reflexivity.
    + rewrite (@try_catch_bind_throw _ _ _ _ _ _ _ _ _ Ec).
      cbn. split; [congruence|]. right.
      split; [reflexivity|]. split; [congruence|].
      intros R. specialize (Rc R). discriminate.
  - rewrite (@try_catch_bind_throw _ _ _ _ _ _ _ _ _ Ep).
    cbn. split; [congruence|]. right.
    split; [reflexivity|]. split; [congruence|].
    intros R. specialize (Rp R). discriminate.
Qed.

End Folder_handlers.

(** C5.  A folder-create request that succeeds stores one new row, and the
    path of that row is the current path of the parent folder, ["/"] and
    the new name when the parent folder is found, and the new name alone
    when no parent is given.  With a database that answers, the request
    succeeds. *)
Theorem created_folder_path (X : Type) (env : Env X) (w : World X)
    (userId name : string) (parentId : option Z) :
  let r := fst (post_folders env userId name parentId w) in
  let w' := snd (post_folders env userId name parentId w) in
  (reliable env ->
   exists folder,
     r = Ok {| res_status := 200; res_body := Json_folder (Some folder) |})
  /\ forall folder,
       r = Ok {| res_status := 200; res_body := Json_folder (Some folder) |} ->
       folders (db w') = folders (db w) ++ [folder]
       /\ Folder.name folder = name
       /\ (forall p parent,
             parentId = Some p -> p <> 0 -> folder_row w p = Some parent ->
             Folder.path folder = (Folder.path parent ++ "/" ++ name)%string)
       /\ (parentId = None -> Folder.path folder = name).
Proof.
  cbv zeta.
  destruct (post_folders_run env userId name parentId w)
    as [_ [[now [R D]]|[R [D N]]]]; cbv zeta in *.
  - split; [intros _; eexists; exact R|].
    intros folder H. rewrite R in H. inversion H; subst folder; clear H.
    rewrite D. cbn. repeat split.
    + intros p parent Hp Hp0 Hrow. subst parentId. unfold path_for.
      apply Z.eqb_neq in Hp0. rewrite Hp0, Hrow. reflexivity.
    + intros Hp. subst parentId. reflexivity.
  - split; [intros Rel; contradiction|].
    intros folder H. rewrite R in H. discriminate.
Qed.

(** C10.  A folder update that supplies a name and no parent (or a falsy
    one) sets the parent of the folder to null and its path to the new name
    alone, whatever the parent and the path of the folder were.  With a
    database that answers, the request succeeds. *)
Theorem rename_without_parent_reroots (X : Type) (env : Env X) (w : World X)
    (folderId : Z) (name : string) (parentId : option Z) :
  truthy_id parentId = false ->
  let r := fst (put_folder env folderId name parentId w) in
  let w' := snd (put_folder env folderId name parentId w) in
  (reliable env ->
   exists body, r = Ok {| res_status := 200; res_body := body |})
  /\ (forall body,
        r = Ok {| res_status := 200; res_body := body |} ->
        body = Json_folder (folder_row w' folderId)
        /\ map Folder.id (folders (db w')) = map Folder.id (folders (db w))
        /\ forall row,
             In row (folders (db w')) -> Folder.id row = folderId ->
             Folder.parentId row = None
             /\ Folder.path row = name
             /\ Folder.name row = name).
Proof.
  intros T. cbv zeta.
  assert (P : path_for w name parentId = name).
  { unfold path_for. destruct parentId as [p|]; [|reflexivity].
    simpl in T. rewrite T. reflexivity. }
  assert (O : or_null parentId = None).
  { unfold or_null. rewrite T. reflexivity. }
  destruct (put_folder_run env folderId name parentId w)
    as [_ [[now [D R]]|[R [D N]]]]; cbv zeta in *.
  - rewrite P, O in D.
    split; [intros _; eexists; exact R|].
    intros body H. rewrite R in H. inversion H; subst body; clear H.
    split; [reflexivity|]. rewrite D. split.
    + unfold folders_updated. cbn. rewrite map_map. apply map_ext.
      intros f. destruct (Folder.id f =? folderId); reflexivity.
    + intros row I Hid. unfold folders_updated in I. cbn in I.
      apply in_map_iff in I. destruct I as [old [E I]].
      destruct (Folder.id old =? folderId) eqn:Q.
      * subst row. cbn. auto.
      * subst row. apply Z.eqb_neq in Q. contradiction.
  - split; [intros Rel; contradiction|].
    intros body H. rewrite R in H. discriminate.
Qed.

Lemma filter_above (l : list Folder.t) (n id : Z) :
  (forall f, In f l -> Folder.id f <= n) -> n < id ->
  filter (fun f => Folder.id f =? id) l = [].
Proof.
  intros H L. induction l as [|f l IH]; simpl; [reflexivity|].
  assert (Hf : Folder.id f <= n) by (apply H; left; reflexivity).
  replace (Folder.id f =? id) with false by (symmetry; apply Z.eqb_neq; lia).
  apply IH. intros g I. apply H. right. exact I.
Qed.

Lemma map_above (g : Folder.t -> Folder.t) (l : list Folder.t) (n id : Z) :
  (forall f, In f l -> Folder.id f <= n) -> n < id ->
  map (fun f => if Folder.id f =? id then g f else f) l = l.
Proof.
  intros H L. induction l as [|f l IH]; simpl; [reflexivity|].
  assert (Hf : Folder.id f <= n) by (apply H; left; reflexivity).
  replace (Folder.id f =? id) with false by (symmetry; apply Z.eqb_neq; lia).
  f_equal. apply IH. intros h I. apply H. right. exact I.
Qed.

(** C6.  With a database that answers, and from any table whose ids come
    from its sequence: creating a folder ["A"] at the root and then a
    folder ["B"] under it gives the child the path ["A/B"];
    renaming ["A"] to ["A2"] afterwards rewrites the row of ["A"] (its name
    and its path become ["A2"]) and no other row: the child is stored as it
    was, with the path ["A/B"]. *)
Theorem rename_keeps_child_path (X : Type) (env : Env X) (w : World X)
    (userId : string) :
  reliable env ->
  folder_ids_bounded (db w) ->
  let s1 := post_folders env userId "A" None w in
  exists a,
    fst s1 = Ok {| res_status := 200; res_body := Json_folder (Some a) |}
    /\ Folder.path a = "A"
    /\ let s2 := post_folders env userId "B" (Some (Folder.id a)) (snd s1) in
       exists b,
         fst s2 = Ok {| res_status := 200; res_body := Json_folder (Some b) |}
         /\ Folder.path b = "A/B"
         /\ Folder.parentId b = Some (Folder.id a)
         /\ folders (db (snd s2)) = folders (db w) ++ [a; b]
         /\ let s3 := put_folder env (Folder.id a) "A2" None (snd s2) in
            exists a',
              fst s3
              = Ok {| res_status := 200; res_body := Json_folder (Some a') |}
              /\ Folder.id a' = Folder.id a
              /\ Folder.name a' = "A2"
              /\ Folder.path a' = "A2"
              /\ Folder.parentId a' = None
              /\ folders (db (snd s3)) = folders (db w) ++ [a'; b].
Proof.
  intros Rel [Seq Ids]. cbv zeta.
  set (n := folders_id_seq (db w)) in *.
  (* A *)
  destruct (post_folders_run env userId "A" None w)
    as [_ [[now1 [R1 D1]]|[_ [_ N]]]]; [|contradiction]; cbv zeta in *.
  fold n in R1, D1. cbn [or_null truthy_id path_for] in R1, D1.
  set (a := Folder.mk (n + 1) userId "A" None "A" now1 now1) in *.
  set (w1 := snd (post_folders env userId "A" None w)) in *.
  exists a. split; [exact R1|]. split; [reflexivity|].
  (* B *)
  assert (Row1 : folder_row w1 (n + 1) = Some a).
  { unfold folder_row. rewrite D1.
    cbn [folders with_folders_id_seq with_folders].
    rewrite filter_app, (@filter_above _ n) by (auto; lia).
    cbn. rewrite Z.eqb_refl. reflexivity. }
  destruct (post_folders_run env userId "B" (Some (Folder.id a)) w1)
    as [_ [[now2 [R2 D2]]|[_ [_ N]]]]; [|contradiction]; cbv zeta in *.
  assert (P2 : path_for w1 "B" (Some (Folder.id a)) = "A/B").
  { unfold path_for. cbn [Folder.id a].
    replace (n + 1 =? 0) with false by (symmetry; apply Z.eqb_neq; lia).
    cbn [negb]. rewrite Row1. reflexivity. }
  assert (O2 : or_null (Some (Folder.id a)) = Some (n + 1)).
  { unfold or_null, truthy_id. cbn [Folder.id a].
    replace (n + 1 =? 0) with false by (symmetry; apply Z.eqb_neq; lia).
    reflexivity. }
  rewrite P2, O2 in R2, D2.
  assert (S1 : folders_id_seq (db w1) = n + 1) by (rewrite D1; reflexivity).
  assert (F1 : folders (db w1) = folders (db w) ++ [a])
    by (rewrite D1; reflexivity).
  rewrite S1 in R2, D2. rewrite F1 in D2.
  set (b := Folder.mk (n + 1 + 1) userId "B" (Some (n + 1)) "A/B" now2 now2)
    in *.
  set (w2 := snd (post_folders env userId "B" (Some (Folder.id a)) w1)) in *.
  assert (F2 : folders (db w2) = folders (db w) ++ [a; b]).
  { rewrite D2. cbn [folders with_folders_id_seq with_folders].
    rewrite <- app_assoc. reflexivity. }
  exists b. split; [exact R2|]. split; [reflexivity|].
  split; [reflexivity|]. split; [exact F2|].
  (* A2 *)
  destruct (put_folder_run env (Folder.id a) "A2" None w2)
    as [_ [[now3 [D3 R3]]|[_ [_ N]]]]; [|contradiction]; cbv zeta in *.
  cbn [or_null truthy_id path_for] in D3.
  set (w3 := snd (put_folder env (Folder.id a) "A2" None w2)) in *.
  set (a' := Folder.mk (n + 1) userId "A2" None "A2" now1 now3).
  assert (F3 : folders (db w3) = folders (db w) ++ [a'; b]).
  { rewrite D3. unfold folders_updated.
    cbn [folders with_folders]. rewrite F2, map_app.
    rewrite (@map_above _ _ n) by (auto; cbn; lia).
    cbn [map Folder.id a b].
    rewrite Z.eqb_refl.
    replace (n + 1 + 1 =? n + 1) with false
      by (symmetry; apply Z.eqb_neq; lia).
    reflexivity. }
  exists a'. split.
  - rewrite R3. unfold folder_row. rewrite F3.
    rewrite filter_app, (@filter_above _ n) by (auto; cbn; lia).
    cbn. rewrite Z.eqb_refl.
    replace (n + 1 + 1 =? n + 1) with false
      by (symmetry; apply Z.eqb_neq; lia).
    reflexivity.
  - repeat split. exact F3.
Qed.

Lemma insert_by_In {A} (le : A -> A -> bool) (x y : A) (l : list A) :
  In y (insert_by le x l) <-> y = x \/ In y l.
Proof.
  induction l as [|z l IH]; simpl.
  - intuition.
  - destruct (le x z); simpl; [intuition|]. rewrite IH. intuition.
Qed.

Lemma sort_by_In {A} (le : A -> A -> bool) (y : A) (l : list A) :
  In y (sort_by le l) <-> In y l.
Proof.
  unfold sort_by. induction l as [|x l IH]; simpl.
  - reflexivity.
  - rewrite insert_by_In, IH. intuition.
Qed.

Lemma inhabited_length {A} (x : A) (l : list A) :
  In x l -> (0 <? Z.of_nat (List.length l)) = true.
Proof.
  destruct l; simpl; [contradiction|]. intros _. apply Z.ltb_lt. lia.
Qed.

(** What the check of DELETE /api/folders/:id does catch.  A folder that
    is referenced by at least one file, or by at least one subfolder of the
    user who sends the request, is not deleted: the request changes no
    table, and its answer is the blocking error 400 whenever the database
    answers the two reads (500 otherwise). *)
Theorem delete_blocked_when_in_use (X : Type) (env : Env X) (w : World X)
    (userId : string) (folderId : Z) :
  (exists file,
     In file (files (db w)) /\ File.folderId file = Some folderId)
  \/ (exists sub,
        In sub (folders (db w)) /\ Folder.userId sub = userId
        /\ Folder.parentId sub = Some folderId) ->
  let r := fst (delete_folder env userId folderId w) in
  let w' := snd (delete_folder env userId folderId w) in
  let blocked :=
    Ok {| res_status := 400;
          res_body :=
            Json_message "Cannot delete folder with files or subfolders" |} in
  db w' = db w
  /\ (r = blocked
      \/ r = Ok {| res_status := 500;
                   res_body := Json_message "Failed to delete folder" |})
  /\ (reliable env -> r = blocked).
Proof.
  intros Use. cbv zeta. unfold delete_folder.
  destruct (getFilesByFolderId_run env folderId w)
    as [rf [w1 [Ef [Rf [_ [Df Pf]]]]]].
  destruct rf as [fs|e].
  2:{ rewrite (@try_catch_bind_throw _ _ _ _ _ _ _ _ _ Ef). cbn.
      split; [exact Df|]. split; [right; reflexivity|].
      intros R. specialize (Rf R). discriminate. }
  rewrite (@try_catch_bind_ok _ _ _ _ _ _ _ _ _ Ef).
  destruct (getFoldersByUserId_run env userId w1)
    as [rs [w2 [Es [Rs [_ [Ds Ps]]]]]].
  destruct rs as [allFolders|e].
  2:{ rewrite (@try_catch_bind_throw _ _ _ _ _ _ _ _ _ Es). cbn.
      split; [congruence|]. split; [right; reflexivity|].
      intros R. specialize (Rs R). discriminate. }
  rewrite (@try_catch_bind_ok _ _ _ _ _ _ _ _ _ Es). cbv zeta.
  assert (C : (0 <? Z.of_nat (List.length fs))
              || (0 <? Z.of_nat
                         (List.length
                            (filter
                               (fun f => eqb_parent (Folder.parentId f)
                                           folderId) allFolders))) = true).
  { rewrite (Pf fs eq_refl), (Ps allFolders eq_refl), Df.
    apply orb_true_iff.
    destruct Use as [[file [I Hf]]|[sub [I [Hu Hp]]]]; [left|right].
    - apply (inhabited_length file). apply sort_by_In, filter_In.
      split; [exact I|]. rewrite Hf. cbn. apply Z.eqb_refl.
    - apply (inhabited_length sub). apply filter_In. split.
      + apply sort_by_In, filter_In. split; [exact I|].
        rewrite Hu. apply String.eqb_refl.
      + rewrite Hp. cbn. apply Z.eqb_refl. }
  rewrite C. cbn.
  split; [congruence|]. split; [left; reflexivity|]. reflexivity.
Qed.

(** *** The bound on the ids is an invariant of the folder handlers *)

Section Folder_ids.

Variable X : Type.
Variable env : Env X.

Lemma delete_folder_run userId folderId (w : World X) :
  let w' := snd (delete_folder env userId folderId w) in
  db w' = db w
  \/ db w' = with_folders
               (filter (fun f => negb (Folder.id f =? folderId))
                  (folders (db w))) (db w).
Proof.
  cbv zeta. unfold delete_folder.
  destruct (getFilesByFolderId_run env folderId w)
    as [rf [w1 [Ef [_ [_ [Df _]]]]]].
  destruct rf as [fs|e].
  2:{ rewrite (@try_catch_bind_throw _ _ _ _ _ _ _ _ _ Ef). cbn.
      left. exact Df. }
  rewrite (@try_catch_bind_ok _ _ _ _ _ _ _ _ _ Ef).
  destruct (getFoldersByUserId_run env userId w1)
    as [rs [w2 [Es [_ [_ [Ds _]]]]]].
  destruct rs as [allFolders|e].
  2:{ rewrite (@try_catch_bind_throw _ _ _ _ _ _ _ _ _ Es). cbn.
      left. congruence. }
  rewrite (@try_catch_bind_ok _ _ _ _ _ _ _ _ _ Es). cbv zeta.
  destruct ((0 <? Z.of_nat (List.length fs))
            || (0 <? Z.of_nat
                       (List.length
                          (filter
                             (fun f => eqb_parent (Folder.parentId f)
                                         folderId) allFolders)))).
  - cbn. left. congruence.
  - destruct (deleteFolder_run env folderId w2)
      as [rd [w3 [Ed [_ [_ Dd]]]]].
    destruct rd as [[]|e].
    + rewrite (@try_catch_bind_ok _ _ _ _ _ _ _ _ _ Ed). cbn.
      right. rewrite Dd. congruence.
    + rewrite (@try_catch_bind_throw _ _ _ _ _ _ _ _ _ Ed). cbn.
      left. congruence.
Qed.

Lemma post_folders_keeps_ids userId name parentId (w : World X) :
  folder_ids_bounded (db w) ->
  folder_ids_bounded (db (snd (post_folders env userId name parentId w))).
Proof.
  intros [Seq Ids].
  destruct (post_folders_run env userId name parentId w)
    as [_ [[now [_ D]]|[_ [D _]]]]; cbv zeta in *; rewrite D.
  - split; cbn; [lia|]. intros f I. apply in_app_or in I.
    destruct I as [I|[I|[]]].
    + specialize (Ids f I). lia.
    + subst f. cbn. lia.
  - split; assumption.
Qed.

Lemma put_folder_keeps_ids folderId name parentId (w : World X) :
  folder_ids_bounded (db w) ->
  folder_ids_bounded (db (snd (put_folder env folderId name parentId w))).
Proof.
  intros [Seq Ids].
  destruct (put_folder_run env folderId name parentId w)
    as [_ [[now [D _]]|[_ [D _]]]]; cbv zeta in *; rewrite D.
  - split; cbn; [exact Seq|]. intros f I. apply in_map_iff in I.
    destruct I as [old [E I]]. specialize (Ids old I).
    destruct (Folder.id old =? folderId); subst f; exact Ids.
  - split; assumption.
Qed.

Lemma delete_folder_keeps_ids userId folderId (w : World X) :
  folder_ids_bounded (db w) ->
  folder_ids_bounded (db (snd (delete_folder env userId folderId w))).
Proof.
  intros [Seq Ids].
  destruct (delete_folder_run userId folderId w) as [D|D];
    cbv zeta in *; rewrite D.
  - split; assumption.
  - split; cbn; [exact Seq|]. intros f I. apply filter_In in I.
    apply Ids. tauto.
Qed.

End Folder_ids.

(* ================================================================= *)
(** ** Uploads *)

Section Upload.

Variable X : Type.
Variable env : Env X.

Lemma upload_each_run userId folderId options parts :
  forall acc (w : World X),
  exists created,
    let r := fst (upload_each env userId folderId options parts acc w) in
    let w' := snd (upload_each env userId folderId options parts acc w) in
    started w' = started w ++ map (fun f => ProcessFile f options) created
    /\ files (db w') = files (db w) ++ created
    /\ Forall (fun f => File.processingStatus f = Some "processing") created
    /\ map File.originalName created
       = firstn (List.length created) (map originalname parts)
    /\ (forall l, r = Ok l ->
          l = acc ++ created /\ List.length created = List.length parts)
    /\ (reliable env -> is_ok r = true).
Proof.
  induction parts as [|part rest IH]; intros acc w.
  - exists []. cbn. rewrite !app_nil_r.
    split; [reflexivity|]. split; [reflexivity|]. split; [constructor|].
    split; [reflexivity|]. split; [|reflexivity].
    intros l H. inversion H. split; reflexivity.
  - cbn [upload_each].
    destruct (createFile_run env
                {| ifl_userId := userId;
                   ifl_folderId := folderId;
                   ifl_name := filename part;
                   ifl_originalName := originalname part;
                   ifl_size := mf_size part;
                   ifl_mimeType := mimetype part;
                   ifl_filePath := mf_path part;
                   ifl_processingStatus := Some "processing" |} w)
      as [rc [w1 [Ec [Rc [[Tc Sc] Dc]]]]].
    destruct rc as [row|e].
    + rewrite (@bind_ok _ _ _ _ _ _ _ _ Ec).
      destruct Dc as [now [Hrow Dc]]. cbn in Hrow.
      set (w2 := with_started (started w1 ++ [ProcessFile row options]) w1).
      assert (E2 : start (ProcessFile row options) w1 = (Ok tt, w2))
        by reflexivity.
      rewrite (@bind_ok _ _ _ _ _ _ _ _ E2).
      destruct (IH (acc ++ [row]) w2) as [created [S [F [P [N [L R]]]]]].
      cbv zeta in *. exists (row :: created).
      split; [|split; [|split; [|split; [|split]]]].
      * rewrite S. cbn. rewrite Sc, <- app_assoc. reflexivity.
      * rewrite F. cbn. rewrite Dc. cbn. rewrite <- app_assoc. reflexivity.
      * constructor; [rewrite Hrow; reflexivity | exact P].
      * cbn. rewrite N. rewrite Hrow. reflexivity.
      * intros l Hl. destruct (L l Hl) as [L1 L2]. split.
        -- rewrite L1, <- app_assoc. reflexivity.
        -- cbn. rewrite L2. reflexivity.
      * exact R.
    + rewrite (@bind_throw _ _ _ _ _ _ _ _ Ec).
      exists []. cbn. rewrite !app_nil_r.
      split; [exact Sc|]. split; [rewrite Dc; reflexivity|].
      split; [constructor|]. split; [reflexivity|].
      split; [discriminate|]. exact Rc.
Qed.

End Upload.

(** C4, as the code has it.  An upload request that leaves [processOcr],
    [generateSummary] and [autoTag] out starts the pipeline, for every
    record it creates, with all three options disabled: the default of each
    field is the boolean [true], which is then compared with the string
    ['true'].  The created records have status ["processing"], and with a
    database that answers they are the body of the response. *)
Theorem upload_without_flags_disables_processing (X : Type) (env : Env X)
    (w : World X) (userId : string) (parts : list MulterFile)
    (folderId : option Z) :
  let body := {| up_folderId := folderId;
                 up_processOcr := None;
                 up_generateSummary := None;
                 up_autoTag := None |} in
  let r := fst (post_files_upload env userId parts body w) in
  let w' := snd (post_files_upload env userId parts body w) in
  exists created,
    started w' = started w
                 ++ map (fun f =>
                           ProcessFile f
                             {| processOcr := false;
                                generateSummary := false;
                                autoTag := false |}) created
    /\ files (db w') = files (db w) ++ created
    /\ Forall (fun f => File.processingStatus f = Some "processing") created
    /\ (reliable env -> parts <> [] ->
        r = Ok {| res_status := 200; res_body := Json_files created |}
        /\ List.length created = List.length parts).
Proof.
  cbv zeta. unfold post_files_upload. cbv zeta.
  cbn [up_folderId up_processOcr up_generateSummary up_autoTag default_true
       strict_eq_text].
  destruct parts as [|part rest].
  - exists []. cbn. rewrite !app_nil_r.
    split; [reflexivity|]. split; [reflexivity|]. split; [constructor|].
    intros _ H. contradiction.
  - destruct (upload_each_run env userId folderId
                {| processOcr := false; generateSummary := false;
                   autoTag := false |} (part :: rest) [] w)
      as [created [S [F [P [_ [L R]]]]]]. cbv zeta in *.
    exists created.
    destruct (upload_each env userId folderId
                {| processOcr := false; generateSummary := false;
                   autoTag := false |} (part :: rest) [] w)
      as [[l|e] w1] eqn:E; cbn [fst snd] in *.
    + rewrite (@try_catch_bind_ok _ _ _ _ _ _ _ _ _ E). cbn.
      split; [exact S|]. split; [exact F|]. split; [exact P|].
      intros _ _. destruct (L l eq_refl) as [L1 L2]. cbn in L1.
      subst l. split; [reflexivity | exact L2].
    + rewrite (@try_catch_bind_throw _ _ _ _ _ _ _ _ _ E). cbn.
      split; [exact S|]. split; [exact F|]. split; [exact P|].
      intros Rel _. specialize (R Rel). discriminate.
Qed.

Lemma sent_true_is_enabled :
  strict_eq_text (default_true (Some "true")) "true" = true.
Proof. reflexivity. Qed.

Lemma omitted_is_disabled :
  strict_eq_text (default_true None) "true" = false.
Proof. reflexivity. Qed.

(* ================================================================= *)
(** ** AI commands *)

Section Commands.

Variable X : Type.
Variable env : Env X.

Lemma updateAiCommand_steps id u (w : World X) :
  exists ru w',
    updateAiCommand env id u w = (ru, w')
    /\ (reliable env -> is_ok ru = true)
    /\ steps w w' [Call_updateAiCommand id u ru]
    /\ started w' = started w
    /\ match ru with
       | Ok _ => db w' = commands_updated id u (db w)
       | Throw _ => db w' = db w
       end.
Proof.
  destruct (updateAiCommand_run env id u w)
    as [ru [w' [E [R [T [S D]]]]]].
  exists ru, w'. repeat split; auto.
  eexists. split; [exact T | reflexivity].
Qed.

(** The [catch] block of [processCommand]. *)
Lemma processCommand_catch commandId (w : World X) :
  let failed :=
    {| cu_status := Some "failed";
       cu_result :=
         Some (JObject [("error", JString "Failed to process command")])
    |} in
  let m :=
    (console_error "Error processing command:" ;;
     updateAiCommand env commandId failed ;;
     ret tt)%async in
  exists ru,
    steps w (snd (m w)) [Call_updateAiCommand commandId failed ru]
    /\ started (snd (m w)) = started w
    /\ (reliable env -> is_ok ru = true)
    /\ match ru with
       | Ok _ =>
           fst (m w) = Ok tt
           /\ db (snd (m w)) = commands_updated commandId failed (db w)
       | Throw e => fst (m w) = Throw e /\ db (snd (m w)) = db w
       end.
Proof.
  cbv zeta.
  destruct (console_error_run "Error processing command:" w)
    as [w1 [E1 [S1 [D1 T1]]]].
  rewrite (@bind_ok _ _ _ _ _ _ _ _ E1).
  destruct (updateAiCommand_steps commandId
              {| cu_status := Some "failed";
                 cu_result :=
                   Some (JObject
                           [("error", JString "Failed to process command")])
              |} w1)
    as [ru [w2 [E2 [R2 [S2 [T2 D2]]]]]].
  exists ru. destruct ru as [v|e].
  - rewrite (@bind_ok _ _ _ _ _ _ _ _ E2). cbn [fst snd ret].
    split; [exact (steps_trans S1 S2)|]. split; [congruence|].
    split; [exact R2|]. split; [reflexivity | congruence].
  - rewrite (@bind_throw _ _ _ _ _ _ _ _ E2). cbn [fst snd].
    split; [exact (steps_trans S1 S2)|]. split; [congruence|].
    split; [exact R2|]. split; [reflexivity | congruence].
Qed.

(** Every run of [processCommand]: one request to the language model,
    then the write that [command_updates] gives for its reply; a second
    write follows only when the first one throws. *)
Lemma processCommand_run commandId command userId (w : World X) :
  let r := fst (processCommand env commandId command userId w) in
  let w' := snd (processCommand env commandId command userId w) in
  exists reply ru rest,
    calls (new_events w w')
    = Call_chat (CommandPrompt command) reply
      :: Call_updateAiCommand commandId (command_updates env reply) ru
      :: rest
    /\ started w' = started w
    /\ (reliable env -> is_ok ru = true)
    /\ (is_ok ru = true ->
        rest = [] /\ r = Ok tt
        /\ db w' = commands_updated commandId (command_updates env reply)
                     (db w))
    /\ (is_ok ru = false ->
        rest = []
        \/ exists uf rf,
             rest = [Call_updateAiCommand commandId uf rf]
             /\ cu_status uf = Some "failed").
Proof.
  cbv zeta. unfold processCommand.
  destruct (chat_run env (CommandPrompt command) w)
    as [reply [w1 [E1 [S1 [D1 T1]]]]].
  exists reply. unfold command_updates.
  destruct reply as [content|e].
  - rewrite (@try_catch_bind_ok _ _ _ _ _ _ _ _ _ E1).
    destruct (JSON_parse env content) as [result|e].
    + assert (E2 : lift (Ok result) w1 = (Ok result, w1)) by reflexivity.
      rewrite (@try_catch_bind_ok _ _ _ _ _ _ _ _ _ E2).
      destruct (updateAiCommand_steps commandId
                  {| cu_result := Some result;
                     cu_status := Some "completed" |} w1)
        as [ru [w2 [E3 [R3 [S3 [T3 D3]]]]]].
      exists ru. destruct ru as [v|e].
      * rewrite (@try_catch_bind_ok _ _ _ _ _ _ _ _ _ E3).
        cbn [try_catch ret fst snd]. exists [].
        split; [exact (steps_new_events (steps_trans S1 S3))|].
        split; [congruence|]. split; [exact R3|].
        split; [|discriminate]. intros _.
        split; [reflexivity|]. split; [reflexivity | congruence].
      * rewrite (@try_catch_bind_throw _ _ _ _ _ _ _ _ _ E3).
        destruct (processCommand_catch commandId w2)
          as [rf [S4 [T4 [R4 D4]]]]. cbv zeta in *.
        eexists.
        split; [exact (steps_new_events
                         (steps_trans S1 (steps_trans S3 S4)))|].
        split; [congruence|]. split; [exact R3|].
        split; [discriminate|]. intros _. right.
        eexists. eexists. split; reflexivity.
    + assert (E2 : @lift X json (Throw e) w1 = (Throw e, w1))
        by reflexivity.
      rewrite (@try_catch_bind_throw _ _ _ _ _ _ _ _ _ E2).
      destruct (processCommand_catch commandId w1)
        as [rf [S4 [T4 [R4 D4]]]]. cbv zeta in *.
      exists rf, [].
      split; [exact (steps_new_events (steps_trans S1 S4))|].
      split; [congruence|]. split; [exact R4|].
      destruct rf as [v|e']; (split; [|intros _; left; reflexivity]).
      * intros _. destruct D4 as [D4 D5].
        split; [reflexivity|]. split; [exact D4 | congruence].
      * discriminate.
  - rewrite (@try_catch_bind_throw _ _ _ _ _ _ _ _ _ E1).
    destruct (processCommand_catch commandId w1)
      as [rf [S4 [T4 [R4 D4]]]]. cbv zeta in *.
    exists rf, [].
    split; [exact (steps_new_events (steps_trans S1 S4))|].
    split; [congruence|]. split; [exact R4|].
    destruct rf as [v|e']; (split; [|intros _; left; reflexivity]).
    + intros _. destruct D4 as [D4 D5].
      split; [reflexivity|]. split; [exact D4 | congruence].
    + discriminate.
Qed.

(** What POST /api/ai/command does, in full. *)
Lemma post_ai_command_run userId command (w : World X) :
  let r := fst (post_ai_command env userId command w) in
  let w' := snd (post_ai_command env userId command w) in
  (exists now,
     let row :=
       AiCommand.mk (ai_commands_id_seq (db w) + 1) userId command None
         (Some "processing") now in
     r = Ok {| res_status := 200; res_body := Json_command row |}
     /\ aiCommands (db w') = aiCommands (db w) ++ [row]
     /\ started w' = started w
                     ++ [ProcessCommand (AiCommand.id row) command userId])
  \/ (r = Ok {| res_status := 500;
                res_body := Json_message "Failed to process AI command" |}
      /\ db w' = db w /\ started w' = started w /\ ~ reliable env).
Proof.
  cbv zeta. unfold post_ai_command.
  destruct (createAiCommand_run env
              {| ic_userId := userId; ic_command := command;
                 ic_status := Some "processing" |} w)
    as [rc [w1 [Ec [Rc [[Tc Sc] Dc]]]]].
  destruct rc as [row|e].
  - rewrite (@try_catch_bind_ok _ _ _ _ _ _ _ _ _ Ec). cbn.
    left. destruct Dc as [now [Hrow Dc]]. cbn in Hrow. exists now.
    subst row. cbn. rewrite Dc, Sc. repeat split.
  - rewrite (@try_catch_bind_throw _ _ _ _ _ _ _ _ _ Ec). cbn.
    right. split; [reflexivity|]. split; [exact Dc|]. split; [exact Sc|].
    intros R. specialize (Rc R). discriminate.
Qed.

End Commands.

(** C8.  An AI command record is created with status ["processing"] and
    its processing is started.  That processing sends one request to the
    language model and then writes the record: status ["completed"] with
    the parsed result when the call and the parse succeed, status
    ["failed"] with the error payload as result when either fails.  When
    the write is accepted it is the only one (with a database that answers
    it always is), and the record then holds what was written. *)
Theorem ai_command_updated_once (X : Type) (env : Env X) (w : World X)
    (userId command : string) :
  let r := fst (post_ai_command env userId command w) in
  let w1 := snd (post_ai_command env userId command w) in
  let failed :=
    {| cu_result :=
         Some (JObject [("error", JString "Failed to process command")]);
       cu_status := Some "failed" |} in
  (reliable env ->
   exists c, r = Ok {| res_status := 200; res_body := Json_command c |})
  /\ (forall c,
        r = Ok {| res_status := 200; res_body := Json_command c |} ->
        AiCommand.status c = Some "processing"
        /\ AiCommand.result c = None
        /\ aiCommands (db w1) = aiCommands (db w) ++ [c]
        /\ started w1
           = started w ++ [ProcessCommand (AiCommand.id c) command userId])
  /\ forall (commandId : Z) (w2 : World X),
       let w3 :=
         snd (run_task env (ProcessCommand commandId command userId) w2) in
       exists reply u ru rest,
         filter is_chat (new_events w2 w3)
         = [Call_chat (CommandPrompt command) reply]
         /\ filter is_updateAiCommand (new_events w2 w3)
            = Call_updateAiCommand commandId u ru :: rest
         /\ u = match reply with
                | Ok content =>
                    match JSON_parse env content with
                    | Ok result =>
                        {| cu_result := Some result;
                           cu_status := Some "completed" |}
                    | Throw _ => failed
                    end
                | Throw _ => failed
                end
         /\ (reliable env -> is_ok ru = true)
         /\ (is_ok ru = true ->
             rest = []
             /\ map AiCommand.id (aiCommands (db w3))
                = map AiCommand.id (aiCommands (db w2))
             /\ forall row,
                  In row (aiCommands (db w3)) ->
                  AiCommand.id row = commandId ->
                  AiCommand.status row = cu_status u
                  /\ AiCommand.result row = cu_result u).
Proof.
  cbv zeta. split; [|split].
  - intros Rel.
    destruct (post_ai_command_run env userId command w)
      as [[now [R _]]|[_ [_ [_ N]]]]; [|contradiction].
    eexists. exact R.
  - intros c H.
    destruct (post_ai_command_run env userId command w)
      as [[now [R [A S]]]|[R _]]; cbv zeta in *.
    + rewrite R in H. inversion H; subst c; clear H.
      repeat split; assumption.
    + rewrite R in H. discriminate.
  - intros commandId w2. cbn [run_task].
    destruct (processCommand_run env commandId command userId w2)
      as [reply [ru [rest [C [_ [Rel [Okay Bad]]]]]]]. cbv zeta in *.
    set (w3 := snd (processCommand env commandId command userId w2)) in *.
    exists reply, (command_updates env reply), ru.
    assert (U : cu_status (command_updates env reply) <> None
                /\ cu_result (command_updates env reply) <> None).
    { unfold command_updates. destruct reply as [content|e];
        [destruct (JSON_parse env content)|]; split; discriminate. }
    destruct ru as [v|e].
    + destruct (Okay eq_refl) as [Hrest [_ D]]. subst rest. exists [].
      split; [|split; [|split; [|split]]].
      * rewrite <- (filter_calls is_chat (new_events w2 w3))
          by (intros []; simpl; congruence).
        rewrite C. reflexivity.
      * rewrite <- (filter_calls is_updateAiCommand (new_events w2 w3))
          by (intros []; simpl; congruence).
        rewrite C. reflexivity.
      * reflexivity.
      * exact Rel.
      * intros _. split; [reflexivity|]. rewrite D.
        unfold commands_updated. cbn [aiCommands with_aiCommands]. split.
        -- rewrite map_map. apply map_ext. intros c.
           destruct (AiCommand.id c =? commandId); reflexivity.
        -- intros row I Hid. apply in_map_iff in I.
           destruct I as [old [E I]].
           destruct (AiCommand.id old =? commandId) eqn:Q.
           ++ subst row. cbn.
              destruct (cu_status (command_updates env reply)),
                (cu_result (command_updates env reply));
                try (exfalso; tauto). split; reflexivity.
           ++ subst row. apply Z.eqb_neq in Q. contradiction.
    + destruct (Bad eq_refl) as [Hrest|[uf [rf [Hrest _]]]]; subst rest;
        eexists;
        (split; [|split; [|split; [|split]]]);
        [ rewrite <- (filter_calls is_chat (new_events w2 w3))
            by (intros []; simpl; congruence);
          rewrite C; reflexivity
        | rewrite <- (filter_calls is_updateAiCommand (new_events w2 w3))
            by (intros []; simpl; congruence);
          rewrite C; reflexivity
        | reflexivity | exact Rel | discriminate
        | rewrite <- (filter_calls is_chat (new_events w2 w3))
            by (intros []; simpl; congruence);
          rewrite C; reflexivity
        | rewrite <- (filter_calls is_updateAiCommand (new_events w2 w3))
            by (intros []; simpl; congruence);
          rewrite C; reflexivity
        | reflexivity | exact Rel | discriminate ].
Qed.

(* ================================================================= *)
(** ** The properties at work *)

(** [summarizeDocument] never throws: it turns a failure of the model into
    a summary. *)
Lemma summarizeDocument_never_throws (X : Type) (env : Env X)
    (text fileName : string) (w : World X) :
  is_ok (fst (summarizeDocument env text fileName w)) = true.
Proof.
  destruct (summarizeDocument_run env text fileName w) as [c [w' [E _]]].
  rewrite E. reflexivity.
Qed.

(** The scenario of section 8: the PDF is read, summarized and tagged. *)
Example lease_is_processed :
  file_row (snd (processFile script_env lease all_enabled (uploaded online)))
    1
  = Some (File.mk 1 "user-1" None "3f9a" "lease.pdf" 2048 "application/pdf"
            "uploads/3f9a" (Some "Lease Agreement between A and B")
            (Some "A lease.") (Some ["contract"]) None (Some "completed")
            0 100).
Proof. reflexivity. Qed.

(** C2, as stated, fails: with the OCR engine and the language model both
    down, the three collaborators are called and fail, the record ends
    ["completed"], and its summary is not empty. *)
Lemma all_failed_summary_not_empty :
  let w := uploaded offline in
  let w' := snd (processFile script_env lease all_enabled w) in
  all_failed (new_events w w') = true
  /\ List.length (collaborator_calls (new_events w w')) = 3%nat
  /\ exists row,
       file_row w' (File.id lease) = Some row
       /\ File.processingStatus row = Some "completed"
       /\ File.ocrText row = Some ""
       /\ File.tags row = Some []
       /\ File.aiSummary row = Some "Summary generation failed"
       /\ File.aiSummary row <> Some "".
Proof.
  cbv zeta. split; [reflexivity|]. split; [reflexivity|].
  eexists. split; [reflexivity|]. cbn.
  repeat split. discriminate.
Qed.

Lemma all_failed_still_completed_witness :
  let w := uploaded offline in
  let w' := snd (processFile script_env lease all_enabled w) in
  all_failed (new_events w w') = true
  /\ exists ru rest,
       filter is_updateFile (new_events w w')
       = Call_updateFile 1
           {| u_ocrText := Some "";
              u_aiSummary := Some "Summary generation failed";
              u_tags := Some [];
              u_processingStatus := Some "completed" |} ru :: rest.
Proof.
  cbv zeta. split; [reflexivity|].
  destruct (@all_failed_still_completed Script script_env lease
              (uploaded offline) eq_refl) as [ru [rest [H _]]].
  exists ru, rest. exact H.
Defined.

Lemma unsupported_type_uses_original_name_witness :
  let w := uploaded online in
  let evs := new_events w (snd (processFile script_env notes all_enabled w)) in
  ~ In (File.mimeType notes)
      [ "image/jpeg"; "image/png"; "image/gif"; "image/bmp"; "image/tiff";
        "application/pdf" ]
  /\ (forall filePath a, ~ In (Call_extractText filePath a) evs)
  /\ exists a, In (Call_summarizeDocument "notes.txt" "notes.txt" a) evs.
Proof.
  cbv zeta.
  assert (H : ~ In (File.mimeType notes)
                  [ "image/jpeg"; "image/png"; "image/gif"; "image/bmp";
                    "image/tiff"; "application/pdf" ]).
  { simpl. intros [H|[H|[H|[H|[H|[H|[]]]]]]]; discriminate H. }
  split; [exact H|].
  destruct (@unsupported_type_uses_original_name Script script_env notes
              all_enabled (uploaded online) H) as [E [_ [_ [_ [S _]]]]].
  split; [exact E|].
  apply S; [reflexivity | discriminate].
Defined.

Lemma processFile_same_answers_same_outputs_witness :
  let w1 := uploaded online_twice in
  let w2 := snd (processFile script_env lease all_enabled w1) in
  let evs1 := new_events w1 w2 in
  let evs2 := new_events w2 (snd (processFile script_env lease all_enabled w2))
  in
  collaborator_calls evs1 = collaborator_calls evs2
  /\ persisted_outputs evs1 = persisted_outputs evs2.
Proof.
  cbv zeta. split; [reflexivity|].
  apply (@processFile_same_answers_same_outputs Script script_env lease
           all_enabled (uploaded online_twice)
           (snd (processFile script_env lease all_enabled
                   (uploaded online_twice)))).
  reflexivity.
Defined.

Lemma steady_env_reliable : reliable steady_env.
Proof. intros x. reflexivity. Defined.

Lemma empty_db_bounded : folder_ids_bounded empty_db.
Proof.
  split; [apply Z.le_refl|]. intros f I. destruct I.
Defined.

Lemma rename_keeps_child_path_witness :
  reliable steady_env
  /\ folder_ids_bounded (db (fresh calm))
  /\ exists a b,
       fst (post_folders steady_env "user-1" "A" None (fresh calm))
       = Ok {| res_status := 200; res_body := Json_folder (Some a) |}
       /\ fst (post_folders steady_env "user-1" "B" (Some (Folder.id a))
                 (snd (post_folders steady_env "user-1" "A" None
                         (fresh calm))))
          = Ok {| res_status := 200; res_body := Json_folder (Some b) |}
       /\ Folder.path b = "A/B"
       /\ exists a',
            Folder.path a' = "A2"
            /\ folders
                 (db (snd (put_folder steady_env (Folder.id a) "A2" None
                             (snd (post_folders steady_env "user-1" "B"
                                     (Some (Folder.id a))
                                     (snd (post_folders steady_env "user-1"
                                             "A" None (fresh calm))))))))
               = [a'; b].
Proof.
  split; [exact steady_env_reliable|]. split; [exact empty_db_bounded|].
  destruct (@rename_keeps_child_path Script steady_env (fresh calm) "user-1"
              steady_env_reliable empty_db_bounded)
    as [a [R1 [_ [b [R2 [P2 [_ [_ [a' [_ [_ [_ [P3 [_ F3]]]]]]]]]]]]]].
  exists a, b. split; [exact R1|]. split; [exact R2|]. split; [exact P2|].
  exists a'. split; [exact P3 | exact F3].
Defined.

(** The table after the three requests: the child still says ["A/B"]. *)
Example renamed_parent_stale_child :
  folders (db (snd (put_folder steady_env 1 "A2" None nested)))
  = [ Folder.mk 1 "user-1" "A2" None "A2" 0 2;
      Folder.mk 2 "user-1" "B" (Some 1) "A/B" 1 1 ].
Proof. reflexivity. Qed.

(** C7.  The handler checks "if folder has any files or subfolders", but
    looks for subfolders only among the folders of the user who asks,
    where it looks for files among those of every user.  So a folder with
    a subfolder that another user created under it is deleted at the
    request of its owner: the answer is 200, not the blocking 400, and the
    folder is gone. *)
Lemma delete_ignores_foreign_subfolder :
  let w' := snd (delete_folder script_env "alice" 1 shared) in
  (exists sub,
     In sub (folders (db shared)) /\ Folder.parentId sub = Some 1)
  /\ folder_row shared 1 <> None
  /\ fst (delete_folder script_env "alice" 1 shared)
     = Ok {| res_status := 200; res_body := Json_success |}
  /\ folder_row w' 1 = None
  /\ db w' <> db shared.
Proof.
  cbv zeta. split; [|split; [|split; [|split]]].
  - exists (Folder.mk 2 "bob" "Bobs" (Some 1) "Shared/Bobs" 1 1).
    split; [right; left; reflexivity | reflexivity].
  - discriminate.
  - reflexivity.
  - reflexivity.
  - discriminate.
Qed.

Lemma delete_blocked_when_in_use_witness :
  (exists sub,
     In sub (folders (db nested)) /\ Folder.userId sub = "user-1"
     /\ Folder.parentId sub = Some 1)
  /\ db (snd (delete_folder steady_env "user-1" 1 nested)) = db nested
  /\ fst (delete_folder steady_env "user-1" 1 nested)
     = Ok {| res_status := 400;
             res_body :=
               Json_message "Cannot delete folder with files or subfolders" |}.
Proof.
  assert (H : exists sub,
            In sub (folders (db nested)) /\ Folder.userId sub = "user-1"
            /\ Folder.parentId sub = Some 1).
  { exists (Folder.mk 2 "user-1" "B" (Some 1) "A/B" 1 1).
    split; [right; left; reflexivity | split; reflexivity]. }
  split; [exact H|].
  destruct (@delete_blocked_when_in_use Script steady_env nested "user-1" 1
              (or_intror H)) as [D [_ R]].
  split; [exact D | exact (R steady_env_reliable)].
Defined.

Lemma rename_without_parent_reroots_witness :
  truthy_id None = false
  /\ folder_row nested 2
     = Some (Folder.mk 2 "user-1" "B" (Some 1) "A/B" 1 1)
  /\ forall row,
       In row (folders (db (snd (put_folder steady_env 2 "B2" None nested))))
       -> Folder.id row = 2 ->
       Folder.parentId row = None /\ Folder.path row = "B2"
       /\ Folder.name row = "B2".
Proof.
  split; [reflexivity|]. split; [reflexivity|].
  destruct (@rename_without_parent_reroots Script steady_env nested 2 "B2" None
              eq_refl) as [S H].
  destruct (S steady_env_reliable) as [body R].
  destruct (H body R) as [_ [_ Rows]]. exact Rows.
Defined.

(** The upload of section 8 without the three flags: the pipeline is
    started with every option off. *)
Example upload_without_flags :
  started
    (snd (post_files_upload script_env "user-1"
            [ {| filename := "77c0"; originalname := "notes.txt";
                 mf_size := 12; mimetype := "text/plain";
                 mf_path := "uploads/77c0" |} ]
            {| up_folderId := None; up_processOcr := None;
               up_generateSummary := None; up_autoTag := None |}
            (fresh calm)))
  = [ ProcessFile
        (File.mk 1 "user-1" None "77c0" "notes.txt" 12 "text/plain"
           "uploads/77c0" None None None None (Some "processing") 0 0)
        {| processOcr := false; generateSummary := false; autoTag := false |}
    ].
Proof. reflexivity. Qed.

(** The same upload with the three flags sent as ['true']. *)
Example upload_with_flags :
  started
    (snd (post_files_upload script_env "user-1"
            [ {| filename := "77c0"; originalname := "notes.txt";
                 mf_size := 12; mimetype := "text/plain";
                 mf_path := "uploads/77c0" |} ]
            {| up_folderId := None; up_processOcr := Some "true";
               up_generateSummary := Some "true";
               up_autoTag := Some "true" |}
            (fresh calm)))
  = [ ProcessFile
        (File.mk 1 "user-1" None "77c0" "notes.txt" 12 "text/plain"
           "uploads/77c0" None None None None (Some "processing") 0 0)
        {| processOcr := true; generateSummary := true; autoTag := true |} ].
Proof. reflexivity. Qed.

(** A refused write of the result marks the record ["failed"]. *)
Example refused_write_marks_failed :
  let run := processFile script_env lease all_enabled (uploaded (refusing 1))
  in
  fst run = Ok tt
  /\ option_map File.processingStatus (file_row (snd run) 1)
     = Some (Some "failed")
  /\ option_map File.aiSummary (file_row (snd run) 1) = Some None.
Proof. repeat split. Qed.

(** When the write of ["failed"] is refused as well, [processFile] throws
    and the record stays as it was. *)
Example refused_writes_leave_processing :
  let run := processFile script_env lease all_enabled (uploaded (refusing 2))
  in
  fst run = Throw "connection lost"
  /\ file_row (snd run) 1 = Some lease.
Proof. repeat split. Qed.

(** An AI command from its creation to its completion. *)
Example command_is_completed :
  let w1 :=
    snd (post_ai_command script_env "user-1" "move the invoices"
           (fresh (answering "Move 3 files"))) in
  command_row w1 1
  = Some (AiCommand.mk 1 "user-1" "move the invoices" None
            (Some "processing") 0)
  /\ started w1 = [ProcessCommand 1 "move the invoices" "user-1"]
  /\ command_row
       (snd (run_task script_env
               (ProcessCommand 1 "move the invoices" "user-1") w1)) 1
     = Some (AiCommand.mk 1 "user-1" "move the invoices"
               (Some (JObject [("description", JString "Move 3 files")]))
               (Some "completed") 0).
Proof. repeat split. Qed.

(** The same command when the language model does not answer. *)
Example command_is_failed :
  let w1 :=
    snd (post_ai_command script_env "user-1" "move the invoices"
           (fresh calm)) in
  command_row
    (snd (run_task script_env
            (ProcessCommand 1 "move the invoices" "user-1") w1)) 1
  = Some (AiCommand.mk 1 "user-1" "move the invoices"
            (Some (JObject [("error", JString "Failed to process command")]))
            (Some "failed") 0).
Proof. reflexivity. Qed.

(* ================================================================= *)
(** * Further properties *)

(** ** The pipeline and its collaborators *)

Lemma Forall2_map_self {A} (R : A -> A -> Prop) (g : A -> A) (l : list A) :
  (forall x, R x (g x)) -> Forall2 R l (map g l).
Proof.
  intros H. induction l as [|x l IH]; simpl; constructor; auto.
Qed.

(** X1.  A run of [processFile] writes to the record of its file and to
    nothing else: the folders, the AI commands, the three sequences and the
    started promises are as before, the rows of [files] are the same
    records in the same order, a row with another id is unchanged, and of
    the row of the file only the text, the summary, the tags, the status
    and [updatedAt] can differ. *)
Theorem processFile_touches_one_record (X : Type) (env : Env X)
    (file : File.t) (options : ProcessingOptions) (w : World X) :
  let w' := snd (processFile env file options w) in
  folders (db w') = folders (db w)
  /\ aiCommands (db w') = aiCommands (db w)
  /\ folders_id_seq (db w') = folders_id_seq (db w)
  /\ files_id_seq (db w') = files_id_seq (db w)
  /\ ai_commands_id_seq (db w') = ai_commands_id_seq (db w)
  /\ started w' = started w
  /\ Forall2 (fun old new =>
                same_upload old new
                /\ (File.id old <> File.id file -> new = old))
       (files (db w)) (files (db w')).
Proof.
  cbv zeta.
  destruct (processFile_run env file options w)
    as [a1 [c2 [c3 [ru [rf [_ [St [_ D]]]]]]]]. cbv zeta in St, D.
  assert (U : forall u now,
            Forall2 (fun old new =>
                       same_upload old new
                       /\ (File.id old <> File.id file -> new = old))
              (files (db w))
              (files (files_updated (File.id file) u now (db w)))).
  { intros u now. unfold files_updated. cbn [files with_files].
    apply Forall2_map_self. intros f.
    destruct (File.id f =? File.id file) eqn:Q.
    - split; [repeat split|]. intros N. apply Z.eqb_eq in Q. contradiction.
    - split; [repeat split | reflexivity]. }
  assert (I : Forall2 (fun old new =>
                         same_upload old new
                         /\ (File.id old <> File.id file -> new = old))
                (files (db w)) (files (db w))).
  { rewrite <- (map_id (files (db w))) at 2. apply Forall2_map_self.
    intros f. split; [repeat split | reflexivity]. }
  destruct ru as [v|e]; [|destruct rf as [v|e']].
  - destruct D as [_ [now D]]. rewrite D. repeat split; auto.
  - destruct D as [_ [now D]]. rewrite D. repeat split; auto.
  - destruct D as [_ D]. rewrite D. repeat split; auto.
Qed.

(** X2.  The calls of a run of [processFile]: at most one to [extractText]
    and none with OCR switched off, at most two requests to the language
    model and none with summary and tags switched off, one write of the
    record or two, and no write of an AI command. *)
Theorem processFile_call_budget (X : Type) (env : Env X) (file : File.t)
    (options : ProcessingOptions) (w : World X) :
  let evs := new_events w (snd (processFile env file options w)) in
  (List.length (filter is_extractText evs) <= 1)%nat
  /\ (List.length (filter is_chat evs) <= 2)%nat
  /\ (1 <= List.length (filter is_updateFile evs) <= 2)%nat
  /\ filter is_updateAiCommand evs = []
  /\ (processOcr options = false -> filter is_extractText evs = [])
  /\ (generateSummary options = false -> autoTag options = false ->
      filter is_chat evs = []).
Proof.
  cbv zeta.
  destruct (processFile_run env file options w)
    as [a1 [c2 [c3 [ru [rf [S _]]]]]]. cbv zeta in S.
  apply steps_new_events in S.
  set (evs := new_events w (snd (processFile env file options w))) in *.
  rewrite <- (filter_calls is_extractText evs)
    by (intros []; simpl; congruence).
  rewrite <- (filter_calls is_chat evs) by (intros []; simpl; congruence).
  rewrite <- (filter_calls is_updateFile evs)
    by (intros []; simpl; congruence).
  rewrite <- (filter_calls is_updateAiCommand evs)
    by (intros []; simpl; congruence).
  rewrite S, !filter_app.
  unfold pipeline_calls, ocr_calls, summary_calls, tags_calls, asks_summary,
    asks_tags, asks_ocr.
  destruct (processOcr options), (generateSummary options),
    (autoTag options), (isOCRSupported (File.mimeType file)),
    (truthy_string (pipeline_textForAI file options a1)), ru;
    cbn; repeat split; try lia; try reflexivity; intros; discriminate.
Qed.

Lemma summary_of_not_empty (c : Res (option string)) : summary_of c <> "".
Proof.
  destruct c as [[s|]|e]; cbn; try discriminate.
  unfold or_string. destruct s; cbn; discriminate.
Qed.

(** X3.  When a summary is requested for a file whose original name is not
    empty, the summary that [processFile] writes is never empty: it is the
    reply of the model or one of the two placeholders of
    [summarizeDocument]. *)
Theorem requested_summary_never_empty (X : Type) (env : Env X)
    (file : File.t) (options : ProcessingOptions) (w : World X) :
  generateSummary options = true ->
  File.originalName file <> "" ->
  let evs := new_events w (snd (processFile env file options w)) in
  exists ocrText summary tags,
    persisted_outputs evs = [(ocrText, Some summary, tags)]
    /\ summary <> "".
Proof.
  intros G N. cbv zeta.
  destruct (processFile_persisted env file options w)
    as [a1 [c2 [c3 [_ [_ [_ [_ P]]]]]]]. cbv zeta in P.
  eexists. eexists. eexists. split; [exact P|].
  unfold pipeline_summary, asks_summary, pipeline_textForAI, or_string.
  rewrite G.
  destruct (truthy_string (pipeline_ocrText file options a1)) eqn:T; cbn.
  - rewrite T. apply summary_of_not_empty.
  - rewrite (truthy_string_true N). apply summary_of_not_empty.
Qed.

(** X4.  [summarizeDocument] never throws and never answers with an empty
    string: it sends one request to the model, leaves the database alone,
    and answers ["Summary generation failed"] when the request fails and
    ["Unable to generate summary"] when the reply has no content. *)
Theorem summarizeDocument_always_answers (X : Type) (env : Env X)
    (text fileName : string) (w : World X) :
  let r := fst (summarizeDocument env text fileName w) in
  let w' := snd (summarizeDocument env text fileName w) in
  exists c s,
    r = Ok s /\ s <> ""
    /\ calls (new_events w w')
       = [Call_chat (SummaryPrompt text fileName) c;
          Call_summarizeDocument text fileName (Ok s)]
    /\ db w' = db w /\ started w' = started w
    /\ (is_ok c = false -> s = "Summary generation failed")
    /\ (c = Ok None \/ c = Ok (Some "") -> s = "Unable to generate summary")
    /\ (forall content, c = Ok (Some content) -> content <> "" ->
        s = content).
Proof.
  cbv zeta.
  destruct (summarizeDocument_run env text fileName w)
    as [c [w' [E [S [D T]]]]].
  rewrite E. cbn [fst snd]. exists c, (summary_of c).
  split; [reflexivity|]. split; [apply summary_of_not_empty|].
  split; [exact (steps_new_events S)|]. split; [exact D|]. split; [exact T|].
  split; [|split].
  - destruct c; [discriminate | reflexivity].
  - intros [H|H]; subst c; reflexivity.
  - intros content H N. subst c. cbn. unfold or_string.
    rewrite (truthy_string_true N). reflexivity.
Qed.

(** X5.  [generateTags] never throws: it sends one request to the model,
    leaves the database alone, and answers with no tags when the request
    fails, when the reply does not parse and when the reply has no [tags]
    member. *)
Theorem generateTags_always_answers (X : Type) (env : Env X)
    (text fileName : string) (w : World X) :
  let r := fst (generateTags env text fileName w) in
  let w' := snd (generateTags env text fileName w) in
  exists c tags,
    r = Ok tags
    /\ calls (new_events w w')
       = [Call_chat (TagsPrompt text fileName) c;
          Call_generateTags text fileName (Ok tags)]
    /\ db w' = db w /\ started w' = started w
    /\ (is_ok c = false -> tags = [])
    /\ (forall content,
          c = Ok content ->
          match JSON_parse_tags env content with
          | Ok (Some l) => tags = l
          | Ok None => tags = []
          | Throw _ => tags = []
          end).
Proof.
  cbv zeta.
  destruct (generateTags_run env text fileName w)
    as [c [w' [E [S [D T]]]]].
  rewrite E. cbn [fst snd]. exists c, (tags_of env c).
  split; [reflexivity|]. split; [exact (steps_new_events S)|].
  split; [exact D|]. split; [exact T|]. split.
  - destruct c; [discriminate | reflexivity].
  - intros content H. subst c. cbn.
    destruct (JSON_parse_tags env content) as [[l|]|e]; reflexivity.
Qed.

(** X6.  [extractText] answers with trimmed text or throws one fixed
    message, whatever failed (creating the worker, loading the language,
    initializing, recognizing); it leaves the database alone.  Once the
    worker slot is filled, a call goes straight to [recognize]: no worker is
    created and nothing is initialized. *)
Theorem extractText_outcome (X : Type) (env : Env X) (filePath : string)
    (w : World X) :
  let r := fst (extractText env filePath w) in
  let w' := snd (extractText env filePath w) in
  ((exists text, r = Ok (trim text))
   \/ r = Throw "Failed to extract text from document")
  /\ db w' = db w /\ started w' = started w
  /\ (worker w = true ->
      worker w' = true
      /\ outside w' = snd (worker_recognize env filePath (outside w))
      /\ r = match fst (worker_recognize env filePath (outside w)) with
             | Ok text => Ok (trim text)
             | Throw _ => Throw "Failed to extract text from document"
             end).
Proof.
  cbv zeta.
  unfold extractText, traced, initialize, try_catch, bind, ask, ret, throw,
    console_error, emit.
  destruct (worker w) eqn:W; cbn.
  - destruct (worker_recognize env filePath (outside w)) as [[t|e] x]; cbn;
      (split; [eauto|]); repeat split; eauto.
  - destruct (createWorker env (outside w)) as [[[]|e] x1]; cbn;
      [|repeat split; auto; discriminate].
    destruct (worker_loadLanguage env "eng" x1) as [[[]|e] x2]; cbn;
      [|repeat split; auto; discriminate].
    destruct (worker_initialize env "eng" x2) as [[[]|e] x3]; cbn;
      [|repeat split; auto; discriminate].
    destruct (worker_recognize env filePath x3) as [[t|e] x4]; cbn;
      (split; [eauto|]); repeat split; auto; discriminate.
Qed.

(** X7.  The worker slot of the OCR service.  [extractText] fills the slot
    as soon as [createWorker] returns, whether or not the language is then
    loaded and the worker initialized, and never empties it; so after a
    call in which only the initialization failed, later calls skip the
    initialization.  [terminate] does nothing when the slot is empty, and
    empties it exactly when the engine accepts the termination. *)
Theorem worker_slot (X : Type) (env : Env X) (more : Env2 X)
    (filePath : string) (w : World X) :
  let w' := snd (extractText env filePath w) in
  let t := terminate more w in
  worker w'
  = (worker w || is_ok (fst (createWorker env (outside w))))%bool
  /\ (worker w = false -> t = (Ok tt, w))
  /\ (worker w = true ->
      fst t = fst (worker_terminate more (outside w))
      /\ worker (snd t) = negb (is_ok (fst t))
      /\ db (snd t) = db w).
Proof.
  cbv zeta. split; [|split].
  - unfold extractText, traced, initialize, try_catch, bind, ask, ret, throw,
      console_error, emit.
    destruct (worker w) eqn:W; cbn.
    + destruct (worker_recognize env filePath (outside w)) as [[t|e] x];
        cbn; rewrite W; reflexivity.
    + destruct (createWorker env (outside w)) as [[[]|e] x1]; cbn;
        [|rewrite ?W; reflexivity].
      destruct (worker_loadLanguage env "eng" x1) as [[[]|e] x2]; cbn;
        [|reflexivity].
      destruct (worker_initialize env "eng" x2) as [[[]|e] x3]; cbn;
        [|reflexivity].
      destruct (worker_recognize env filePath x3) as [[t|e] x4]; reflexivity.
  - intros H. unfold terminate. rewrite H. reflexivity.
  - intros H. unfold terminate, bind, ask. rewrite H.
    destruct (worker_terminate more (outside w)) as [[[]|e] x]; cbn;
      repeat split.
    exact H.
Qed.

(** ** Uploads, again *)

Section Upload_outcomes.

Variable X : Type.
Variable env : Env X.

Lemma upload_each_outcome userId folderId options parts :
  forall acc (w : World X),
  exists created,
    let r := fst (upload_each env userId folderId options parts acc w) in
    let w' := snd (upload_each env userId folderId options parts acc w) in
    let n := List.length created in
    started w' = started w ++ map (fun f => ProcessFile f options) created
    /\ db w' = with_files_id_seq (files_id_seq (db w) + Z.of_nat n)
                 (with_files (files (db w) ++ created) (db w))
    /\ mirror userId folderId (files_id_seq (db w)) (firstn n parts) created
    /\ match r with
       | Ok l => l = acc ++ created /\ n = List.length parts
       | Throw _ => (n < List.length parts)%nat /\ ~ reliable env
       end.
Proof.
  induction parts as [|part rest IH]; intros acc w.
  - exists []. cbn. rewrite !app_nil_r, Z.add_0_r.
    split; [reflexivity|]. split; [destruct (db w); reflexivity|].
    split; [exact I|]. split; reflexivity.
  - cbn [upload_each].
    destruct (createFile_run env
                {| ifl_userId := userId;
                   ifl_folderId := folderId;
                   ifl_name := filename part;
                   ifl_originalName := originalname part;
                   ifl_size := mf_size part;
                   ifl_mimeType := mimetype part;
                   ifl_filePath := mf_path part;
                   ifl_processingStatus := Some "processing" |} w)
      as [rc [w1 [Ec [Rc [[Tc Sc] Dc]]]]].
    destruct rc as [row|e].
    + rewrite (@bind_ok _ _ _ _ _ _ _ _ Ec).
      destruct Dc as [now [Hrow Dc]]. cbn in Hrow.
      set (w2 := with_started (started w1 ++ [ProcessFile row options]) w1).
      assert (E2 : start (ProcessFile row options) w1 = (Ok tt, w2))
        by reflexivity.
      rewrite (@bind_ok _ _ _ _ _ _ _ _ E2).
      destruct (IH (acc ++ [row]) w2) as [created [St [D [Mi O]]]].
      cbv zeta in *. exists (row :: created).
      assert (D2 : db w2 = db w1) by reflexivity.
      split; [|split; [|split]].
      * rewrite St. cbn. rewrite Sc, <- app_assoc. reflexivity.
      * rewrite D, D2, Dc. cbn [files files_id_seq with_files
                                 with_files_id_seq folders aiCommands
                                 folders_id_seq ai_commands_id_seq].
        rewrite <- app_assoc. cbn [List.length app].
        replace (files_id_seq (db w) + 1 + Z.of_nat (List.length created))
          with (files_id_seq (db w)
                + Z.of_nat (S (List.length created))) by lia.
        reflexivity.
      * cbn [List.length firstn mirror]. split.
        -- exists now. exact Hrow.
        -- rewrite D2, Dc in Mi. exact Mi.
      * destruct (fst (upload_each env userId folderId options rest
                         (acc ++ [row]) w2)) as [l|e].
        -- destruct O as [O1 O2]. split.
           ++ rewrite O1, <- app_assoc. reflexivity.
           ++ cbn. rewrite O2. reflexivity.
        -- destruct O as [O1 O2]. split; [cbn; lia | exact O2].
    + rewrite (@bind_throw _ _ _ _ _ _ _ _ Ec).
      exists []. cbn. rewrite !app_nil_r, Z.add_0_r.
      split; [exact Sc|]. split; [rewrite Dc; destruct (db w); reflexivity|].
      split; [exact I|]. split; [lia|].
      intros R. specialize (Rc R). discriminate.
Qed.

End Upload_outcomes.

(** X8.  Whatever the upload request carries, a processing option is on
    exactly when its field was sent and is the string ['true']: a field
    left out, and any other text, switch the option off for every pipeline
    that the request starts. *)
Theorem upload_flags_exact (X : Type) (env : Env X) (w : World X)
    (userId : string) (parts : list MulterFile) (body : UploadBody) :
  let w' := snd (post_files_upload env userId parts body w) in
  let on (field : option string) :=
    match field with
    | Some s => String.eqb s "true"
    | None => false
    end in
  exists created,
    files (db w') = files (db w) ++ created
    /\ started w'
       = started w
         ++ map (fun f =>
                   ProcessFile f
                     {| processOcr := on (up_processOcr body);
                        generateSummary := on (up_generateSummary body);
                        autoTag := on (up_autoTag body) |}) created.
Proof.
  cbv zeta. unfold post_files_upload. cbv zeta.
  assert (E : forall field,
            strict_eq_text (default_true field) "true"
            = match field with
              | Some s => String.eqb s "true"
              | None => false
              end) by (intros [s|]; reflexivity).
  rewrite !E. clear E.
  destruct parts as [|part rest].
  - exists []. cbn. rewrite !app_nil_r. split; reflexivity.
  - set (options := {| processOcr := _; generateSummary := _;
                       autoTag := _ |}).
    destruct (upload_each_outcome env userId (up_folderId body) options
                (part :: rest) [] w) as [created [S [D _]]].
    cbv zeta in *. exists created.
    destruct (upload_each env userId (up_folderId body) options
                (part :: rest) [] w) as [[l|e] w1] eqn:Eq;
      cbn [fst snd] in *.
    + rewrite (@try_catch_bind_ok _ _ _ _ _ _ _ _ _ Eq). cbn.
      rewrite D. split; [reflexivity | exact S].
    + rewrite (@try_catch_bind_throw _ _ _ _ _ _ _ _ _ Eq). cbn.
      rewrite D. split; [reflexivity | exact S].
Qed.

(** X9.  The outcomes of an upload.  Without a file part the answer is 400
    and nothing happens.  Otherwise the parts are stored in order, each
    with the next id of the sequence and status ["processing"], and one
    pipeline is started per stored record; the answer is 200 with all the
    records when every insert is accepted, and 500 as soon as one is
    refused: the records stored before it stay, and so do their
    pipelines. *)
Theorem upload_outcomes (X : Type) (env : Env X) (w : World X)
    (userId : string) (parts : list MulterFile) (body : UploadBody) :
  let r := fst (post_files_upload env userId parts body w) in
  let w' := snd (post_files_upload env userId parts body w) in
  exists created,
    let n := List.length created in
    db w' = with_files_id_seq (files_id_seq (db w) + Z.of_nat n)
              (with_files (files (db w) ++ created) (db w))
    /\ List.length (started w') = (List.length (started w) + n)%nat
    /\ mirror userId (up_folderId body) (files_id_seq (db w))
         (firstn n parts) created
    /\ (parts = [] ->
        r = Ok {| res_status := 400;
                  res_body := Json_message "No files uploaded" |}
        /\ w' = w)
    /\ (parts <> [] ->
        (r = Ok {| res_status := 200; res_body := Json_files created |}
         /\ n = List.length parts)
        \/ (r = Ok {| res_status := 500;
                      res_body := Json_message "Failed to upload files" |}
            /\ (n < List.length parts)%nat /\ ~ reliable env)).
Proof.
  cbv zeta. unfold post_files_upload. cbv zeta.
  destruct parts as [|part rest].
  - exists []. cbn. rewrite !app_nil_r, Z.add_0_r, Nat.add_0_r.
    split; [destruct (db w); reflexivity|]. split; [reflexivity|].
    split; [exact I|]. split; [intros _; split; reflexivity|].
    intros H. contradiction.
  - set (options := {| processOcr := _; generateSummary := _;
                       autoTag := _ |}).
    destruct (upload_each_outcome env userId (up_folderId body) options
                (part :: rest) [] w) as [created [S [D [Mi O]]]].
    cbv zeta in *. exists created.
    destruct (upload_each env userId (up_folderId body) options
                (part :: rest) [] w) as [[l|e] w1] eqn:Eq;
      cbn [fst snd] in *.
    + rewrite (@try_catch_bind_ok _ _ _ _ _ _ _ _ _ Eq). cbn [fst snd ret].
      cbn [try_catch]. cbn.
      split; [exact D|]. split.
      { rewrite S, length_app, length_map. reflexivity. }
      split; [exact Mi|]. split; [discriminate|].
      intros _. left. destruct O as [O1 O2]. cbn in O1. subst l.
      split; [reflexivity | exact O2].
    + rewrite (@try_catch_bind_throw _ _ _ _ _ _ _ _ _ Eq). cbn.
      split; [exact D|]. split.
      { rewrite S, length_app, length_map. reflexivity. }
      split; [exact Mi|]. split; [discriminate|].
      intros _. right. split; [reflexivity | exact O].
Qed.

(** With every option off [processFile] asks nobody and writes an empty
    text, an empty summary and no tags. *)
Lemma processFile_disabled (X : Type) (env : Env X) (file : File.t)
    (w : World X) :
  let options := {| processOcr := false; generateSummary := false;
                    autoTag := false |} in
  let evs := new_events w (snd (processFile env file options w)) in
  collaborator_calls evs = []
  /\ filter is_chat evs = []
  /\ persisted_outputs evs = [(Some "", Some "", Some [])].
Proof.
  cbv zeta.
  destruct (processFile_run env file
              {| processOcr := false; generateSummary := false;
                 autoTag := false |} w)
    as [a1 [c2 [c3 [ru [rf [S _]]]]]]. cbv zeta in S.
  apply steps_new_events in S.
  unfold collaborator_calls.
  rewrite <- (filter_calls is_collaborator_call)
    by (intros []; simpl; congruence).
  rewrite <- (filter_calls is_chat) by (intros []; simpl; congruence).
  rewrite <- persisted_outputs_calls.
  rewrite S. destruct ru; repeat split.
Qed.

(** X10.  An upload that leaves the three flags out, followed by the
    pipelines it started: whatever the type of the file and whenever the
    pipeline runs, it calls neither the OCR service nor the language model
    and writes status ["completed"] with an empty text, an empty summary
    and no tags. *)
Theorem upload_without_flags_processes_nothing (X : Type) (env : Env X)
    (w : World X) (userId : string) (parts : list MulterFile)
    (folderId : option Z) (t : task) (w2 : World X) :
  let body := {| up_folderId := folderId;
                 up_processOcr := None;
                 up_generateSummary := None;
                 up_autoTag := None |} in
  let w' := snd (post_files_upload env userId parts body w) in
  In t (skipn (List.length (started w)) (started w')) ->
  let evs := new_events w2 (snd (run_task env t w2)) in
  collaborator_calls evs = []
  /\ filter is_chat evs = []
  /\ persisted_outputs evs = [(Some "", Some "", Some [])].
Proof.
  cbv zeta. unfold post_files_upload. cbv zeta.
  cbn [up_folderId up_processOcr up_generateSummary up_autoTag default_true
       strict_eq_text].
  assert (G : forall (w1 : World X) created,
            started w1
            = started w
              ++ map (fun f =>
                        ProcessFile f
                          {| processOcr := false; generateSummary := false;
                             autoTag := false |}) created ->
            In t (skipn (List.length (started w)) (started w1)) ->
            let evs := new_events w2 (snd (run_task env t w2)) in
            collaborator_calls evs = []
            /\ filter is_chat evs = []
            /\ persisted_outputs evs = [(Some "", Some "", Some [])]).
  { intros w1 created S I. rewrite S, skipn_app_exact in I.
    apply in_map_iff in I. destruct I as [f [Ht _]]. subst t.
    cbn [run_task]. apply processFile_disabled. }
  destruct parts as [|part rest].
  - cbn. intros H. apply (G w []); [cbn; rewrite app_nil_r; reflexivity|].
    exact H.
  - destruct (upload_each_outcome env userId folderId
                {| processOcr := false; generateSummary := false;
                   autoTag := false |} (part :: rest) [] w)
      as [created [S _]]. cbv zeta in S.
    destruct (upload_each env userId folderId
                {| processOcr := false; generateSummary := false;
                   autoTag := false |} (part :: rest) [] w)
      as [[l|e] w1] eqn:Eq; cbn [fst snd] in *.
    + rewrite (@try_catch_bind_ok _ _ _ _ _ _ _ _ _ Eq). cbn.
      apply (G w1 created S).
    + rewrite (@try_catch_bind_throw _ _ _ _ _ _ _ _ _ Eq). cbn.
      apply (G w1 created S).
Qed.

(** ** Folders, again *)

Lemma with_folders_same (d : Db) : with_folders (folders d) d = d.
Proof. destruct d. reflexivity. Qed.

Lemma with_files_same (d : Db) : with_files (files d) d = d.
Proof. destruct d. reflexivity. Qed.

Lemma with_aiCommands_same (d : Db) : with_aiCommands (aiCommands d) d = d.
Proof. destruct d. reflexivity. Qed.

Lemma map_if_none {A} (p : A -> bool) (g : A -> A) (l : list A) :
  (forall x, In x l -> p x = false) ->
  map (fun x => if p x then g x else x) l = l.
Proof.
  intros H. induction l as [|x l IH]; simpl; [reflexivity|].
  rewrite (H x (or_introl eq_refl)). f_equal. apply IH.
  intros y I. apply H. right. exact I.
Qed.

Lemma filter_none {A} (p : A -> bool) (l : list A) :
  (forall x, In x l -> p x = false) -> filter p l = [].
Proof.
  intros H. induction l as [|x l IH]; simpl; [reflexivity|].
  rewrite (H x (or_introl eq_refl)). apply IH.
  intros y I. apply H. right. exact I.
Qed.

Lemma filter_all {A} (p : A -> bool) (l : list A) :
  (forall x, In x l -> p x = true) -> filter p l = l.
Proof.
  intros H. induction l as [|x l IH]; simpl; [reflexivity|].
  rewrite (H x (or_introl eq_refl)). f_equal. apply IH.
  intros y I. apply H. right. exact I.
Qed.

(** X11.  A folder update whose id matches no folder changes no table; the
    request is not refused: with a database that answers, the answer is 200
    with an empty body. *)
Theorem rename_of_missing_folder (X : Type) (env : Env X) (w : World X)
    (folderId : Z) (name : string) (parentId : option Z) :
  (forall f, In f (folders (db w)) -> Folder.id f <> folderId) ->
  let r := fst (put_folder env folderId name parentId w) in
  let w' := snd (put_folder env folderId name parentId w) in
  db w' = db w
  /\ (r = Ok {| res_status := 200; res_body := Json_folder None |}
      \/ r = Ok {| res_status := 500;
                   res_body := Json_message "Failed to update folder" |})
  /\ (reliable env ->
      r = Ok {| res_status := 200; res_body := Json_folder None |}).
Proof.
  intros Missing. cbv zeta.
  assert (N : forall f, In f (folders (db w)) ->
              (Folder.id f =? folderId) = false).
  { intros f I. apply Z.eqb_neq. auto. }
  destruct (put_folder_run env folderId name parentId w)
    as [_ [[now [D R]]|[R [D Rel]]]]; cbv zeta in *.
  - assert (D' : db (snd (put_folder env folderId name parentId w)) = db w).
    { rewrite D. unfold folders_updated.
      rewrite (map_if_none _ _ _ N). apply with_folders_same. }
    assert (R' : fst (put_folder env folderId name parentId w)
                 = Ok {| res_status := 200; res_body := Json_folder None |}).
    { rewrite R. unfold folder_row. rewrite D', (filter_none _ _ N).
      reflexivity. }
    split; [exact D'|]. split; [left; exact R' | intros _; exact R'].
  - split; [exact D|]. split; [right; exact R | intros H; contradiction].
Qed.

(** X12.  With a database that answers, deleting a folder that no file
    references and that no folder of the requesting user has as parent
    removes the rows with that id and nothing else, whoever owns the
    folder; when no folder has the id, nothing changes and the answer is
    still the success. *)
Theorem delete_of_unreferenced_folder (X : Type) (env : Env X)
    (w : World X) (userId : string) (folderId : Z) :
  reliable env ->
  (forall file, In file (files (db w)) ->
                File.folderId file <> Some folderId) ->
  (forall sub, In sub (folders (db w)) -> Folder.userId sub = userId ->
               Folder.parentId sub <> Some folderId) ->
  let r := fst (delete_folder env userId folderId w) in
  let w' := snd (delete_folder env userId folderId w) in
  r = Ok {| res_status := 200; res_body := Json_success |}
  /\ db w' = with_folders
               (filter (fun f => negb (Folder.id f =? folderId))
                  (folders (db w))) (db w)
  /\ ((forall f, In f (folders (db w)) -> Folder.id f <> folderId) ->
      db w' = db w).
Proof.
  intros Rel NoFile NoSub. cbv zeta. unfold delete_folder.
  destruct (getFilesByFolderId_run env folderId w)
    as [rf [w1 [Ef [Rf [_ [Df Pf]]]]]].
  specialize (Rf Rel). destruct rf as [fs|e]; [|discriminate].
  rewrite (@try_catch_bind_ok _ _ _ _ _ _ _ _ _ Ef).
  destruct (getFoldersByUserId_run env userId w1)
    as [rs [w2 [Es [Rs [_ [Ds Ps]]]]]].
  specialize (Rs Rel). destruct rs as [allFolders|e]; [|discriminate].
  rewrite (@try_catch_bind_ok _ _ _ _ _ _ _ _ _ Es). cbv zeta.
  assert (F0 : fs = []).
  { rewrite (Pf fs eq_refl). rewrite filter_none; [reflexivity|].
    intros f I. specialize (NoFile f I).
    destruct (File.folderId f) as [p|]; [|reflexivity]. cbn.
    apply Z.eqb_neq. intros H. apply NoFile. congruence. }
  assert (S0 : filter (fun f => eqb_parent (Folder.parentId f) folderId)
                 allFolders = []).
  { apply filter_none. intros f I. rewrite (Ps allFolders eq_refl) in I.
    apply sort_by_In, filter_In in I. destruct I as [I U].
    apply String.eqb_eq in U. rewrite Df in I.
    specialize (NoSub f I U).
    destruct (Folder.parentId f) as [p|]; [|reflexivity]. cbn.
    apply Z.eqb_neq. intros H. apply NoSub. congruence. }
  rewrite F0, S0. cbn [List.length Z.of_nat Z.ltb Z.compare orb].
  destruct (deleteFolder_run env folderId w2) as [rd [w3 [Ed [Rd [_ Dd]]]]].
  specialize (Rd Rel). destruct rd as [[]|e]; [|discriminate].
  rewrite (@try_catch_bind_ok _ _ _ _ _ _ _ _ _ Ed). cbn.
  assert (D : db w3 = with_folders
                        (filter (fun f => negb (Folder.id f =? folderId))
                           (folders (db w))) (db w)).
  { rewrite Dd, Ds, Df. reflexivity. }
  split; [reflexivity|]. split; [exact D|].
  intros Missing. rewrite D, filter_all; [apply with_folders_same|].
  intros f I. apply negb_true_iff, Z.eqb_neq. auto.
Qed.

(** X14.  With a database that answers and a table whose ids come from its
    sequence, the folder that POST /api/folders answers with is the row
    that [getFolderById] then finds under its id; the id is not 0, so that
    a later request can name the folder as parent. *)
Theorem created_folder_is_found (X : Type) (env : Env X) (w : World X)
    (userId name : string) (parentId : option Z) :
  reliable env ->
  folder_ids_bounded (db w) ->
  let r := fst (post_folders env userId name parentId w) in
  let w' := snd (post_folders env userId name parentId w) in
  exists folder,
    r = Ok {| res_status := 200; res_body := Json_folder (Some folder) |}
    /\ fst (getFolderById env (Folder.id folder) w') = Ok (Some folder)
    /\ truthy_id (Some (Folder.id folder)) = true.
Proof.
  intros Rel [Seq Ids]. cbv zeta.
  destruct (post_folders_run env userId name parentId w)
    as [_ [[now [R D]]|[_ [_ N]]]]; [|contradiction]; cbv zeta in *.
  eexists. split; [exact R|].
  destruct (getFolderById_run env (folders_id_seq (db w) + 1)
              (snd (post_folders env userId name parentId w)))
    as [rg [w2 [Eg [Rg [_ [_ Pg]]]]]].
  specialize (Rg Rel). destruct rg as [v|e]; [|discriminate].
  cbn [Folder.id]. rewrite Eg. cbn [fst]. split.
  - rewrite (Pg v eq_refl). unfold folder_row. rewrite D.
    cbn [folders with_folders_id_seq with_folders].
    rewrite filter_app, (@filter_above _ (folders_id_seq (db w)))
      by (auto; lia).
    cbn. rewrite Z.eqb_refl. reflexivity.
  - cbn. apply negb_true_iff, Z.eqb_neq. lia.
Qed.

(** X17.  POST /api/folders with a parent id that matches no folder is not
    refused: the folder is stored with that parent id and with its name
    alone as path. *)
Theorem dangling_parent_is_stored (X : Type) (env : Env X) (w : World X)
    (userId name : string) (p : Z) :
  p <> 0 ->
  (forall f, In f (folders (db w)) -> Folder.id f <> p) ->
  let r := fst (post_folders env userId name (Some p) w) in
  let w' := snd (post_folders env userId name (Some p) w) in
  (reliable env ->
   exists folder,
     r = Ok {| res_status := 200; res_body := Json_folder (Some folder) |})
  /\ forall folder,
       r = Ok {| res_status := 200; res_body := Json_folder (Some folder) |} ->
       folders (db w') = folders (db w) ++ [folder]
       /\ Folder.parentId folder = Some p
       /\ Folder.path folder = name.
Proof.
  intros P0 Missing. cbv zeta.
  assert (N : forall f, In f (folders (db w)) -> (Folder.id f =? p) = false).
  { intros f I. apply Z.eqb_neq. auto. }
  assert (Pa : path_for w name (Some p) = name).
  { unfold path_for, folder_row. rewrite (filter_none _ _ N).
    destruct (negb (p =? 0)); reflexivity. }
  assert (O : or_null (Some p) = Some p).
  { unfold or_null, truthy_id. apply Z.eqb_neq in P0. rewrite P0.
    reflexivity. }
  destruct (post_folders_run env userId name (Some p) w)
    as [_ [[now [R D]]|[R [D Rel]]]]; cbv zeta in *.
  - rewrite Pa, O in R, D.
    split; [intros _; eexists; exact R|].
    intros folder H. rewrite R in H. inversion H; subst folder; clear H.
    rewrite D. repeat split.
  - split; [intros H; contradiction|].
    intros folder H. rewrite R in H. discriminate.
Qed.

(** ** AI commands, again *)

Lemma processCommand_db (X : Type) (env : Env X) (commandId : Z)
    (command userId : string) (w : World X) :
  let w' := snd (processCommand env commandId command userId w) in
  started w' = started w
  /\ (db w' = db w \/ exists u, db w' = commands_updated commandId u (db w)).
Proof.
  cbv zeta.
  destruct (processCommand_run env commandId command userId w)
    as [reply [ru [rest [_ [St [_ [Okay _]]]]]]]. cbv zeta in *.
  split; [exact St|].
  destruct ru as [v|e].
  - right. eexists. apply (Okay eq_refl).
  - clear Okay St. unfold processCommand.
    destruct (chat_run env (CommandPrompt command) w)
      as [c [w1 [E1 [_ [D1 _]]]]].
    assert (C : forall w0 : World X, db w0 = db w ->
              let m :=
                (console_error "Error processing command:" ;;
                 updateAiCommand env commandId
                   {| cu_status := Some "failed";
                      cu_result :=
                        Some (JObject
                                [("error",
                                  JString "Failed to process command")]) |} ;;
                 ret tt)%async in
              db (snd (m w0)) = db w
              \/ exists u,
                   db (snd (m w0)) = commands_updated commandId u (db w)).
    { intros w0 D0.
      destruct (processCommand_catch env commandId w0) as [rf [_ [_ [_ D]]]].
      cbv zeta in *. destruct rf as [v|e'].
      - right. eexists. rewrite <- D0. apply D.
      - left. rewrite <- D0. apply D. }
    destruct c as [content|e1].
    + rewrite (@try_catch_bind_ok _ _ _ _ _ _ _ _ _ E1).
      destruct (JSON_parse env content) as [result|e2].
      * assert (E2 : lift (Ok result) w1 = (Ok result, w1)) by reflexivity.
        rewrite (@try_catch_bind_ok _ _ _ _ _ _ _ _ _ E2).
        destruct (updateAiCommand_steps env commandId
                    {| cu_result := Some result;
                       cu_status := Some "completed" |} w1)
          as [ru [w2 [E3 [_ [_ [_ D3]]]]]].
        destruct ru as [v|e3].
        -- rewrite (@try_catch_bind_ok _ _ _ _ _ _ _ _ _ E3). cbn.
           right. eexists. rewrite D3, D1. reflexivity.
        -- rewrite (@try_catch_bind_throw _ _ _ _ _ _ _ _ _ E3).
           apply C. congruence.
      * assert (E2 : @lift X json (Throw e2) w1 = (Throw e2, w1))
          by reflexivity.
        rewrite (@try_catch_bind_throw _ _ _ _ _ _ _ _ _ E2).
        apply C. exact D1.
    + rewrite (@try_catch_bind_throw _ _ _ _ _ _ _ _ _ E1).
      apply C. exact D1.
Qed.

(** X18.  [processCommand] writes to the record of its command and to
    nothing else: folders, files, sequences and started promises are as
    before, a command with another id is unchanged, and of the command
    itself only the result and the status can differ.  When no command has
    the id, nothing changes at all. *)
Theorem processCommand_touches_one_record (X : Type) (env : Env X)
    (commandId : Z) (command userId : string) (w : World X) :
  let w' := snd (processCommand env commandId command userId w) in
  folders (db w') = folders (db w)
  /\ files (db w') = files (db w)
  /\ folders_id_seq (db w') = folders_id_seq (db w)
  /\ files_id_seq (db w') = files_id_seq (db w)
  /\ ai_commands_id_seq (db w') = ai_commands_id_seq (db w)
  /\ started w' = started w
  /\ Forall2 (fun old new =>
                same_command old new
                /\ (AiCommand.id old <> commandId -> new = old))
       (aiCommands (db w)) (aiCommands (db w'))
  /\ ((forall c, In c (aiCommands (db w)) -> AiCommand.id c <> commandId) ->
      db w' = db w).
Proof.
  cbv zeta.
  destruct (processCommand_db env commandId command userId w) as [St D].
  cbv zeta in *.
  destruct D as [D|[u D]]; rewrite D.
  - repeat split; auto.
    rewrite <- (map_id (aiCommands (db w))) at 2. apply Forall2_map_self.
    intros c. split; [repeat split | reflexivity].
  - repeat split; auto.
    + unfold commands_updated. cbn [aiCommands with_aiCommands].
      apply Forall2_map_self. intros c.
      destruct (AiCommand.id c =? commandId) eqn:Q.
      * split; [repeat split|]. intros N. apply Z.eqb_eq in Q.
        contradiction.
      * split; [repeat split | reflexivity].
    + intros Missing. unfold commands_updated.
      rewrite map_if_none; [apply with_aiCommands_same|].
      intros c I. apply Z.eqb_neq. auto.
Qed.

(** ** Reading the tables *)

Section Sorting.

Variable A : Type.
Variable le : A -> A -> bool.
Hypothesis le_total : forall a b, le a b = true \/ le b a = true.

Let R (a b : A) : Prop := le a b = true.

Lemma insert_by_perm (x : A) (l : list A) :
  Permutation (insert_by le x l) (x :: l).
Proof.
  induction l as [|y l IH]; simpl; [apply Permutation_refl|].
  destruct (le x y); [apply Permutation_refl|].
  eapply perm_trans; [apply perm_skip, IH | apply perm_swap].
Qed.

Lemma sort_by_perm (l : list A) : Permutation (sort_by le l) l.
Proof.
  unfold sort_by. induction l as [|x l IH]; simpl; [constructor|].
  eapply perm_trans; [apply insert_by_perm | apply perm_skip, IH].
Qed.

Lemma insert_by_hd (x y : A) (l : list A) :
  R y x -> HdRel R y l -> HdRel R y (insert_by le x l).
Proof.
  intros Hx Hl. destruct l as [|z l]; simpl; [constructor; exact Hx|].
  destruct (le x z); constructor; [exact Hx|].
  inversion Hl; assumption.
Qed.

Lemma insert_by_sorted (x : A) (l : list A) :
  Sorted R l -> Sorted R (insert_by le x l).
Proof.
  induction l as [|y l IH]; simpl; intros S.
  - repeat constructor.
  - destruct (le x y) eqn:E.
    + constructor; [exact S|]. constructor. exact E.
    + inversion S as [|? ? S' H']; subst.
      constructor; [apply IH; exact S'|].
      apply insert_by_hd; [|exact H'].
      destruct (le_total x y) as [H|H]; [congruence | exact H].
Qed.

Lemma sort_by_sorted (l : list A) : Sorted R (sort_by le l).
Proof.
  unfold sort_by. induction l as [|x l IH]; simpl; [constructor|].
  apply insert_by_sorted. exact IH.
Qed.

End Sorting.

Lemma name_order_total (a b : Folder.t) :
  (Folder.name a <=? Folder.name b)%string = true
  \/ (Folder.name b <=? Folder.name a)%string = true.
Proof. apply String.leb_total. Qed.

Lemma newest_first_total (a b : File.t) :
  (File.createdAt b <=? File.createdAt a) = true
  \/ (File.createdAt a <=? File.createdAt b) = true.
Proof.
  destruct (Z.leb_spec (File.createdAt b) (File.createdAt a));
    [left; reflexivity | right; apply Z.leb_le; lia].
Qed.

Section More_storage_runs.

Variable X : Type.
Variable env : Env X.

Ltac run_statement :=
  unfold reliable;
  cbv beta delta
    [getFilesByUserId getAiCommandsByUserId getFileById updateFile_with
     deleteFile execute new_Date bind ask gets modify ret] iota zeta;
  let H := fresh "H" in
  pose proof (fun (R : forall x, fst (db_execute env x) = Ok tt) x => R x)
    as H;
  repeat match goal with
  | |- context [clock env ?x] =>
      let now := fresh "now" in
      let x' := fresh "x" in
      destruct (clock env x) as [now x'] eqn:?; cbn [fst snd outside]
  | |- context [db_execute env ?x] =>
      let r := fresh "r" in
      let x' := fresh "x" in
      specialize (fun R => H R x);
      destruct (db_execute env x) as [[[]|r] x'] eqn:?;
      cbn [fst snd outside] in *
  end.

Lemma getFileById_run id (w : World X) :
  exists r w',
    getFileById env id w = (r, w')
    /\ (reliable env -> is_ok r = true)
    /\ silent w w' /\ db w' = db w
    /\ (forall v, r = Ok v -> v = file_row w id).
Proof.
  run_statement.
  - eexists. eexists. split; [reflexivity|]. cbn. unfold silent.
    repeat split; try reflexivity. intros v Hv. inversion Hv. reflexivity.
  - eexists. eexists. split; [reflexivity|]. cbn. unfold silent.
    repeat split; try reflexivity.
    + intros R. specialize (H R). discriminate.
    + discriminate.
Qed.

Lemma getFilesByUserId_run userId (w : World X) :
  exists r w',
    getFilesByUserId env userId w = (r, w')
    /\ (reliable env -> is_ok r = true)
    /\ silent w w' /\ db w' = db w
    /\ (forall l, r = Ok l ->
        l = sort_by (fun a b => File.createdAt b <=? File.createdAt a)
              (filter (fun f => String.eqb (File.userId f) userId)
                 (files (db w)))).
Proof.
  run_statement.
  - eexists. eexists. split; [reflexivity|]. cbn. unfold silent.
    repeat split; try reflexivity. intros v Hv. inversion Hv. reflexivity.
  - eexists. eexists. split; [reflexivity|]. cbn. unfold silent.
    repeat split; try reflexivity.
    + intros R. specialize (H R). discriminate.
    + discriminate.
Qed.

Lemma getAiCommandsByUserId_run userId (w : World X) :
  exists r w',
    getAiCommandsByUserId env userId w = (r, w')
    /\ (reliable env -> is_ok r = true)
    /\ silent w w' /\ db w' = db w
    /\ (forall l, r = Ok l ->
        l = sort_by
              (fun a b => AiCommand.createdAt b <=? AiCommand.createdAt a)
              (filter (fun c => String.eqb (AiCommand.userId c) userId)
                 (aiCommands (db w)))).
Proof.
  run_statement.
  - eexists. eexists. split; [reflexivity|]. cbn. unfold silent.
    repeat split; try reflexivity. intros v Hv. inversion Hv. reflexivity.
  - eexists. eexists. split; [reflexivity|]. cbn. unfold silent.
    repeat split; try reflexivity.
    + intros R. specialize (H R). discriminate.
    + discriminate.
Qed.

Lemma updateFile_with_run id p (w : World X) :
  exists r w',
    updateFile_with env id p w = (r, w')
    /\ (reliable env -> is_ok r = true)
    /\ silent w w'
    /\ match r with
       | Ok v =>
           db w' = with_files
                     (map (fun f =>
                             if File.id f =? id
                             then apply_file_patch p
                                    (fst (clock env (outside w))) f
                             else f) (files (db w))) (db w)
           /\ v = file_row w' id
       | Throw _ => db w' = db w
       end.
Proof.
  run_statement.
  - eexists. eexists. split; [reflexivity|]. cbn. unfold silent.
    repeat split; reflexivity.
  - eexists. eexists. split; [reflexivity|]. cbn. unfold silent.
    repeat split; try reflexivity.
    intros R. specialize (H R). discriminate.
Qed.

Lemma deleteFile_run id (w : World X) :
  exists r w',
    deleteFile env id w = (r, w')
    /\ (reliable env -> is_ok r = true)
    /\ silent w w'
    /\ match r with
       | Ok _ =>
           db w' = with_files
                     (filter (fun f => negb (File.id f =? id))
                        (files (db w))) (db w)
       | Throw _ => db w' = db w
       end.
Proof.
  run_statement.
  - eexists. eexists. split; [reflexivity|]. cbn. unfold silent.
    repeat split; reflexivity.
  - eexists. eexists. split; [reflexivity|]. cbn. unfold silent.
    repeat split; try reflexivity.
    intros R. specialize (H R). discriminate.
Qed.

End More_storage_runs.

(** X15.  GET /api/folders changes nothing and, when it succeeds, lists the
    folders of the user who asks, all of them and no folder of anyone
    else, ordered by name. *)
Theorem get_folders_lists_own_by_name (X : Type) (env : Env X)
    (w : World X) (userId : string) :
  let r := fst (get_folders env userId w) in
  let w' := snd (get_folders env userId w) in
  db w' = db w /\ started w' = started w
  /\ (reliable env ->
      exists l, r = Ok {| ans_status := 200; ans_body := Folder_list l |})
  /\ forall l,
       r = Ok {| ans_status := 200; ans_body := Folder_list l |} ->
       (forall f, In f l <->
                  In f (folders (db w)) /\ Folder.userId f = userId)
       /\ Sorted (fun a b =>
                    (Folder.name a <=? Folder.name b)%string = true) l
       /\ Permutation l
            (filter (fun f => String.eqb (Folder.userId f) userId)
               (folders (db w))).
Proof.
  cbv zeta. unfold get_folders.
  destruct (getFoldersByUserId_run env userId w)
    as [rs [w1 [Es [Rs [[_ Ss] [Ds Ps]]]]]].
  destruct rs as [l0|e].
  - rewrite (@try_catch_bind_ok _ _ _ _ _ _ _ _ _ Es). cbn.
    split; [exact Ds|]. split; [exact Ss|].
    split; [intros _; eexists; reflexivity|].
    intros l H. inversion H; subst l; clear H.
    rewrite (Ps l0 eq_refl). split; [|split].
    + intros f. rewrite sort_by_In, filter_In, String.eqb_eq. reflexivity.
    + apply sort_by_sorted. exact name_order_total.
    + apply sort_by_perm.
  - rewrite (@try_catch_bind_throw _ _ _ _ _ _ _ _ _ Es). cbn.
    split; [exact Ds|]. split; [exact Ss|]. split.
    + intros R. specialize (Rs R). discriminate.
    + intros l H. discriminate.
Qed.

(** X16.  GET /api/files changes nothing.  Without a folder id it lists the
    files of the user who asks, newest first.  With a folder id it lists
    the files of that folder, newest first, whoever owns them: the user who
    asks plays no part in the selection. *)
Theorem get_files_selection (X : Type) (env : Env X) (w : World X)
    (userId : string) (folderId : option Z) :
  let r := fst (get_files env userId folderId w) in
  let w' := snd (get_files env userId folderId w) in
  db w' = db w /\ started w' = started w
  /\ (reliable env ->
      exists l, r = Ok {| ans_status := 200; ans_body := File_list l |})
  /\ forall l,
       r = Ok {| ans_status := 200; ans_body := File_list l |} ->
       Sorted (fun a b => (File.createdAt b <=? File.createdAt a) = true) l
       /\ forall f,
            In f l <->
            In f (files (db w))
            /\ match folderId with
               | Some id => File.folderId f = Some id
               | None => File.userId f = userId
               end.
Proof.
  cbv zeta. unfold get_files.
  assert (G : exists rs w1,
            match folderId with
            | Some id => getFilesByFolderId env id
            | None => getFilesByUserId env userId
            end w = (rs, w1)
            /\ (reliable env -> is_ok rs = true)
            /\ started w1 = started w /\ db w1 = db w
            /\ forall l, rs = Ok l ->
                 Sorted (fun a b =>
                           (File.createdAt b <=? File.createdAt a) = true) l
                 /\ forall f,
                      In f l <->
                      In f (files (db w))
                      /\ match folderId with
                         | Some id => File.folderId f = Some id
                         | None => File.userId f = userId
                         end).
  { destruct folderId as [id|].
    - destruct (getFilesByFolderId_run env id w)
        as [rs [w1 [Es [Rs [[_ Ss] [Ds Ps]]]]]].
      exists rs, w1. split; [exact Es|]. split; [exact Rs|].
      split; [exact Ss|]. split; [exact Ds|].
      intros l H. rewrite (Ps l H). split.
      + apply sort_by_sorted. exact newest_first_total.
      + intros f. rewrite sort_by_In, filter_In.
        split; intros [I Q]; (split; [exact I|]).
        * destruct (File.folderId f) as [p|]; [|discriminate].
          cbn in Q. apply Z.eqb_eq in Q. congruence.
        * rewrite Q. cbn. apply Z.eqb_refl.
    - destruct (getFilesByUserId_run env userId w)
        as [rs [w1 [Es [Rs [[_ Ss] [Ds Ps]]]]]].
      exists rs, w1. split; [exact Es|]. split; [exact Rs|].
      split; [exact Ss|]. split; [exact Ds|].
      intros l H. rewrite (Ps l H). split.
      + apply sort_by_sorted. exact newest_first_total.
      + intros f. rewrite sort_by_In, filter_In, String.eqb_eq.
        reflexivity. }
  destruct G as [rs [w1 [Es [Rs [Ss [Ds Ps]]]]]].
  destruct rs as [l0|e].
  - rewrite (@try_catch_bind_ok _ _ _ _ _ _ _ _ _ Es). cbn.
    split; [exact Ds|]. split; [exact Ss|].
    split; [intros _; eexists; reflexivity|].
    intros l H. inversion H; subst l; clear H. apply Ps. reflexivity.
  - rewrite (@try_catch_bind_throw _ _ _ _ _ _ _ _ _ Es). cbn.
    split; [exact Ds|]. split; [exact Ss|]. split.
    + intros R. specialize (Rs R). discriminate.
    + intros l H. discriminate.
Qed.

(** ** Files, one at a time *)

Lemma hd_error_filter_none {A} (p : A -> bool) (l : list A) :
  hd_error (filter p l) = None -> forall x, In x l -> p x = false.
Proof.
  induction l as [|y l IH]; simpl; intros H x I; [contradiction|].
  destruct (p y) eqn:E; [discriminate|].
  destruct I as [->|I]; [exact E | apply IH; assumption].
Qed.

Lemma filter_filter_negb {A} (p : A -> bool) (l : list A) :
  filter p (filter (fun x => negb (p x)) l) = [].
Proof.
  apply filter_none. intros x I. apply filter_In in I.
  destruct I as [_ I]. destruct (p x); [discriminate | reflexivity].
Qed.

Lemma Forall2_map_if {A} (p : A -> bool) (g : A -> A) (l : list A) :
  Forall2 (fun old new => new = if p old then g old else old) l
    (map (fun x => if p x then g x else x) l).
Proof. induction l; simpl; constructor; auto. Qed.

Section File_updates.

Variable X : Type.
Variable env : Env X.

Local Open Scope async_scope.

(** The two handlers that end in [updateFile]. *)
Lemma file_update_outcome fileId p msg1 msg2 (w : World X) :
  let m := try_catch
             (updatedFile <- updateFile_with env fileId p ;;
              ret {| ans_status := 200; ans_body := One_file updatedFile |})
             (fun _ => console_error msg1 ;; ret (failure msg2)) in
  let now := fst (clock env (outside w)) in
  let r := fst (m w) in
  let w' := snd (m w) in
  started w' = started w
  /\ (r = Ok {| ans_status := 200;
                ans_body := One_file (file_row w' fileId) |}
      /\ db w' = with_files
                   (map (fun f => if File.id f =? fileId
                                  then apply_file_patch p now f else f)
                      (files (db w))) (db w)
      \/ r = Ok (failure msg2) /\ db w' = db w /\ ~ reliable env).
Proof.
  cbv zeta.
  destruct (updateFile_with_run env fileId p w)
    as [rs [w1 [Es [Rs [[_ Ss] Ps]]]]].
  destruct rs as [v|e].
  - rewrite (@try_catch_bind_ok _ _ _ _ _ _ _ _ _ Es). cbn.
    destruct Ps as [D V]. split; [exact Ss|]. left. split; [|exact D].
    rewrite V. reflexivity.
  - rewrite (@try_catch_bind_throw _ _ _ _ _ _ _ _ _ Es). cbn.
    split; [exact Ss|]. right. split; [reflexivity|]. split; [exact Ps|].
    intros R. specialize (Rs R). discriminate.
Qed.

End File_updates.

(** X19.  PUT /api/files/:id, for a body without the keys [id] and
    [createdAt].  The answer is 200 or 500, and a 500 changes nothing.  On
    200 every row with this id, and no other row, takes the values of the
    body; the [updatedAt] that is stored is the instant of the server,
    whatever the body carries, and the [processingStatus] of the body is
    stored as it is.  An id without a record is not an error. *)
Theorem put_file_outcome (X : Type) (env : Env X) (w : World X)
    (fileId : Z) (body : FilePatch) :
  let now := fst (clock env (outside w)) in
  let r := fst (put_file env fileId body w) in
  let w' := snd (put_file env fileId body w) in
  let ok := Ok {| ans_status := 200;
                  ans_body := One_file (file_row w' fileId) |} in
  started w' = started w
  /\ folders (db w') = folders (db w)
  /\ aiCommands (db w') = aiCommands (db w)
  /\ (r = ok \/ r = Ok (failure "Failed to update file") /\ db w' = db w)
  /\ (reliable env -> r = ok)
  /\ (r = ok ->
      Forall2 (fun old new =>
                 new = if File.id old =? fileId
                       then apply_file_patch body now old else old)
        (files (db w)) (files (db w'))
      /\ (forall row, In row (files (db w')) -> File.id row = fileId ->
          File.updatedAt row = now
          /\ forall s, p_processingStatus body = Some s ->
                       File.processingStatus row = s)
      /\ (file_row w fileId = None ->
          db w' = db w /\ file_row w' fileId = None)).
Proof.
  cbv zeta.
  pose proof (file_update_outcome env fileId body "Error updating file:"
                "Failed to update file" w) as H.
  cbv zeta in H. fold (put_file env fileId body) in H.
  destruct H as [St [[R D]|[R [D NR]]]].
  - split; [exact St|]. rewrite D.
    split; [destruct (db w); reflexivity|].
    split; [destruct (db w); reflexivity|].
    split; [left; exact R|]. split; [intros _; exact R|].
    intros _.
    assert (F : files
                  (with_files
                     (map (fun f => if File.id f =? fileId
                                    then apply_file_patch body
                                           (fst (clock env (outside w))) f
                                    else f) (files (db w))) (db w))
                = map (fun f => if File.id f =? fileId
                                then apply_file_patch body
                                       (fst (clock env (outside w))) f
                                else f) (files (db w))).
    { destruct (db w); reflexivity. }
    split; [|split].
    + rewrite F. apply Forall2_map_if.
    + intros row I Hid. rewrite F in I. apply in_map_iff in I.
      destruct I as [old [E I]].
      destruct (File.id old =? fileId) eqn:Q.
      * subst row. cbn. split; [reflexivity|].
        intros s Hs. rewrite Hs. reflexivity.
      * subst row. apply Z.eqb_neq in Q. contradiction.
    + intros N. unfold file_row in N.
      pose proof (hd_error_filter_none _ _ N) as N'.
      assert (E : with_files
                    (map (fun f => if File.id f =? fileId
                                   then apply_file_patch body
                                          (fst (clock env (outside w))) f
                                   else f) (files (db w))) (db w) = db w).
      { rewrite (map_if_none _ _ _ N'). apply with_files_same. }
      split; [exact E|]. unfold file_row. rewrite D, E. exact N.
  - split; [exact St|]. rewrite D.
    split; [reflexivity|]. split; [reflexivity|].
    split; [right; split; [exact R | reflexivity]|].
    split; [intros Rel; contradiction|].
    intros E. rewrite R in E. discriminate E.
Qed.

(** X20.  PUT /api/files/:id/move answers 200 or 500, and a 500 changes
    nothing.  On 200 it has changed two columns of the rows with this id,
    [folderId] and [updatedAt], and nothing else in the database; a folder
    id that is absent, null or 0 moves the file to the root.  With a
    database that answers every statement, a move to the root or to a
    folder that exists is answered 200, whoever owns the folder. *)
Theorem move_changes_folder_only (X : Type) (env : Env X) (w : World X)
    (fileId : Z) (folderId : option Z) :
  let now := fst (clock env (outside w)) in
  let r := fst (put_file_move env fileId folderId w) in
  let w' := snd (put_file_move env fileId folderId w) in
  let ok := Ok {| ans_status := 200;
                  ans_body := One_file (file_row w' fileId) |} in
  started w' = started w
  /\ folders (db w') = folders (db w)
  /\ aiCommands (db w') = aiCommands (db w)
  /\ (r = ok \/ r = Ok (failure "Failed to move file") /\ db w' = db w)
  /\ (reliable env ->
      (forall p, or_null folderId = Some p -> folder_row w p <> None) ->
      r = ok)
  /\ (r = ok ->
      Forall2 (fun old new =>
                 new = if File.id old =? fileId
                       then File.mk (File.id old) (File.userId old)
                              (if truthy_id folderId then folderId else None)
                              (File.name old) (File.originalName old)
                              (File.size old) (File.mimeType old)
                              (File.filePath old) (File.ocrText old)
                              (File.aiSummary old) (File.tags old)
                              (File.metadata old)
                              (File.processingStatus old)
                              (File.createdAt old) now
                       else old)
        (files (db w)) (files (db w'))).
Proof.
  cbv zeta.
  pose proof (file_update_outcome env fileId
                (patch_folderId (or_null folderId)) "Error moving file:"
                "Failed to move file" w) as H.
  cbv zeta in H. fold (put_file_move env fileId folderId) in H.
  destruct H as [St [[R D]|[R [D NR]]]].
  - split; [exact St|]. rewrite D.
    split; [destruct (db w); reflexivity|].
    split; [destruct (db w); reflexivity|].
    split; [left; exact R|]. split; [intros _ _; exact R|].
    intros _.
    replace (files (with_files _ (db w)))
      with (map (fun f => if File.id f =? fileId
                          then apply_file_patch
                                 (patch_folderId (or_null folderId))
                                 (fst (clock env (outside w))) f
                          else f) (files (db w)))
      by (destruct (db w); reflexivity).
    apply (Forall2_map_if (fun f => File.id f =? fileId)).
  - split; [exact St|]. rewrite D.
    split; [reflexivity|]. split; [reflexivity|].
    split; [right; split; [exact R | reflexivity]|].
    split; [intros Rel _; contradiction|].
    intros E. rewrite R in E. discriminate E.
Qed.

Section File_removal.

Variable X : Type.
Variable env : Env X.
Variable more : Env2 X.

Local Open Scope async_scope.

(** What DELETE /api/files/:id does once the record is read. *)
Lemma delete_file_steps fileId (f : File.t) (w1 : World X) :
  let m := present <- ask (fun x =>
                        let (b, x') :=
                          fs_existsSync more (File.filePath f) x in
                        (Ok b, x')) ;;
           (if present : bool
            then ask (fs_unlinkSync more (File.filePath f))
            else ret tt) ;;
           deleteFile env fileId in
  let gone := with_files
                (filter (fun g => negb (File.id g =? fileId))
                   (files (db w1))) (db w1) in
  silent w1 (snd (m w1))
  /\ match fst (m w1) with
     | Ok _ => db (snd (m w1)) = gone
     | Throw _ => db (snd (m w1)) = db w1
     end
  /\ (reliable env ->
      (forall x,
         fst (fs_existsSync more (File.filePath f) x) = false
         \/ fst (fs_unlinkSync more (File.filePath f)
                   (snd (fs_existsSync more (File.filePath f) x))) = Ok tt) ->
      is_ok (fst (m w1)) = true)
  /\ ((forall x, fst (fs_existsSync more (File.filePath f) x) = true) ->
      (forall x, is_ok (fst (fs_unlinkSync more (File.filePath f) x))
                 = false) ->
      is_ok (fst (m w1)) = false).
Proof.
  cbv zeta.
  match goal with |- context [fst (?m w1)] => remember (m w1) as res eqn:E end.
  unfold bind at 1, ask at 1 in E.
  pose proof (fun H : forall x,
                fst (fs_existsSync more (File.filePath f) x) = false
                \/ fst (fs_unlinkSync more (File.filePath f)
                          (snd (fs_existsSync more (File.filePath f) x)))
                   = Ok tt => H (outside w1)) as Fine.
  pose proof (fun H : forall x,
                fst (fs_existsSync more (File.filePath f) x) = true =>
                H (outside w1)) as There.
  destruct (fs_existsSync more (File.filePath f) (outside w1))
    as [present x1] eqn:Ex. cbn [fst snd] in *.
  destruct present.
  - unfold bind at 1, ask at 1 in E. cbn [outside with_outside] in E.
    pose proof (fun H : forall x,
                  is_ok (fst (fs_unlinkSync more (File.filePath f) x))
                  = false => H x1) as Stuck.
    destruct (fs_unlinkSync more (File.filePath f) x1) as [[[]|e] x2] eqn:Un;
      cbn [fst snd] in *.
    + destruct (deleteFile_run env fileId
                  (with_outside x2 (with_outside x1 w1)))
        as [rd [w2 [Ed [Rd [[Td Sd] Pd]]]]].
      rewrite Ed in E. subst res. cbn [fst snd].
      split; [split; assumption|].
      split; [destruct rd; exact Pd|].
      split; [intros R _; exact (Rd R)|].
      intros _ H. specialize (Stuck H). discriminate.
    + subst res. cbn. split; [split; reflexivity|]. split; [reflexivity|].
      split; [|reflexivity].
      intros _ H. destruct (Fine H); discriminate.
  - unfold bind at 1, ret at 1 in E.
    destruct (deleteFile_run env fileId (with_outside x1 w1))
      as [rd [w2 [Ed [Rd [[Td Sd] Pd]]]]].
    rewrite Ed in E. subst res. cbn [fst snd].
    split; [split; assumption|].
    split; [destruct rd; exact Pd|].
    split; [intros R _; exact (Rd R)|].
    intros H _. specialize (There H). discriminate.
Qed.

Lemma delete_file_cases fileId (w : World X) :
  let r := fst (delete_file env more fileId w) in
  let w' := snd (delete_file env more fileId w) in
  let done := Ok {| ans_status := 200; ans_body := Plain Json_success |} in
  started w' = started w
  /\ (r = done
      /\ db w' = with_files
                   (filter (fun g => negb (File.id g =? fileId))
                      (files (db w))) (db w)
      \/ r = Ok (failure "Failed to delete file") /\ db w' = db w)
  /\ (reliable env ->
      (forall p x,
         fst (fs_existsSync more p x) = false
         \/ fst (fs_unlinkSync more p (snd (fs_existsSync more p x)))
            = Ok tt) ->
      r = done)
  /\ (forall f, file_row w fileId = Some f ->
      (forall x, fst (fs_existsSync more (File.filePath f) x) = true) ->
      (forall x, is_ok (fst (fs_unlinkSync more (File.filePath f) x))
                 = false) ->
      r = Ok (failure "Failed to delete file")).
Proof.
  cbv zeta. unfold delete_file.
  destruct (getFileById_run env fileId w)
    as [rs [w1 [Es [Rs [[Ts Ss] [Ds Ps]]]]]].
  destruct rs as [[f|]|e].
  - pose proof (delete_file_steps fileId f w1) as H. cbv zeta in H.
    match type of H with
    | context [fst (?m w1)] => destruct (m w1) as [[[]|e] w2] eqn:Em
    end; cbn [fst snd] in H; destruct H as [[T1 S1] [D1 [Ok1 Ko1]]].
    + rewrite (@try_catch_bind_ok _ _ _ _ _ _ _ _ _ Es).
      rewrite (@try_catch_bind_ok _ _ _ _ _ _ _ _ _ Em). cbn.
      split; [congruence|]. split.
      * left. split; [reflexivity|]. rewrite D1, Ds. reflexivity.
      * split; [reflexivity|]. intros g Hg A B.
        rewrite <- (Ps _ eq_refl) in Hg. inversion Hg; subst g.
        specialize (Ko1 A B). discriminate.
    + rewrite (@try_catch_bind_ok _ _ _ _ _ _ _ _ _ Es).
      rewrite (@try_catch_bind_throw _ _ _ _ _ _ _ _ _ Em). cbn.
      split; [congruence|]. split.
      * right. split; [reflexivity|]. congruence.
      * split; [|reflexivity]. intros R H.
        assert (O : false = true); [|discriminate O].
        apply Ok1; [exact R|]. intros x. apply H.
  - rewrite (@try_catch_bind_ok _ _ _ _ _ _ _ _ _ Es). cbn.
    split; [exact Ss|]. split.
    + left. split; [reflexivity|]. rewrite Ds.
      pose proof (Ps _ eq_refl) as N. symmetry in N. unfold file_row in N.
      pose proof (hd_error_filter_none _ _ N) as N'.
      rewrite filter_all; [symmetry; apply with_files_same|].
      intros g I. rewrite (N' g I). reflexivity.
    + split; [reflexivity|]. intros f Hf.
      rewrite <- (Ps _ eq_refl) in Hf. discriminate Hf.
  - rewrite (@try_catch_bind_throw _ _ _ _ _ _ _ _ _ Es). cbn.
    split; [exact Ss|]. split.
    + right. split; [reflexivity | exact Ds].
    + split; [|reflexivity]. intros R. specialize (Rs R). discriminate.
Qed.

Lemma delete_file_missing fileId (w : World X) :
  reliable env ->
  file_row w fileId = None ->
  fst (delete_file env more fileId w)
  = Ok {| ans_status := 200; ans_body := Plain Json_success |}.
Proof.
  intros Rel N. unfold delete_file.
  destruct (getFileById_run env fileId w) as [rs [w1 [Es [Rs [_ [_ Ps]]]]]].
  specialize (Rs Rel). destruct rs as [v|e]; [|discriminate].
  rewrite (@try_catch_bind_ok _ _ _ _ _ _ _ _ _ Es).
  rewrite (Ps v eq_refl), N. reflexivity.
Qed.

End File_removal.

(** X21.  DELETE /api/files/:id answers 200 or 500.  A 500 changes no
    table.  After a 200 no record has this id, the other records are as
    they were, and with a database that answers GET /api/files/:id then
    answers 404.  The request succeeds whenever the database answers and
    the stored bytes are absent or can be removed; with a database that
    answers, an id without a record is answered 200 whatever the file
    system does. *)
Theorem delete_file_outcome (X : Type) (env : Env X) (more : Env2 X)
    (w : World X) (fileId : Z) :
  let r := fst (delete_file env more fileId w) in
  let w' := snd (delete_file env more fileId w) in
  let done := Ok {| ans_status := 200; ans_body := Plain Json_success |} in
  started w' = started w
  /\ folders (db w') = folders (db w)
  /\ aiCommands (db w') = aiCommands (db w)
  /\ (r = done \/ r = Ok (failure "Failed to delete file") /\ db w' = db w)
  /\ (r = done ->
      files (db w')
      = filter (fun g => negb (File.id g =? fileId)) (files (db w))
      /\ file_row w' fileId = None
      /\ (reliable env ->
          fst (get_file env fileId w')
          = Ok {| ans_status := 404;
                  ans_body := Plain (Json_message "File not found") |}))
  /\ (reliable env ->
      (forall p x,
         fst (fs_existsSync more p x) = false
         \/ fst (fs_unlinkSync more p (snd (fs_existsSync more p x)))
            = Ok tt) ->
      r = done)
  /\ (reliable env -> file_row w fileId = None -> r = done).
Proof.
  cbv zeta.
  pose proof (@delete_file_missing X env more fileId w) as Missing.
  destruct (delete_file_cases env more fileId w)
    as [St [[[R D]|[R D]] [Fine _]]]; cbv zeta in *.
  - split; [exact St|]. rewrite D.
    split; [destruct (db w); reflexivity|].
    split; [destruct (db w); reflexivity|].
    split; [left; exact R|]. split; [|split; [exact Fine | exact Missing]].
    intros _.
    assert (F : files
                  (with_files
                     (filter (fun g => negb (File.id g =? fileId))
                        (files (db w))) (db w))
                = filter (fun g => negb (File.id g =? fileId))
                    (files (db w))).
    { destruct (db w); reflexivity. }
    assert (N : file_row (snd (delete_file env more fileId w)) fileId
                = None).
    { unfold file_row. rewrite D, F.
      rewrite (filter_filter_negb (fun g => File.id g =? fileId)).
      reflexivity. }
    split; [exact F|]. split; [exact N|].
    intros Rel. unfold get_file.
    destruct (getFileById_run env fileId
                (snd (delete_file env more fileId w)))
      as [rs [w1 [Es [Rs [_ [_ Ps]]]]]].
    specialize (Rs Rel). destruct rs as [v|e]; [|discriminate].
    rewrite (@try_catch_bind_ok _ _ _ _ _ _ _ _ _ Es).
    rewrite (Ps v eq_refl), N. reflexivity.
  - split; [exact St|]. rewrite D.
    split; [reflexivity|]. split; [reflexivity|].
    split; [right; split; [exact R | reflexivity]|].
    split; [|split; [exact Fine | exact Missing]].
    intros E. rewrite R in E. discriminate E.
Qed.

(** X22.  When the bytes of a file are on disk and cannot be removed,
    DELETE /api/files/:id answers 500 and the record stays. *)
Theorem delete_file_keeps_record_on_unlink_failure (X : Type)
    (env : Env X) (more : Env2 X) (w : World X) (fileId : Z) (f : File.t) :
  file_row w fileId = Some f ->
  (forall x, fst (fs_existsSync more (File.filePath f) x) = true) ->
  (forall x, is_ok (fst (fs_unlinkSync more (File.filePath f) x)) = false) ->
  let r := fst (delete_file env more fileId w) in
  let w' := snd (delete_file env more fileId w) in
  r = Ok (failure "Failed to delete file")
  /\ db w' = db w
  /\ file_row w' fileId = Some f.
Proof.
  intros Row There Stuck. cbv zeta.
  destruct (delete_file_cases env more fileId w)
    as [_ [Cases [_ Ko]]]; cbv zeta in *.
  specialize (Ko f Row There Stuck).
  destruct Cases as [[R _]|[_ D]].
  - rewrite Ko in R. discriminate R.
  - split; [exact Ko|]. split; [exact D|].
    unfold file_row. rewrite D. exact Row.
Qed.

(** ** Lists and the export *)

(** X23.  GET /api/ai/commands changes nothing and, when it succeeds, lists
    the commands of the user who asks, all of them and no command of anyone
    else, newest first. *)
Theorem get_ai_commands_lists_own_newest_first (X : Type) (env : Env X)
    (w : World X) (userId : string) :
  let r := fst (get_ai_commands env userId w) in
  let w' := snd (get_ai_commands env userId w) in
  db w' = db w /\ started w' = started w
  /\ (reliable env ->
      exists l, r = Ok {| ans_status := 200; ans_body := Command_list l |})
  /\ forall l,
       r = Ok {| ans_status := 200; ans_body := Command_list l |} ->
       (forall c, In c l <->
                  In c (aiCommands (db w)) /\ AiCommand.userId c = userId)
       /\ Sorted (fun a b =>
                    (AiCommand.createdAt b <=? AiCommand.createdAt a) = true)
            l.
Proof.
  cbv zeta. unfold get_ai_commands.
  destruct (getAiCommandsByUserId_run env userId w)
    as [rs [w1 [Es [Rs [[_ Ss] [Ds Ps]]]]]].
  destruct rs as [l0|e].
  - rewrite (@try_catch_bind_ok _ _ _ _ _ _ _ _ _ Es). cbn.
    split; [exact Ds|]. split; [exact Ss|].
    split; [intros _; eexists; reflexivity|].
    intros l H. inversion H; subst l; clear H.
    rewrite (Ps l0 eq_refl). split.
    + intros c. rewrite sort_by_In, filter_In, String.eqb_eq. reflexivity.
    + apply sort_by_sorted. intros a b.
      destruct (Z.leb_spec (AiCommand.createdAt b) (AiCommand.createdAt a));
        [left; reflexivity | right; apply Z.leb_le; lia].
  - rewrite (@try_catch_bind_throw _ _ _ _ _ _ _ _ _ Es). cbn.
    split; [exact Ds|]. split; [exact Ss|]. split.
    + intros R. specialize (Rs R). discriminate.
    + intros l H. discriminate.
Qed.

(** X24.  GET /api/export changes nothing.  What it sends holds the folders
    of the user who asks and the files of that user, each file with every
    column but [filePath], which is never sent; nothing of another user is
    in it. *)
Theorem export_holds_own_data_without_paths (X : Type) (env : Env X)
    (w : World X) (userId : string) :
  let r := fst (get_export env userId w) in
  let w' := snd (get_export env userId w) in
  db w' = db w /\ started w' = started w
  /\ (reliable env -> exists a, r = Ok a /\ ans_status a = 200)
  /\ forall fl fi d,
       r = Ok {| ans_status := 200; ans_body := Export_data fl fi d |} ->
       (forall f, In f fl <->
                  In f (folders (db w)) /\ Folder.userId f = userId)
       /\ (forall e, In e fi <->
                     exists f, In f (files (db w))
                               /\ File.userId f = userId
                               /\ e = without_filePath f)
       /\ Forall (fun e => Exported.filePath e = None) fi.
Proof.
  cbv zeta. unfold get_export.
  destruct (getFilesByUserId_run env userId w)
    as [rs [w1 [Es [Rs [[_ Ss] [Ds Ps]]]]]].
  destruct rs as [l0|e].
  - rewrite (@try_catch_bind_ok _ _ _ _ _ _ _ _ _ Es).
    destruct (getFoldersByUserId_run env userId w1)
      as [rt [w2 [Et [Rt [[_ St] [Dt Pt]]]]]].
    destruct rt as [l1|e].
    + rewrite (@try_catch_bind_ok _ _ _ _ _ _ _ _ _ Et).
      unfold try_catch, bind, new_Date, ask, ret.
      destruct (clock env (outside w2)) as [t x3]. cbn.
      split; [congruence|]. split; [congruence|].
      split; [intros _; eexists; split; reflexivity|].
      intros fl fi d H. inversion H; subst fl fi d; clear H.
      rewrite (Ps l0 eq_refl), (Pt l1 eq_refl), Ds.
      split; [|split].
      * intros f. rewrite sort_by_In, filter_In, String.eqb_eq.
        reflexivity.
      * intros e. rewrite in_map_iff. split.
        -- intros [f [E I]]. exists f.
           apply sort_by_In, filter_In in I. destruct I as [I Q].
           apply String.eqb_eq in Q. auto.
        -- intros [f [I [Q E]]]. exists f. split; [auto|].
           apply sort_by_In, filter_In. split; [exact I|].
           apply String.eqb_eq. exact Q.
      * apply Forall_forall. intros e I. apply in_map_iff in I.
        destruct I as [f [E _]]. subst e. reflexivity.
    + rewrite (@try_catch_bind_throw _ _ _ _ _ _ _ _ _ Et). cbn.
      split; [congruence|]. split; [congruence|]. split.
      * intros R. specialize (Rt R). discriminate.
      * intros fl fi d H. discriminate.
  - rewrite (@try_catch_bind_throw _ _ _ _ _ _ _ _ _ Es). cbn.
    split; [exact Ds|]. split; [exact Ss|]. split.
    + intros R. specialize (Rs R). discriminate.
    + intros fl fi d H. discriminate.
Qed.

(** ** Onboarding *)

(** X25.  The loop of POST /api/onboarding stores the generated folders in
    order, one row each with the next ids of the sequence, and stores
    [name], [parentId] and [path] as generated: a [parentId] is not mapped
    to the id that the parent received.  When a statement fails the loop
    stops, and the folders stored before it stay. *)
Theorem onboarding_folders_outcome (X : Type) (env : Env X)
    (userId : string) (folderStructure : list FolderStructure) :
  forall w : World X,
  exists created,
    let r := fst (create_folders env userId folderStructure w) in
    let w' := snd (create_folders env userId folderStructure w) in
    let n := List.length created in
    started w' = started w
    /\ db w' = with_folders_id_seq (folders_id_seq (db w) + Z.of_nat n)
                 (with_folders (folders (db w) ++ created) (db w))
    /\ stored_as userId (folders_id_seq (db w)) (firstn n folderStructure)
         created
    /\ match r with
       | Ok _ => n = List.length folderStructure
       | Throw _ => (n < List.length folderStructure)%nat /\ ~ reliable env
       end.
Proof.
  induction folderStructure as [|folder rest IH]; intros w.
  - exists []. cbn. rewrite !app_nil_r, Z.add_0_r.
    split; [reflexivity|]. split; [destruct (db w); reflexivity|].
    split; [exact I | reflexivity].
  - cbn [create_folders].
    destruct (createFolder_run env
                {| if_userId := userId;
                   if_name := fs_name folder;
                   if_parentId := fs_parentId folder;
                   if_path := fs_path folder |} w)
      as [rc [w1 [Ec [Rc [[Tc Sc] Dc]]]]].
    destruct rc as [row|e].
    + rewrite (@bind_ok _ _ _ _ _ _ _ _ Ec).
      destruct Dc as [now [Hrow Dc]]. cbn in Hrow.
      destruct (IH w1) as [created [St [D [Mi O]]]].
      cbv zeta in *. exists (row :: created).
      split; [|split; [|split]].
      * rewrite St. exact Sc.
      * rewrite D, Dc. cbn [folders folders_id_seq with_folders
                              with_folders_id_seq files aiCommands
                              files_id_seq ai_commands_id_seq].
        rewrite <- app_assoc. cbn [List.length app].
        replace (folders_id_seq (db w) + 1 + Z.of_nat (List.length created))
          with (folders_id_seq (db w)
                + Z.of_nat (S (List.length created))) by lia.
        reflexivity.
      * cbn [List.length firstn stored_as]. split.
        -- exists now. exact Hrow.
        -- rewrite Dc in Mi. exact Mi.
      * destruct (fst (create_folders env userId rest w1)) as [l|e].
        -- cbn. rewrite O. reflexivity.
        -- destruct O as [O1 O2]. split; [cbn; lia | exact O2].
    + rewrite (@bind_throw _ _ _ _ _ _ _ _ Ec).
      exists []. cbn. rewrite !app_nil_r, Z.add_0_r.
      split; [exact Sc|]. split; [rewrite Dc; destruct (db w); reflexivity|].
      split; [exact I|]. split; [lia|].
      intros R. specialize (Rc R). discriminate.
Qed.

(** X26.  generateFolderStructure sends one request, with the document
    types empty and the methods "by-client" and "individual" when they are
    not given.  It returns the member [folders] of the parsed reply, the
    empty list when the reply has no such member, and whatever fails - the
    request or the parse - it logs once and throws the same error
    "Failed to generate folder structure".  The database is not touched. *)
Theorem generateFolderStructure_outcome (X : Type) (env : Env X)
    (more : Env2 X) (w : World X)
    (industry businessDescription userPrompt : string)
    (documentTypes : option (list string))
    (organizationMethod collaborationStyle : option string) :
  let m := generateFolderStructure more industry businessDescription
             userPrompt documentTypes organizationMethod collaborationStyle in
  let prompt :=
    {| fp_industry := industry;
       fp_businessDescription := businessDescription;
       fp_userPrompt := userPrompt;
       fp_documentTypes :=
         match documentTypes with Some l => l | None => [] end;
       fp_organizationMethod :=
         match organizationMethod with Some s => s | None => "by-client" end;
       fp_collaborationStyle :=
         match collaborationStyle with
         | Some s => s
         | None => "individual"
         end |} in
  let reply := chat_folder_structure more prompt (outside w) in
  let parsed := match fst reply with
                | Ok content =>
                    match JSON_parse_folders more content with
                    | Ok folders => Some folders
                    | Throw _ => None
                    end
                | Throw _ => None
                end in
  db (snd (m w)) = db w
  /\ started (snd (m w)) = started w
  /\ outside (snd (m w)) = snd reply
  /\ fst (m w) = match parsed with
                 | Some (Some l) => Ok l
                 | Some None => Ok []
                 | None => Throw "Failed to generate folder structure"
                 end
  /\ new_events w (snd (m w))
     = match parsed with
       | Some _ => []
       | None => [Console_error "Error generating folder structure:"]
       end.
Proof.
  cbv zeta. unfold generateFolderStructure, try_catch, bind, ask, lift, ret,
    throw, console_error, emit, new_events.
  unfold set_or_keep.
  destruct (chat_folder_structure more _ (outside w)) as [[content|e] x1];
    cbn [fst snd].
  - destruct (JSON_parse_folders more content) as [[l|]|e]; cbn;
      rewrite ?skipn_app, ?skipn_all, ?Nat.sub_diag; cbn;
      repeat split; reflexivity.
  - cbn. rewrite ?skipn_app, ?skipn_all, ?Nat.sub_diag. cbn.
    repeat split; reflexivity.
Qed.

(** ** An invariant of the database *)

Lemma ids_wf_app (ids : list Z) (seq : Z) :
  ids_wf ids seq -> ids_wf (ids ++ [seq + 1]) (seq + 1).
Proof.
  intros [P [N B]]. split; [lia|]. split.
  - apply NoDup_app; [exact N | repeat constructor; intros [] |].
    intros i I [E|[]]. subst i.
    rewrite Forall_forall in B. specialize (B _ I). lia.
  - apply Forall_app. split.
    + eapply Forall_impl; [|exact B]. cbv beta. intros i H. lia.
    + constructor; [lia | constructor].
Qed.

Lemma map_id_map_if {A} (id : A -> Z) (p : A -> bool) (g : A -> A)
    (l : list A) :
  (forall x, id (g x) = id x) ->
  map id (map (fun x => if p x then g x else x) l) = map id l.
Proof.
  intros H. rewrite map_map. apply map_ext. intros x.
  destruct (p x); [apply H | reflexivity].
Qed.

Lemma ids_wf_filter {A} (id : A -> Z) (p : A -> bool) (l : list A)
    (seq : Z) :
  ids_wf (map id l) seq -> ids_wf (map id (filter p l)) seq.
Proof.
  intros [P [N B]]. split; [exact P|]. split.
  - clear B. induction l as [|x l IH]; simpl in *; [constructor|].
    inversion N as [|? ? Nx Nl]; subst.
    destruct (p x); [|apply IH; exact Nl].
    simpl. constructor; [|apply IH; exact Nl].
    intros I. apply Nx. apply in_map_iff in I. destruct I as [y [E I]].
    apply in_map_iff. exists y. split; [exact E|].
    apply filter_In in I. tauto.
  - rewrite Forall_forall in *. intros i I. apply B.
    apply in_map_iff in I. destruct I as [y [E I]].
    apply in_map_iff. exists y. split; [exact E|].
    apply filter_In in I. tauto.
Qed.

Lemma db_wf_createFolder (d : Db) (row : Folder.t) :
  Folder.id row = folders_id_seq d + 1 ->
  db_wf d ->
  db_wf (with_folders_id_seq (folders_id_seq d + 1)
           (with_folders (folders d ++ [row]) d)).
Proof.
  intros E [F [G C]]. split; [|split; [exact G | exact C]].
  cbn [folders folders_id_seq with_folders with_folders_id_seq].
  rewrite map_app. cbn [map]. rewrite E. apply ids_wf_app. exact F.
Qed.

Lemma db_wf_createFile (d : Db) (row : File.t) :
  File.id row = files_id_seq d + 1 ->
  db_wf d ->
  db_wf (with_files_id_seq (files_id_seq d + 1)
           (with_files (files d ++ [row]) d)).
Proof.
  intros E [F [G C]]. split; [exact F|]. split; [|exact C].
  cbn [files files_id_seq with_files with_files_id_seq].
  rewrite map_app. cbn [map]. rewrite E. apply ids_wf_app. exact G.
Qed.

Lemma db_wf_createAiCommand (d : Db) (row : AiCommand.t) :
  AiCommand.id row = ai_commands_id_seq d + 1 ->
  db_wf d ->
  db_wf (with_ai_commands_id_seq (ai_commands_id_seq d + 1)
           (with_aiCommands (aiCommands d ++ [row]) d)).
Proof.
  intros E [F [G C]]. split; [exact F|]. split; [exact G|].
  cbn [aiCommands ai_commands_id_seq with_aiCommands
       with_ai_commands_id_seq].
  rewrite map_app. cbn [map]. rewrite E. apply ids_wf_app. exact C.
Qed.

Lemma db_wf_update_folders (d : Db) (p : Folder.t -> bool)
    (g : Folder.t -> Folder.t) :
  (forall f, Folder.id (g f) = Folder.id f) ->
  db_wf d ->
  db_wf (with_folders (map (fun f => if p f then g f else f) (folders d)) d).
Proof.
  intros H [F [G C]]. split; [|split; [exact G | exact C]].
  cbn [folders folders_id_seq with_folders].
  rewrite (map_id_map_if Folder.id p g _ H). exact F.
Qed.

Lemma db_wf_update_files (d : Db) (p : File.t -> bool)
    (g : File.t -> File.t) :
  (forall f, File.id (g f) = File.id f) ->
  db_wf d ->
  db_wf (with_files (map (fun f => if p f then g f else f) (files d)) d).
Proof.
  intros H [F [G C]]. split; [exact F|]. split; [|exact C].
  cbn [files files_id_seq with_files].
  rewrite (map_id_map_if File.id p g _ H). exact G.
Qed.

Lemma db_wf_update_commands (d : Db) (p : AiCommand.t -> bool)
    (g : AiCommand.t -> AiCommand.t) :
  (forall c, AiCommand.id (g c) = AiCommand.id c) ->
  db_wf d ->
  db_wf (with_aiCommands
           (map (fun c => if p c then g c else c) (aiCommands d)) d).
Proof.
  intros H [F [G C]]. split; [exact F|]. split; [exact G|].
  cbn [aiCommands ai_commands_id_seq with_aiCommands].
  rewrite (map_id_map_if AiCommand.id p g _ H). exact C.
Qed.

Lemma db_wf_delete_folders (d : Db) (p : Folder.t -> bool) :
  db_wf d -> db_wf (with_folders (filter p (folders d)) d).
Proof.
  intros [F [G C]]. split; [|split; [exact G | exact C]].
  cbn [folders folders_id_seq with_folders]. apply ids_wf_filter. exact F.
Qed.

Lemma db_wf_delete_files (d : Db) (p : File.t -> bool) :
  db_wf d -> db_wf (with_files (filter p (files d)) d).
Proof.
  intros [F [G C]]. split; [exact F|]. split; [|exact C].
  cbn [files files_id_seq with_files]. apply ids_wf_filter. exact G.
Qed.

Section Invariant.

Variable X : Type.
Variable env : Env X.
Variable more : Env2 X.

Local Open Scope async_scope.

Lemma keeps_ret {A} (P : Db -> Prop) (a : A) : keeps P (@ret X A a).
Proof. intros w H. exact H. Qed.

Lemma keeps_throw {A} (P : Db -> Prop) (e : string) :
  keeps P (@throw X A e).
Proof. intros w H. exact H. Qed.

Lemma keeps_lift {A} (P : Db -> Prop) (r : Res A) : keeps P (@lift X A r).
Proof. intros w H. exact H. Qed.

Lemma keeps_gets {A} (P : Db -> Prop) (f : Db -> A) :
  keeps P (@gets X A f).
Proof. intros w H. exact H. Qed.

Lemma keeps_emit (P : Db -> Prop) (e : event) : keeps P (@emit X e).
Proof. intros w H. exact H. Qed.

Lemma keeps_start (P : Db -> Prop) (t : task) : keeps P (@start X t).
Proof. intros w H. exact H. Qed.

Lemma keeps_ask {A} (P : Db -> Prop) (f : X -> Res A * X) :
  keeps P (ask f).
Proof. intros w H. unfold ask. destruct (f (outside w)). exact H. Qed.

Lemma keeps_modify (P : Db -> Prop) (f : Db -> Db) :
  (forall d, P d -> P (f d)) -> keeps P (@modify X f).
Proof. intros F w H. apply F. exact H. Qed.

Lemma keeps_bind {A B} (P : Db -> Prop) (m : M X A) (k : A -> M X B) :
  keeps P m -> (forall a, keeps P (k a)) -> keeps P (bind m k).
Proof.
  intros Hm Hk w H. unfold bind. specialize (Hm w H).
  destruct (m w) as [[a|e] w1]; [apply Hk|]; exact Hm.
Qed.

Lemma keeps_try_catch {A} (P : Db -> Prop) (m : M X A) h :
  keeps P m -> (forall e, keeps P (h e)) -> keeps P (try_catch m h).
Proof.
  intros Hm Hh w H. unfold try_catch. specialize (Hm w H).
  destruct (m w) as [[a|e] w1]; [|apply Hh]; exact Hm.
Qed.

Lemma keeps_traced {A} (P : Db -> Prop) (mk : Res A -> event) (m : M X A) :
  keeps P m -> keeps P (traced mk m).
Proof.
  intros Hm w H. unfold traced. specialize (Hm w H).
  destruct (m w) as [r w1]. exact Hm.
Qed.

Lemma keeps_set_worker (P : Db -> Prop) (b : bool) :
  keeps P (fun w' : World X => (Ok tt, with_worker b w')).
Proof. intros w H. exact H. Qed.

Ltac keeps_step :=
  match goal with
  | |- keeps _ (bind _ _) => apply keeps_bind; [|intros ?]
  | |- keeps _ (try_catch _ _) => apply keeps_try_catch; [|intros ?]
  | |- keeps _ (traced _ _) => apply keeps_traced
  | |- keeps _ (ret _) => apply keeps_ret
  | |- keeps _ (throw _) => apply keeps_throw
  | |- keeps _ (lift _) => apply keeps_lift
  | |- keeps _ (gets _) => apply keeps_gets
  | |- keeps _ (emit _) => apply keeps_emit
  | |- keeps _ (console_error _) => apply keeps_emit
  | |- keeps _ (console_log _) => apply keeps_emit
  | |- keeps _ (start _) => apply keeps_start
  | |- keeps _ (ask _) => apply keeps_ask
  | |- keeps _ (new_Date _) => apply keeps_ask
  | |- keeps _ (execute _) => apply keeps_ask
  | |- keeps _ (match ?x with _ => _ end) => destruct x
  end.

Ltac keeps_all := repeat keeps_step.

(** *** storage.ts *)

Lemma safe_createFolder folder : keeps db_wf (createFolder env folder).
Proof.
  intros w H.
  destruct (createFolder_run env folder w) as [r [w' [E [_ [_ D]]]]].
  rewrite E. cbn [snd]. destruct r as [row|e]; [|rewrite D; exact H].
  destruct D as [now [R D]]. rewrite D.
  apply db_wf_createFolder; [|exact H]. rewrite R. reflexivity.
Qed.

Lemma safe_createFile file : keeps db_wf (createFile env file).
Proof.
  intros w H.
  destruct (createFile_run env file w) as [r [w' [E [_ [_ D]]]]].
  rewrite E. cbn [snd]. destruct r as [row|e]; [|rewrite D; exact H].
  destruct D as [now [R D]]. rewrite D. apply db_wf_createFile; [|exact H].
  rewrite R. reflexivity.
Qed.

Lemma safe_createAiCommand command : keeps db_wf (createAiCommand env command).
Proof.
  intros w H.
  destruct (createAiCommand_run env command w) as [r [w' [E [_ [_ D]]]]].
  rewrite E. cbn [snd]. destruct r as [row|e]; [|rewrite D; exact H].
  destruct D as [now [R D]]. rewrite D.
  apply db_wf_createAiCommand; [|exact H]. rewrite R. reflexivity.
Qed.

Lemma safe_getFolderById id : keeps db_wf (getFolderById env id).
Proof. unfold getFolderById. keeps_all. Qed.

Lemma safe_getFoldersByUserId userId :
  keeps db_wf (getFoldersByUserId env userId).
Proof. unfold getFoldersByUserId. keeps_all. Qed.

Lemma safe_getFilesByFolderId id : keeps db_wf (getFilesByFolderId env id).
Proof. unfold getFilesByFolderId. keeps_all. Qed.

Lemma safe_getFileById id : keeps db_wf (getFileById env id).
Proof. unfold getFileById. keeps_all. Qed.

Lemma safe_updateFolder id u : keeps db_wf (updateFolder env id u).
Proof.
  unfold updateFolder. keeps_all. apply keeps_modify. intros d.
  apply db_wf_update_folders. intros f. reflexivity.
Qed.

Lemma safe_deleteFolder id : keeps db_wf (deleteFolder env id).
Proof.
  unfold deleteFolder. keeps_all. apply keeps_modify. intros d.
  apply db_wf_delete_folders.
Qed.

Lemma safe_updateFile id u : keeps db_wf (updateFile env id u).
Proof.
  unfold updateFile. keeps_all. apply keeps_modify. intros d.
  apply db_wf_update_files. intros f. reflexivity.
Qed.

Lemma safe_updateFile_with id p : keeps db_wf (updateFile_with env id p).
Proof.
  unfold updateFile_with. keeps_all. apply keeps_modify. intros d.
  apply db_wf_update_files. intros f. reflexivity.
Qed.

Lemma safe_deleteFile id : keeps db_wf (deleteFile env id).
Proof.
  unfold deleteFile. keeps_all. apply keeps_modify. intros d.
  apply db_wf_delete_files.
Qed.

Lemma safe_updateAiCommand id u : keeps db_wf (updateAiCommand env id u).
Proof.
  unfold updateAiCommand. keeps_all. apply keeps_modify. intros d.
  apply db_wf_update_commands. intros c. reflexivity.
Qed.

(** *** The services *)

Lemma safe_initialize : keeps db_wf (initialize env).
Proof.
  intros w H. unfold initialize. destruct (negb (worker w)); [|exact H].
  revert w H. change (keeps db_wf (ask (createWorker env) ;;
                            (fun w' => (Ok tt, with_worker true w')) ;;
                            ask (worker_loadLanguage env "eng") ;;
                            ask (worker_initialize env "eng"))).
  keeps_all. apply keeps_set_worker.
Qed.

Lemma safe_extractText filePath : keeps db_wf (extractText env filePath).
Proof. unfold extractText. keeps_all. apply safe_initialize. Qed.

Lemma safe_summarizeDocument text fileName :
  keeps db_wf (summarizeDocument env text fileName).
Proof. unfold summarizeDocument, chat. keeps_all. Qed.

Lemma safe_generateTags text fileName :
  keeps db_wf (generateTags env text fileName).
Proof. unfold generateTags, chat. keeps_all. Qed.

Lemma safe_processCommand commandId command userId :
  keeps db_wf (processCommand env commandId command userId).
Proof.
  unfold processCommand, chat. keeps_all; apply safe_updateAiCommand.
Qed.

Lemma safe_processFile file options :
  keeps db_wf (processFile env file options).
Proof.
  unfold processFile.
  keeps_all;
    first [ apply safe_extractText | apply safe_summarizeDocument
          | apply safe_generateTags | apply safe_updateFile ].
Qed.

(** *** routes.ts *)

Lemma safe_build_path name parentId :
  keeps db_wf (build_path env name parentId).
Proof. unfold build_path. keeps_all. apply safe_getFolderById. Qed.

Lemma safe_upload_each userId folderId options parts :
  forall acc, keeps db_wf (upload_each env userId folderId options parts acc).
Proof.
  induction parts as [|part rest IH]; intros acc; cbn [upload_each].
  - apply keeps_ret.
  - apply keeps_bind; [apply safe_createFile|]. intros row.
    apply keeps_bind; [apply keeps_start|]. intros _. apply IH.
Qed.

Lemma safe_create_folders userId folderStructure :
  keeps db_wf (create_folders env userId folderStructure).
Proof.
  induction folderStructure as [|folder rest IH]; cbn [create_folders].
  - apply keeps_ret.
  - apply keeps_bind; [apply safe_createFolder|]. intros _. exact IH.
Qed.

Lemma safe_serve (q : Request) (w : World X) :
  db_wf (db w) -> db_wf (db (serve env more q w)).
Proof.
  revert w. destruct q; cbn [serve].
  - change (keeps db_wf (post_folders env userId name parentId)).
    unfold post_folders. keeps_all;
      [apply safe_build_path | apply safe_createFolder].
  - change (keeps db_wf (put_folder env folderId name parentId)).
    unfold put_folder. keeps_all;
      [apply safe_build_path | apply safe_updateFolder].
  - change (keeps db_wf (delete_folder env userId folderId)).
    unfold delete_folder. keeps_all;
      first [ apply safe_getFilesByFolderId | apply safe_getFoldersByUserId
            | apply safe_deleteFolder ].
  - change (keeps db_wf (post_files_upload env userId parts body)).
    unfold post_files_upload. cbv zeta. keeps_all. apply safe_upload_each.
  - change (keeps db_wf (put_file env fileId body)).
    unfold put_file. keeps_all. apply safe_updateFile_with.
  - change (keeps db_wf (put_file_move env fileId folderId)).
    unfold put_file_move. keeps_all. apply safe_updateFile_with.
  - change (keeps db_wf (delete_file env more fileId)).
    unfold delete_file. keeps_all;
      first [ apply safe_getFileById | apply safe_deleteFile ].
  - change (keeps db_wf (post_ai_command env userId command)).
    unfold post_ai_command. keeps_all. apply safe_createAiCommand.
  - apply safe_create_folders.
  - destruct t; [apply safe_processFile | apply safe_processCommand].
Qed.

End Invariant.

(** X13.  Whatever requests are served, in whatever order, and whenever the
    started promises run: the ids of each table stay distinct, positive and
    no greater than the last value of the table's sequence.  No handler
    rewrites an id or hands one out twice (the bodies of PUT /api/files/:id
    are those without the key [id]). *)
Theorem ids_stay_distinct (X : Type) (env : Env X) (more : Env2 X)
    (qs : list Request) (w : World X) :
  db_wf (db w) -> db_wf (db (serve_all env more qs w)).
Proof.
  unfold serve_all. revert w.
  induction qs as [|q qs IH]; intros w H; cbn [fold_left]; [exact H|].
  apply IH. apply safe_serve. exact H.
Qed.

(* ================================================================= *)
(** * The further properties at work *)

Lemma requested_summary_never_empty_witness :
  generateSummary all_enabled = true
  /\ File.originalName lease <> ""
  /\ exists ocrText summary tags,
       persisted_outputs
         (new_events (uploaded online)
            (snd (processFile script_env lease all_enabled
                    (uploaded online))))
       = [(ocrText, Some summary, tags)]
       /\ summary <> "".
Proof.
  split; [reflexivity|]. split; [discriminate|].
  apply (@requested_summary_never_empty Script script_env lease all_enabled
           (uploaded online)); [reflexivity | discriminate].
Defined.

Lemma upload_without_flags_processes_nothing_witness :
  let body := {| up_folderId := None;
                 up_processOcr := None;
                 up_generateSummary := None;
                 up_autoTag := None |} in
  let t := ProcessFile
             (File.mk 1 "user-1" None "77c0" "notes.txt" 12 "text/plain"
                "uploads/77c0" None None None None (Some "processing") 0 0)
             {| processOcr := false; generateSummary := false;
                autoTag := false |} in
  let w' := snd (post_files_upload script_env "user-1" [notes_part] body
                   (fresh calm)) in
  let evs := new_events (uploaded online)
               (snd (run_task script_env t (uploaded online))) in
  In t (skipn (List.length (started (fresh calm))) (started w'))
  /\ collaborator_calls evs = []
  /\ filter is_chat evs = []
  /\ persisted_outputs evs = [(Some "", Some "", Some [])].
Proof.
  cbv zeta. split; [left; reflexivity|].
  apply (@upload_without_flags_processes_nothing Script script_env
           (fresh calm) "user-1" [notes_part] None).
  left. reflexivity.
Defined.

Lemma rename_of_missing_folder_witness :
  (forall f, In f (folders (db nested)) -> Folder.id f <> 7)
  /\ db (snd (put_folder steady_env 7 "C" None nested)) = db nested
  /\ fst (put_folder steady_env 7 "C" None nested)
     = Ok {| res_status := 200; res_body := Json_folder None |}.
Proof.
  assert (H : forall f, In f (folders (db nested)) -> Folder.id f <> 7).
  { intros f [E|[E|[]]]; rewrite <- E; discriminate. }
  split; [exact H|].
  destruct (@rename_of_missing_folder Script steady_env nested 7 "C" None H)
    as [D [_ R]].
  split; [exact D | exact (R steady_env_reliable)].
Defined.

Lemma delete_of_unreferenced_folder_witness :
  reliable steady_env
  /\ (forall file, In file (files (db nested)) ->
                   File.folderId file <> Some 2)
  /\ (forall sub, In sub (folders (db nested)) ->
                  Folder.userId sub = "user-1" ->
                  Folder.parentId sub <> Some 2)
  /\ fst (delete_folder steady_env "user-1" 2 nested)
     = Ok {| res_status := 200; res_body := Json_success |}
  /\ db (snd (delete_folder steady_env "user-1" 2 nested))
     = with_folders
         (filter (fun f => negb (Folder.id f =? 2)) (folders (db nested)))
         (db nested).
Proof.
  assert (F : forall file, In file (files (db nested)) ->
                           File.folderId file <> Some 2).
  { intros file []. }
  assert (G : forall sub, In sub (folders (db nested)) ->
                          Folder.userId sub = "user-1" ->
                          Folder.parentId sub <> Some 2).
  { intros sub [E|[E|[]]] _; rewrite <- E; discriminate. }
  split; [exact steady_env_reliable|]. split; [exact F|]. split; [exact G|].
  destruct (@delete_of_unreferenced_folder Script steady_env nested "user-1"
              2 steady_env_reliable F G) as [R [D _]].
  split; [exact R | exact D].
Defined.

Lemma empty_db_wf : db_wf empty_db.
Proof.
  unfold db_wf, ids_wf. cbn.
  repeat split; try apply Z.le_refl; constructor.
Defined.

Lemma ids_stay_distinct_witness :
  db_wf (db (fresh calm))
  /\ db_wf
       (db (serve_all steady_env script_more
              [ POST_folders "user-1" "A" None;
                POST_upload "user-1" [notes_part]
                  {| up_folderId := Some 1;
                     up_processOcr := None;
                     up_generateSummary := None;
                     up_autoTag := None |};
                Background (ProcessFile notes all_enabled);
                DELETE_file 1 ]
              (fresh calm))).
Proof.
  split; [exact empty_db_wf|].
  apply (@ids_stay_distinct Script steady_env script_more). exact empty_db_wf.
Defined.

Lemma created_folder_is_found_witness :
  reliable steady_env
  /\ folder_ids_bounded (db (fresh calm))
  /\ exists folder,
       fst (post_folders steady_env "user-1" "A" None (fresh calm))
       = Ok {| res_status := 200; res_body := Json_folder (Some folder) |}
       /\ fst (getFolderById steady_env (Folder.id folder)
                 (snd (post_folders steady_env "user-1" "A" None
                         (fresh calm))))
          = Ok (Some folder)
       /\ truthy_id (Some (Folder.id folder)) = true.
Proof.
  split; [exact steady_env_reliable|]. split; [exact empty_db_bounded|].
  apply (@created_folder_is_found Script steady_env (fresh calm) "user-1" "A"
           None steady_env_reliable empty_db_bounded).
Defined.

Lemma dangling_parent_is_stored_witness :
  5 <> 0
  /\ (forall f, In f (folders (db (fresh calm))) -> Folder.id f <> 5)
  /\ exists folder,
       fst (post_folders steady_env "user-1" "A" (Some 5) (fresh calm))
       = Ok {| res_status := 200; res_body := Json_folder (Some folder) |}
       /\ Folder.parentId folder = Some 5
       /\ Folder.path folder = "A".
Proof.
  assert (P : 5 <> 0) by discriminate.
  assert (H : forall f, In f (folders (db (fresh calm))) ->
                        Folder.id f <> 5).
  { intros f []. }
  split; [exact P|]. split; [exact H|].
  destruct (@dangling_parent_is_stored Script steady_env (fresh calm)
              "user-1" "A" 5 P H) as [Some_folder Stored].
  destruct (Some_folder steady_env_reliable) as [folder R].
  exists folder. split; [exact R|].
  destruct (Stored folder R) as [_ [Q1 Q2]]. split; [exact Q1 | exact Q2].
Defined.

Lemma delete_file_keeps_record_on_unlink_failure_witness :
  file_row (uploaded calm) 1 = Some lease
  /\ (forall x,
        fst (fs_existsSync read_only_more (File.filePath lease) x) = true)
  /\ (forall x,
        is_ok (fst (fs_unlinkSync read_only_more (File.filePath lease) x))
        = false)
  /\ fst (delete_file steady_env read_only_more 1 (uploaded calm))
     = Ok (failure "Failed to delete file")
  /\ file_row (snd (delete_file steady_env read_only_more 1 (uploaded calm)))
       1
     = Some lease.
Proof.
  split; [reflexivity|]. split; [intros x; reflexivity|].
  split; [intros x; reflexivity|].
  destruct (@delete_file_keeps_record_on_unlink_failure Script steady_env
              read_only_more (uploaded calm) 1 lease eq_refl
              (fun x => eq_refl) (fun x => eq_refl)) as [R [_ Row]].
  split; [exact R | exact Row].
Defined.
